(** * Timetable import: a shallow embedding of [src/utils/excelParser.ts]

    The development follows the class [ExcelParser]: the JavaScript string
    primitives it calls, a backtracking matcher for the regular expressions
    it uses, the record types of [src/types/index.ts], and then the methods
    [findTimetableSheet], [parseWorksheet], [parseSessionCell],
    [parseSessionLine], [normalizeTime], [calculateLineConfidence] and
    [calculateConfidence], each translated statement by statement.

    Conventions of the model:
    - a JavaScript string is a [string] of one-byte code units; white space
      and letter case are those of the ASCII range;
    - a JavaScript number that the parser computes with is an integer or
      [NaN]; the one division, in [calculateConfidence], is taken over the
      rationals (both operands are integers, and the thresholds 0.8 and 0.6
      are compared as 4/5 and 3/5);
    - [uuidv4] is an oracle: its k-th call returns a token or throws;
    - a thrown exception is the left summand of a sum type. *)

From Stdlib Require Import Ascii String List ZArith QArith Lia Lqa Bool.
From Stdlib Require OrderedTypeEx.
From stdpp Require Import base option list gmap strings pretty.

Set Warnings "-comment-terminator-in-string".

Local Open Scope string_scope.
Local Open Scope list_scope.

(** ** JavaScript strings *)

Module Js.

(** The white space of [\s] and of [String.prototype.trim]:
    TAB, LF, VT, FF, CR and SPACE. *)
Definition isSpace (c : ascii) : bool :=
  let n := nat_of_ascii c in
  ((9 <=? n)%nat && (n <=? 13)%nat) || (n =? 32)%nat.

Definition isDigit (c : ascii) : bool :=
  let n := nat_of_ascii c in (48 <=? n)%nat && (n <=? 57)%nat.

Definition isUpper (c : ascii) : bool :=
  let n := nat_of_ascii c in (65 <=? n)%nat && (n <=? 90)%nat.

Definition isLower (c : ascii) : bool :=
  let n := nat_of_ascii c in (97 <=? n)%nat && (n <=? 122)%nat.

Definition lowerChar (c : ascii) : ascii :=
  if isUpper c then ascii_of_nat (nat_of_ascii c + 32) else c.

Definition upperChar (c : ascii) : ascii :=
  if isLower c then ascii_of_nat (nat_of_ascii c - 32) else c.

Fixpoint mapChars (f : ascii -> ascii) (s : string) : string :=
  match s with
  | EmptyString => EmptyString
  | String c s' => String (f c) (mapChars f s')
  end.

Definition toLowerCase : string -> string := mapChars lowerChar.
Definition toUpperCase : string -> string := mapChars upperChar.

Definition isEmpty (s : string) : bool :=
  match s with EmptyString => true | String _ _ => false end.

(** A string used as a condition: the empty string is falsy. *)
Definition truthy (s : string) : bool := negb (isEmpty s).

Fixpoint trimStart (s : string) : string :=
  match s with
  | EmptyString => EmptyString
  | String c s' => if isSpace c then trimStart s' else s
  end.

Fixpoint trimEnd (s : string) : string :=
  match s with
  | EmptyString => EmptyString
  | String c s' =>
      let t := trimEnd s' in
      if isSpace c && isEmpty t then EmptyString else String c t
  end.

Definition trim (s : string) : string := trimEnd (trimStart s).

Fixpoint startsWith (p s : string) : bool :=
  match p, s with
  | EmptyString, _ => true
  | String a p', String b s' => Ascii.eqb a b && startsWith p' s'
  | String _ _, EmptyString => false
  end.

(** [s.includes(sub)] *)
Fixpoint includes (sub s : string) : bool :=
  startsWith sub s ||
  match s with
  | EmptyString => false
  | String _ s' => includes sub s'
  end.

Fixpoint drop (n : nat) (s : string) : string :=
  match n, s with
  | O, _ => s
  | S n', String _ s' => drop n' s'
  | S _, EmptyString => EmptyString
  end.

Fixpoint take (n : nat) (s : string) : string :=
  match n, s with
  | S n', String c s' => String c (take n' s')
  | _, _ => EmptyString
  end.

(** [s.substring(a, b)]: both indices are clamped to [0, length] and
    swapped when out of order. *)
Definition substring (a b : Z) (s : string) : string :=
  let len := Z.of_nat (String.length s) in
  let a' := Z.max 0 (Z.min a len) in
  let b' := Z.max 0 (Z.min b len) in
  let lo := Z.min a' b' in
  let hi := Z.max a' b' in
  take (Z.to_nat (hi - lo)) (drop (Z.to_nat lo) s).

(** [s.lastIndexOf(c)] for a one-character needle; -1 when absent. *)
Fixpoint lastIndexFrom (c : ascii) (i : Z) (s : string) (found : Z) : Z :=
  match s with
  | EmptyString => found
  | String a s' => lastIndexFrom c (i + 1) s' (if Ascii.eqb a c then i else found)
  end.

Definition lastIndexOf (c : ascii) (s : string) : Z := lastIndexFrom c 0 s (-1).

(** [s.split(c)] for a one-character separator. *)
Fixpoint splitChar (c : ascii) (s : string) : list string :=
  match s with
  | EmptyString => [EmptyString]
  | String a s' =>
      if Ascii.eqb a c then EmptyString :: splitChar c s'
      else match splitChar c s' with
           | [] => [String a EmptyString]
           | w :: ws => String a w :: ws
           end
  end.

Fixpoint repeatChar (c : ascii) (n : nat) : string :=
  match n with O => EmptyString | S n' => String c (repeatChar c n') end.

(** [s.padStart(n, c)] for a one-character filler. *)
Definition padStart (n : nat) (c : ascii) (s : string) : string :=
  repeatChar c (n - String.length s) +:+ s.

(** Numbers as the parser meets them. *)
Inductive number : Type :=
| Num (z : Z)
| NaN.

Definition numberToString (x : number) : string :=
  match x with
  | Num z => pretty z
  | NaN => "NaN"
  end.

Definition digitValue (c : ascii) : Z := Z.of_nat (nat_of_ascii c - 48).

Fixpoint readDigits (s : string) (acc : option Z) : option Z :=
  match s with
  | String c s' =>
      if isDigit c
      then readDigits s' (Some (10 * default 0%Z acc + digitValue c)%Z)
      else acc
  | EmptyString => acc
  end.

(** [parseInt(s)] in radix 10: leading white space, an optional sign, then
    the longest run of digits; [NaN] when there is no digit. *)
Definition parseInt (s : string) : number :=
  let t := trimStart s in
  let '(neg, body) :=
    match t with
    | String "-" r => (true, r)
    | String "+" r => (false, r)
    | _ => (false, t)
    end in
  match readDigits body None with
  | Some z => Num (if neg then - z else z)
  | None => NaN
  end.

End Js.

(** ** Regular expressions

    A backtracking matcher with the priorities of the ECMAScript one: the
    leftmost start position wins, alternatives are tried left to right, a
    greedy quantifier tries one more iteration before the continuation and
    a lazy one the continuation first. Only the constructs that occur in
    [excelParser.ts] are present.

    The loops carry fuel. A quantifier starts with one unit more than its
    lower bound plus the length of the text left, and every iteration
    either counts against the lower bound or consumes a character, so the
    fuel does not run out; the same holds for the scans of [replaceAll] and
    [split], which advance by at least one character in two steps. *)

Module Regex.

Inductive regex : Type :=
| Eps
| Chr (cls : ascii -> bool)
| Cat (r1 r2 : regex)
| Alt (r1 r2 : regex)
| Rep (greedy : bool) (lo : nat) (hi : option nat) (r : regex)
| Grp (i : nat) (r : regex)
| Bol
| Eol.

(** Captures: the most recent binding of a group comes first. *)
Definition caps : Type := list (nat * string).

Fixpoint capture (i : nat) (c : caps) : option string :=
  match c with
  | [] => None
  | (j, s) :: c' => if (i =? j)%nat then Some s else capture i c'
  end.

(** A continuation receives the position reached, the text remaining
    there and the captures so far. *)
Definition cont : Type := nat -> string -> caps -> option (nat * caps).

Definition orElse {A} (x : option A) (y : unit -> option A) : option A :=
  match x with Some _ => x | None => y tt end.

Fixpoint rmatch (r : regex) (pos : nat) (s : string) (c : caps) (k : cont)
    {struct r} : option (nat * caps) :=
  match r with
  | Eps => k pos s c
  | Chr cls =>
      match s with
      | String a s' => if cls a then k (S pos) s' c else None
      | EmptyString => None
      end
  | Cat r1 r2 => rmatch r1 pos s c (fun pos' s' c' => rmatch r2 pos' s' c' k)
  | Alt r1 r2 => orElse (rmatch r1 pos s c k) (fun _ => rmatch r2 pos s c k)
  | Rep greedy lo0 hi0 r1 =>
      (fix loop (fuel lo : nat) (hi : option nat) (pos : nat) (s : string)
           (c : caps) {struct fuel} : option (nat * caps) :=
         match fuel with
         | O => None
         | S fuel' =>
             let iter (_ : unit) :=
               rmatch r1 pos s c (fun pos' s' c' =>
                 if (lo =? 0)%nat && (pos' =? pos)%nat then None
                 else loop fuel' (Nat.pred lo) (Nat.pred <$> hi) pos' s' c') in
             match hi with
             | Some O => k pos s c
             | _ =>
                 if (0 <? lo)%nat then iter tt
                 else if greedy then orElse (iter tt) (fun _ => k pos s c)
                 else orElse (k pos s c) iter
             end
         end) (S (lo0 + String.length s)) lo0 hi0 pos s c
  | Grp i r1 =>
      rmatch r1 pos s c (fun pos' s' c' =>
        k pos' s' ((i, Js.take (pos' - pos) s) :: c'))
  | Bol => if (pos =? 0)%nat then k pos s c else None
  | Eol => match s with EmptyString => k pos s c | String _ _ => None end
  end.

(** A match anchored at position [pos], where [s] is the text from there
    on: the end position and the captures. *)
Definition matchAt (r : regex) (pos : nat) (s : string) : option (nat * caps) :=
  rmatch r pos s [] (fun e _ c => Some (e, c)).

(** What [s.match(re)] and [re.exec(s)] return for a regex without the
    [g] flag. *)
Record MatchResult : Type := mkMatch {
  index : nat;
  matched : string;
  groups : caps
}.

(** [m[i]] for i >= 1; [None] is [undefined]. *)
Definition group (i : nat) (m : MatchResult) : option string := capture i (groups m).

Fixpoint execFrom (r : regex) (pos : nat) (s : string) : option MatchResult :=
  match matchAt r pos s with
  | Some (e, c) => Some (mkMatch pos (Js.take (e - pos) s) c)
  | None =>
      match s with
      | String _ s' => execFrom r (S pos) s'
      | EmptyString => None
      end
  end.

Definition exec (r : regex) (s : string) : option MatchResult := execFrom r 0 s.

(** A replacement string: literal text and [$n] references. *)
Inductive piece : Type :=
| Lit (s : string)
| Ref (i : nat).

Fixpoint expand (t : list piece) (m : MatchResult) : string :=
  match t with
  | [] => EmptyString
  | Lit s :: t' => s +:+ expand t' m
  | Ref i :: t' => default EmptyString (group i m) +:+ expand t' m
  end.

(** [s.replace(re, t)] without the [g] flag: the first match only. *)
Definition replace (r : regex) (t : list piece) (s : string) : string :=
  match exec r s with
  | None => s
  | Some m =>
      Js.take (index m) s +:+ expand t m
      +:+ Js.drop (index m + String.length (matched m)) s
  end.

(** [s.replace(re, t)] with the [g] flag; [s] is the text from [pos] on.
    After an empty match the scan moves on by one character. *)
Fixpoint replaceAllFrom (fuel : nat) (r : regex) (t : list piece) (pos : nat)
    (s : string) : string :=
  match fuel with
  | O => s
  | S fuel' =>
      match execFrom r pos s with
      | None => s
      | Some m =>
          let skip := (index m - pos)%nat in
          let len := String.length (matched m) in
          let rest := Js.drop (skip + len) s in
          Js.take skip s +:+ expand t m +:+
          (if (len =? 0)%nat then
             match rest with
             | EmptyString => EmptyString
             | String a rest' =>
                 String a (replaceAllFrom fuel' r t (S (index m)) rest')
             end
           else replaceAllFrom fuel' r t (index m + len) rest)
      end
  end.

Definition replaceAll (r : regex) (t : list piece) (s : string) : string :=
  replaceAllFrom (S (String.length s)) r t 0 s.

(** [s.split(re)] for a regex without capture groups: [p] is where the
    current piece starts and [q] where a separator is looked for next. *)
Fixpoint splitFrom (fuel : nat) (r : regex) (p q : nat) (s : string) : list string :=
  match fuel with
  | O => []
  | S fuel' =>
      let size := String.length s in
      if (size <=? q)%nat then [Js.drop p s]
      else match matchAt r q (Js.drop q s) with
           | None => splitFrom fuel' r p (S q) s
           | Some (e, _) =>
               let e' := Nat.min e size in
               if (e' =? p)%nat then splitFrom fuel' r p (S q) s
               else Js.take (q - p) (Js.drop p s) :: splitFrom fuel' r e' e' s
           end
  end.

Definition split (r : regex) (s : string) : list string :=
  match s with
  | EmptyString => match matchAt r 0 s with Some _ => [] | None => [s] end
  | String _ _ => splitFrom (S (S (2 * String.length s))) r 0 0 s
  end.

(** *** Notation for writing the patterns of the source *)

Definition lit (a : ascii) : regex := Chr (Ascii.eqb a).
(** A literal character under the [i] flag. *)
Definition liti (a : ascii) : regex :=
  Chr (fun b => Ascii.eqb (Js.upperChar a) (Js.upperChar b)).

Fixpoint str (s : string) : regex :=
  match s with
  | EmptyString => Eps
  | String a EmptyString => lit a
  | String a s' => Cat (lit a) (str s')
  end.

Fixpoint stri (s : string) : regex :=
  match s with
  | EmptyString => Eps
  | String a EmptyString => liti a
  | String a s' => Cat (liti a) (stri s')
  end.

Fixpoint seq (rs : list regex) : regex :=
  match rs with
  | [] => Eps
  | [r] => r
  | r :: rs' => Cat r (seq rs')
  end.

Definition star (r : regex) : regex := Rep true 0 None r.
Definition plus (r : regex) : regex := Rep true 1 None r.
Definition opt (r : regex) : regex := Rep true 0 (Some 1) r.
Definition starLazy (r : regex) : regex := Rep false 0 None r.
Definition plusLazy (r : regex) : regex := Rep false 1 None r.
Definition times (lo hi : nat) (r : regex) : regex := Rep true lo (Some hi) r.

(** Membership of a character in the characters of a string. *)
Fixpoint among (s : string) (a : ascii) : bool :=
  match s with
  | EmptyString => false
  | String b s' => Ascii.eqb a b || among s' a
  end.

(** [\s], [\d] and [.] *)
Definition space : regex := Chr Js.isSpace.
Definition digit : regex := Chr Js.isDigit.
Definition dot : regex :=
  Chr (fun a => negb (Ascii.eqb a "010"%char || Ascii.eqb a "013"%char)).
(** [[^...]] over the characters of [s]. *)
Definition noneOf (s : string) : regex := Chr (fun a => negb (among s a)).
(** [[...]] over the characters of [s], under the [i] flag. *)
Definition oneOfi (s : string) : regex :=
  Chr (fun a => among s (Js.upperChar a) || among s (Js.lowerChar a)).

End Regex.

(** ** The records of [src/types/index.ts] *)

Inductive Confidence : Type := high | medium | low.

Inductive Attendance : Type := present | absent | off | mixed.

Module ParsedCell.
Record t : Type := mk {
  subject_name : string;
  session_type : string;
  room_or_code : string;
  lecturer : string;
  groups : list string;
  raw_text : string;
  confidence : Confidence
}.
End ParsedCell.

Module Session.
Record t : Type := mk {
  id : string;
  day : string;
  start_time : string;
  duration_slots : Z;
  subject_name : string;
  session_type : string;
  room : string;
  lecturer : string;
  groups : list string;
  notes : string;
  attendance_marked : option Attendance
}.
End Session.

Record UnparsedCell : Type := mkUnparsed {
  row : Z;
  col : Z;
  content : string
}.

Record Metadata : Type := mkMetadata {
  totalCells : Z;
  parsedCells : Z;
  confidence : Confidence
}.

Record ImportPreview : Type := mkPreview {
  sessions : list Session.t;
  unparsedCells : list UnparsedCell;
  metadata : Metadata
}.

(** ** The decoded workbook (the part of the [xlsx] interface that the
    parser reads) *)

Inductive CellValue : Type :=
| VString (s : string)
| VNumber (z : Z)
| VBoolean (b : bool).

Record Cell : Type := mkCell { v : option CellValue }.

(** A decoded [!ref]: first and last row, first and last column
    ([range.s.r], [range.e.r], [range.s.c], [range.e.c]). *)
Record Range : Type := mkRange { s_r : nat; s_c : nat; e_r : nat; e_c : nat }.

(** A worksheet: its [!ref], already decoded, and its cells by (row,
    column), which is what [encode_cell] addresses. *)
Record Worksheet : Type := mkSheet {
  ref : option Range;
  cells : gmap (nat * nat) Cell
}.

Record WorkBook : Type := mkBook {
  SheetNames : list string;
  Sheets : gmap string Worksheet
}.

(** [decode_range(worksheet['!ref'] || 'A1:A1')] *)
Definition rangeOf (ws : Worksheet) : Range :=
  default (mkRange 0 0 0 0) (ref ws).

(** The truth value of [cell.v] and its [toString()]. *)
Definition valueTruthy (x : CellValue) : bool :=
  match x with
  | VString s => Js.truthy s
  | VNumber z => negb (z =? 0)%Z
  | VBoolean b => b
  end.

Definition valueToString (x : CellValue) : string :=
  match x with
  | VString s => s
  | VNumber z => pretty z
  | VBoolean b => if b then "true" else "false"
  end.

(** [worksheet[encode_cell({r, c})]] under the guard [cell && cell.v]:
    the text [cell.v.toString()] when the guard passes. *)
Definition cellText (ws : Worksheet) (r c : nat) : option string :=
  match cells ws !! (r, c) with
  | Some (mkCell (Some x)) => if valueTruthy x then Some (valueToString x) else None
  | _ => None
  end.

(** Exceptions. [StructureError] is the [Error] thrown by [parseWorksheet]
    (message: Could not find timetable structure ...); [TypeError] is a
    property read on [undefined]; [UuidError] is a failure of [uuidv4]. *)
Inductive Exn : Type := StructureError | TypeError | UuidError.

(** Computations that call [uuidv4]: the state is the number of calls made
    so far, and a computation returns a value or throws. *)
Definition Gen (A : Type) : Type := nat -> (Exn + A) * nat.

Definition ret {A} (a : A) : Gen A := fun n => (inr a, n).

Definition bind {A B} (m : Gen A) (f : A -> Gen B) : Gen B :=
  fun n =>
    match m n with
    | (inr a, n') => f a n'
    | (inl e, n') => (inl e, n')
    end.

Notation "'let*' x ':=' m 'in' k" := (bind m (fun x => k))
  (at level 10, x name, m at level 100, k at level 200).

(** An object with string keys, in insertion order (the order of
    [Object.entries]). *)
Fixpoint setKey (k : string) (x : nat) (o : list (string * nat)) : list (string * nat) :=
  match o with
  | [] => [(k, x)]
  | (k', y) :: o' =>
      if String.eqb k k' then (k', x) :: o' else (k', y) :: setKey k x o'
  end.

(** ** [class ExcelParser] *)

Module ExcelParser.

Import Regex.

Definition DAYS : list string :=
  ["Monday"; "Tuesday"; "Wednesday"; "Thursday"; "Friday"; "Saturday"; "Sunday"].

(** [(AM|PM)] under the [i] flag *)
Definition ampmRe : regex := Alt (stri "AM") (stri "PM").

Definition TIME_PATTERNS : list regex :=
  [ (* "/^(\d{1,2}):(\d{2})$/" *)
    seq [Bol; Grp 1 (times 1 2 digit); str ":"; Grp 2 (times 2 2 digit); Eol];
    (* "/^(\d{1,2})\.(\d{2})$/" *)
    seq [Bol; Grp 1 (times 1 2 digit); str "."; Grp 2 (times 2 2 digit); Eol];
    (* "/^(\d{1,2}):(\d{2})\s*(AM|PM)$/i" *)
    seq [Bol; Grp 1 (times 1 2 digit); str ":"; Grp 2 (times 2 2 digit);
         star space; Grp 3 ampmRe; Eol];
    (* "/^(\d{1,2})\s*(AM|PM)$/i" *)
    seq [Bol; Grp 1 (times 1 2 digit); star space; Grp 2 ampmRe; Eol] ].

(** *** [calculateLineConfidence] and [calculateConfidence] *)

Definition calculateLineConfidence (subject type room lecturer : string)
    (groups : list string) : Confidence :=
  let score := 0%Z in
  let score := if Js.truthy subject && (3 <? String.length subject)%nat
               then (score + 2)%Z else score in
  let score := if Js.truthy type then (score + 1)%Z else score in
  let score := if Js.truthy room then (score + 1)%Z else score in
  let score := if Js.truthy lecturer && (3 <? String.length lecturer)%nat
               then (score + 1)%Z else score in
  let score := if (0 <? length groups)%nat then (score + 1)%Z else score in
  if (5 <=? score)%Z then high
  else if (3 <=? score)%Z then medium
  else low.

Definition calculateConfidence (parsed total : Z) : Confidence :=
  let ratio := (inject_Z parsed / inject_Z (Z.max total 1))%Q in
  if Qle_bool (8 # 10) ratio then high
  else if Qle_bool (6 # 10) ratio then medium
  else low.

(** *** [normalizeTime] *)

(** The pattern "/\s+/g" *)
Definition spacesRe : regex := plus space.

(** The pattern "/[^\d:.\sAPM]/gi" *)
Definition notTimeCharRe : regex :=
  Chr (fun a => negb (Js.isDigit a || among ":." a || Js.isSpace a
                      || among "APM" (Js.upperChar a))).

(** The pattern "/^(\d{1,2})$/" *)
Definition numericRe : regex := seq [Bol; Grp 1 (times 1 2 digit); Eol].

(** The template [`${hours...padStart(2, '0')}:${minutes...padStart(2, '0')}`] *)
Definition formatTime (hours minutes : Js.number) : string :=
  Js.padStart 2 "0" (Js.numberToString hours) +:+ ":" +:+
  Js.padStart 2 "0" (Js.numberToString minutes).

Definition numberIs (x : Js.number) (z : Z) : bool :=
  match x with Js.Num y => (y =? z)%Z | Js.NaN => false end.

Definition numberAdd (x : Js.number) (z : Z) : Js.number :=
  match x with Js.Num y => Js.Num (y + z) | Js.NaN => Js.NaN end.

(** The body of the loop over [TIME_PATTERNS] once [pattern] has matched. *)
Definition timeOfMatch (m : MatchResult) : string :=
  let hours := Js.parseInt (default "" (group 1 m)) in
  let minutes :=
    match group 2 m with
    | Some g => if Js.truthy g then Js.parseInt g else Js.Num 0
    | None => Js.Num 0
    end in
  let ampm := Js.toUpperCase <$> group 3 m in
  let isPM := match ampm with Some a => String.eqb a "PM" | None => false end in
  let isAM := match ampm with Some a => String.eqb a "AM" | None => false end in
  let hours := if isPM && negb (numberIs hours 12) then numberAdd hours 12 else hours in
  let hours := if isAM && numberIs hours 12 then Js.Num 0 else hours in
  formatTime hours minutes.

Fixpoint firstPattern (ps : list regex) (cleaned : string) : option string :=
  match ps with
  | [] => None
  | pattern :: ps' =>
      match exec pattern cleaned with
      | Some m => Some (timeOfMatch m)
      | None => firstPattern ps' cleaned
      end
  end.

(** [None] is [null]. *)
Definition normalizeTime (timeStr : string) : option string :=
  let cleaned :=
    replaceAll notTimeCharRe []
      (replaceAll spacesRe [Lit " "] (Js.trim timeStr)) in
  match firstPattern TIME_PATTERNS cleaned with
  | Some t => Some t
  | None =>
      match exec numericRe cleaned with
      | Some m =>
          match Js.parseInt (default "" (group 1 m)) with
          | Js.Num hours =>
              if (0 <=? hours)%Z && (hours <=? 23)%Z
              then Some (Js.padStart 2 "0" (Js.numberToString (Js.Num hours)) +:+ ":00")
              else None
          | Js.NaN => None
          end
      | None => None
      end
  end.

(** *** [parseSessionLine] *)

(** The pattern "/\(([^)]+)\)\s*$/" *)
Definition groupsRe : regex :=
  seq [str "("; Grp 1 (plus (noneOf ")")); str ")"; star space; Eol].

(** The pattern "/[,\s]+/" *)
Definition groupSepRe : regex :=
  plus (Chr (fun a => among "," a || Js.isSpace a)).

(** The pattern "/:\s*([^:()]+?)(?:\s*:\s*)?$/" *)
Definition lecturerRe : regex :=
  seq [str ":"; star space; Grp 1 (plusLazy (noneOf ":()"));
       opt (seq [star space; str ":"; star space]); Eol].

(** The pattern "/^(Dr\.|Mr\.|Ms\.|Prof\.)\s*/i" *)
Definition titleRe : regex :=
  seq [Bol;
       Grp 1 (Alt (stri "Dr.") (Alt (stri "Mr.") (Alt (stri "Ms.") (stri "Prof."))));
       star space].

(** The pattern "/:\s*\(([^)]+)\)/" *)
Definition roomRe : regex :=
  seq [str ":"; star space; str "("; Grp 1 (plus (noneOf ")")); str ")"].

(** The pattern "/^(Room\s*)?/i" *)
Definition roomPrefixRe : regex :=
  seq [Bol; opt (Grp 1 (seq [stri "Room"; star space]))].

(** The pattern "/:\s*\([^)]+\)/" *)
Definition roomCutRe : regex :=
  seq [str ":"; star space; str "("; plus (noneOf ")"); str ")"].

(** The pattern "/^(.+?)\s*(?:\(([PLTFpr]+)\))?\s*:?$/i" *)
Definition subjectRe : regex :=
  seq [Bol; Grp 1 (plusLazy dot); star space;
       opt (seq [str "("; Grp 2 (plus (oneOfi "PLTFpr")); str ")"]);
       star space; opt (str ":"); Eol].

(** The pattern "/^(.*?)\s*$/" *)
Definition cleanRe : regex := seq [Bol; Grp 1 (starLazy dot); star space; Eol].

(** The pattern "/:\s*$/" *)
Definition trailingColonRe : regex := seq [str ":"; star space; Eol].

(** [None] is [null]. The [try] of the source encloses calls that cannot
    throw on strings, so its [catch] branch has no counterpart here. *)
Definition parseSessionLine (line : string) : option ParsedCell.t :=
  (* groups *)
  let '(groups, line) :=
    match exec groupsRe line with
    | Some groupsMatch =>
        let groupsStr := default "" (group 1 groupsMatch) in
        (List.filter (fun g => Js.truthy g && (0 <? String.length g)%nat)
           (map Js.trim (split groupSepRe groupsStr)),
         Js.trim (Js.substring 0 (Js.lastIndexOf "(" line) line))
    | None => ([], line)
    end in
  (* lecturer *)
  let '(lecturer, line) :=
    match exec lecturerRe line with
    | Some lecturerMatch =>
        (replaceAll spacesRe [Lit " "]
           (replace titleRe [Ref 1; Lit " "]
              (Js.trim (default "" (group 1 lecturerMatch)))),
         Js.trim (Js.substring 0 (Js.lastIndexOf ":" line) line))
    | None => ("", line)
    end in
  (* room *)
  let '(room_or_code, line) :=
    match exec roomRe line with
    | Some roomMatch =>
        (replaceAll spacesRe [Lit " "]
           (replace roomPrefixRe []
              (Js.trim (default "" (group 1 roomMatch)))),
         Js.trim (replace roomCutRe [] line))
    | None => ("", line)
    end in
  (* subject and type *)
  let '(subject_name, session_type) :=
    match exec subjectRe line with
    | Some subjectMatch =>
        (replace cleanRe [Ref 1]
           (replaceAll spacesRe [Lit " "]
              (Js.trim (default "" (group 1 subjectMatch)))),
         Js.toUpperCase (default "" (group 2 subjectMatch)))
    | None =>
        (replaceAll spacesRe [Lit " "]
           (Js.trim (replace trailingColonRe [] line)), "")
    end in
  if Js.isEmpty subject_name then None
  else Some (ParsedCell.mk subject_name session_type room_or_code lecturer
               groups line
               (calculateLineConfidence subject_name session_type
                  room_or_code lecturer groups)).

(** *** [findTimetableSheet] *)

(** Whether [cellText] contains the lower-cased name of some weekday. *)
Definition mentionsDay (cellText : string) : bool :=
  existsb (fun day => Js.includes (Js.toLowerCase day) cellText) DAYS.

(** [for (let row = range.s.r; row <= Math.min(range.e.r, range.s.r + 10); row++)] *)
Definition headerRows (range : Range) : list nat :=
  List.seq (s_r range) (S (Nat.min (e_r range) (s_r range + 10)) - s_r range).

(** [for (let col = range.s.c; col <= Math.min(range.e.c, range.s.c + 10); col++)] *)
Definition probeCols (range : Range) : list nat :=
  List.seq (s_c range) (S (Nat.min (e_c range) (s_c range + 10)) - s_c range).

(** One step of the column loop of [findTimetableSheet], on the pair
    ([hasTime], [dayCount]). *)
Definition probeCell (ws : Worksheet) (row : nat) (st : bool * nat) (col : nat)
    : bool * nat :=
  let '(hasTime, dayCount) := st in
  match cellText ws row col with
  | Some text =>
      let cellText := Js.trim (Js.toLowerCase text) in
      (if Js.includes "time" cellText then true else hasTime,
       if mentionsDay cellText then S dayCount else dayCount)
  | None => (hasTime, dayCount)
  end.

(** The body of the row loop: [hasTime && dayCount >= 3] after the columns
    of [row] have been read. *)
Definition probeRow (ws : Worksheet) (range : Range) (row : nat) : bool :=
  let '(hasTime, dayCount) :=
    fold_left (probeCell ws row) (probeCols range) (false, 0) in
  hasTime && (3 <=? dayCount)%nat.

(** Whether the row loop returns for this sheet. *)
Definition probeSheet (ws : Worksheet) : bool :=
  existsb (probeRow ws (rangeOf ws)) (headerRows (rangeOf ws)).

(** The loop over [workbook.SheetNames]: [inr (Some name)] when it returns
    inside the loop, [inr None] when it runs to its end. Reading [!ref] on
    a sheet that [workbook.Sheets] lacks throws. *)
Fixpoint probeSheets (workbook : WorkBook) (names : list string)
    : Exn + option string :=
  match names with
  | [] => inr None
  | sheetName :: names' =>
      match Sheets workbook !! sheetName with
      | None => inl TypeError
      | Some worksheet =>
          if probeSheet worksheet then inr (Some sheetName)
          else probeSheets workbook names'
      end
  end.

(** [None] is [undefined], which is what [SheetNames[0]] is for a workbook
    without sheets. *)
Definition findTimetableSheet (workbook : WorkBook) : Exn + option string :=
  match probeSheets workbook (SheetNames workbook) with
  | inr None => inr (head (SheetNames workbook))
  | found => found
  end.

(** *** [parseSessionCell] *)

Section WithUuid.

(** The outcome of the k-th call of [uuidv4] in a run: a token, or [None]
    when the call throws. *)
Variable uuidv4 : nat -> option string.

Definition callUuid : Gen string :=
  fun n =>
    match uuidv4 n with
    | Some tok => (inr tok, S n)
    | None => (inl UuidError, S n)
    end.

(** The loop over the lines of a cell; [acc] is the local array
    [sessions]. *)
Fixpoint sessionsOfLines (lines : list string) (day startTime : string)
    (acc : list Session.t) : Gen (list Session.t) :=
  match lines with
  | [] => ret acc
  | line :: lines' =>
      match parseSessionLine (Js.trim line) with
      | Some parsed =>
          let* id := callUuid in
          sessionsOfLines lines' day startTime
            (acc ++ [Session.mk id day startTime 1
                       (ParsedCell.subject_name parsed)
                       (ParsedCell.session_type parsed)
                       (ParsedCell.room_or_code parsed)
                       (ParsedCell.lecturer parsed)
                       (ParsedCell.groups parsed)
                       "" None])
      | None => sessionsOfLines lines' day startTime acc
      end
  end.

Definition parseSessionCell (cellContent day startTime : string)
    : Gen (list Session.t) :=
  let lines :=
    List.filter (fun line => Js.truthy (Js.trim line))
      (Js.splitChar "010" cellContent) in
  sessionsOfLines lines day startTime [].

(** *** [parseWorksheet] *)

(** The variables [headerRow], [timeCol] and [dayCols] of the header scan;
    [None] stands for the initial -1. *)
Record Header : Type := mkHeader {
  headerRow : option nat;
  timeCol : option nat;
  dayCols : list (string * nat)
}.

(** The test [x !== -1]. *)
Definition isSet (x : option nat) : bool :=
  match x with Some _ => true | None => false end.

(** [for (let col = range.s.c; col <= range.e.c; col++)] *)
Definition sheetCols (range : Range) : list nat :=
  List.seq (s_c range) (S (e_c range) - s_c range).

(** [for (const day of this.DAYS) if (cellText.includes(...)) dayCols[day] = col] *)
Definition recordDays (cellText : string) (col : nat) (dayCols : list (string * nat))
    : list (string * nat) :=
  fold_left
    (fun dc day =>
       if Js.includes (Js.toLowerCase day) cellText then setKey day col dc else dc)
    DAYS dayCols.

(** One step of the column loop of the header scan. *)
Definition scanCell (ws : Worksheet) (row : nat) (h : Header) (col : nat) : Header :=
  match cellText ws row col with
  | Some text =>
      let cellText := Js.trim (Js.toLowerCase text) in
      let h' :=
        if Js.includes "time" cellText
        then mkHeader (Some row) (Some col) (dayCols h)
        else h in
      mkHeader (headerRow h') (timeCol h') (recordDays cellText col (dayCols h'))
  | None => h
  end.

(** The row loop of the header scan, with its [break]. *)
Fixpoint scanRows (ws : Worksheet) (cols rows : list nat) (h : Header) : Header :=
  match rows with
  | [] => h
  | row :: rows' =>
      let h' := fold_left (scanCell ws row) cols h in
      if isSet (headerRow h') && (3 <=? length (dayCols h'))%nat
      then h'
      else scanRows ws cols rows' h'
  end.

Definition scanHeader (ws : Worksheet) : Header :=
  scanRows ws (sheetCols (rangeOf ws)) (headerRows (rangeOf ws))
    (mkHeader None None []).

(** The arrays [sessions] and [unparsedCells] while the data rows are
    walked. *)
Record Acc : Type := mkAcc {
  accSessions : list Session.t;
  accUnparsed : list UnparsedCell
}.

(** [try { ... parseSessionCell ... } catch (error) { unparsedCells.push(...) }] *)
Definition parseCell (row dayCol : nat) (cellContent day timeStr : string)
    (acc : Acc) : Gen Acc :=
  fun n =>
    match parseSessionCell cellContent day timeStr n with
    | (inr parsedSessions, n') =>
        (inr (mkAcc (accSessions acc ++ parsedSessions) (accUnparsed acc)), n')
    | (inl _, n') =>
        (inr (mkAcc (accSessions acc)
                (accUnparsed acc ++
                   [mkUnparsed (Z.of_nat row + 1) (Z.of_nat dayCol + 1) cellContent])),
         n')
    end.

(** The body of [for (const [day, dayCol] of Object.entries(dayCols))]. *)
Definition visitDay (ws : Worksheet) (row : nat) (timeStr : string) (acc : Acc)
    (entry : string * nat) : Gen Acc :=
  let '(day, dayCol) := entry in
  match cellText ws row dayCol with
  | None => ret acc
  | Some text =>
      let cellContent := Js.trim text in
      if Js.isEmpty cellContent then ret acc
      else parseCell row dayCol cellContent day timeStr acc
  end.

Fixpoint visitDays (ws : Worksheet) (row : nat) (timeStr : string)
    (entries : list (string * nat)) (acc : Acc) : Gen Acc :=
  match entries with
  | [] => ret acc
  | entry :: entries' =>
      let* acc' := visitDay ws row timeStr acc entry in
      visitDays ws row timeStr entries' acc'
  end.

(** The time of a data row: [None] when the row is skipped by one of the
    two [continue] statements. *)
Definition rowTime (ws : Worksheet) (timeCol row : nat) : option string :=
  match cellText ws row timeCol with
  | None => None
  | Some text =>
      match normalizeTime text with
      | Some timeStr => if Js.truthy timeStr then Some timeStr else None
      | None => None
      end
  end.

(** [for (let row = headerRow + 1; row <= range.e.r; row++)] *)
Definition dataRows (range : Range) (headerRow : nat) : list nat :=
  List.seq (S headerRow) (e_r range - headerRow).

Fixpoint visitRows (ws : Worksheet) (timeCol : nat) (dayCols : list (string * nat))
    (rows : list nat) (acc : Acc) : Gen Acc :=
  match rows with
  | [] => ret acc
  | row :: rows' =>
      match rowTime ws timeCol row with
      | None => visitRows ws timeCol dayCols rows' acc
      | Some timeStr =>
          let* acc' := visitDays ws row timeStr dayCols acc in
          visitRows ws timeCol dayCols rows' acc'
      end
  end.

(** The array [timeslots] of the source is filled and never read; it is
    left out. *)
Definition parseWorksheet (worksheet : Worksheet) : Gen ImportPreview :=
  let range := rangeOf worksheet in
  let h := scanHeader worksheet in
  match headerRow h, timeCol h with
  | Some headerRow, Some timeCol =>
      let* acc := visitRows worksheet timeCol (dayCols h)
                    (dataRows range headerRow) (mkAcc [] []) in
      let totalCells :=
        ((Z.of_nat (e_r range) - Z.of_nat headerRow)
         * Z.of_nat (length (dayCols h)))%Z in
      let parsedCells := (totalCells - Z.of_nat (length (accUnparsed acc)))%Z in
      let confidence := calculateConfidence parsedCells totalCells in
      ret (mkPreview (accSessions acc) (accUnparsed acc)
             (mkMetadata totalCells parsedCells confidence))
  | _, _ => fun n => (inl StructureError, n)
  end.

End WithUuid.

End ExcelParser.

Import Regex ExcelParser.

(** ** Vocabulary of the statements *)

(** The two tests that the header loops apply to a cell. *)
Definition isTimeCell (ws : Worksheet) (row col : nat) : bool :=
  match cellText ws row col with
  | Some text => Js.includes "time" (Js.trim (Js.toLowerCase text))
  | None => false
  end.

Definition isDayCell (ws : Worksheet) (row col : nat) : bool :=
  match cellText ws row col with
  | Some text => mentionsDay (Js.trim (Js.toLowerCase text))
  | None => false
  end.

(** A header row as [findTimetableSheet] recognises one: among the
    probed columns of that one row, a cell with the word time and at
    least three cells that name a weekday. *)
Definition rowQualifies (ws : Worksheet) (row : nat) : Prop :=
  (exists col, In col (probeCols (rangeOf ws)) /\ isTimeCell ws row col = true) /\
  3 <= length (List.filter (isDayCell ws row) (probeCols (rangeOf ws))).

Definition sheetQualifies (ws : Worksheet) : Prop :=
  exists row, In row (headerRows (rangeOf ws)) /\ rowQualifies ws row.

(** Qualification as the specification words it: over the whole scan
    window, some cell with the word time and at least three distinct
    weekday names matched. *)
Definition windowTexts (ws : Worksheet) : list string :=
  flat_map
    (fun row =>
       flat_map
         (fun col =>
            match cellText ws row col with
            | Some text => [Js.trim (Js.toLowerCase text)]
            | None => []
            end)
         (probeCols (rangeOf ws)))
    (headerRows (rangeOf ws)).

Definition qualifiesAsStated (ws : Worksheet) : bool :=
  let texts := windowTexts ws in
  existsb (Js.includes "time") texts &&
  (3 <=? length (List.filter
                   (fun day => existsb (Js.includes (Js.toLowerCase day)) texts)
                   DAYS))%nat.

Fixpoint firstAsStated (workbook : WorkBook) (names : list string) : option string :=
  match names with
  | [] => None
  | name :: names' =>
      match Sheets workbook !! name with
      | Some ws =>
          if qualifiesAsStated ws then Some name else firstAsStated workbook names'
      | None => firstAsStated workbook names'
      end
  end.

Definition locateAsStated (workbook : WorkBook) : option string :=
  match firstAsStated workbook (SheetNames workbook) with
  | Some name => Some name
  | None => head (SheetNames workbook)
  end.

(** A canonical time: two digits, a colon, two digits. *)
Definition digitChar (k : nat) : ascii := ascii_of_nat (48 + k).

Definition twoDigits (k : nat) : string :=
  String (digitChar (k / 10)) (String (digitChar (k mod 10)) EmptyString).

Definition canonicalTime (h m : nat) : string :=
  twoDigits h +:+ ":" +:+ twoDigits m.

Definition fixesCanonical (h m : nat) : bool :=
  match normalizeTime (canonicalTime h m) with
  | Some t => String.eqb t (canonicalTime h m)
  | None => false
  end.

(** The reads of session cells that the walk over the data rows makes, in
    order: one for each data row with a time, each weekday entry of
    [dayCols], and a cell there with text that is not blank. *)
Record Visit : Type := mkVisit {
  vRow : nat;
  vCol : nat;
  vDay : string;
  vTime : string;
  vContent : string
}.

Definition visitsOfRow (ws : Worksheet) (row : nat) (timeStr : string)
    (entries : list (string * nat)) : list Visit :=
  flat_map
    (fun entry : string * nat =>
       match cellText ws row (snd entry) with
       | Some text =>
           if Js.isEmpty (Js.trim text) then []
           else [mkVisit row (snd entry) (fst entry) timeStr (Js.trim text)]
       | None => []
       end)
    entries.

Definition visitsOf (ws : Worksheet) (timeCol : nat) (entries : list (string * nat))
    (rows : list nat) : list Visit :=
  flat_map
    (fun row =>
       match rowTime ws timeCol row with
       | Some timeStr => visitsOfRow ws row timeStr entries
       | None => []
       end)
    rows.

(** All the reads of a sheet whose header was found. *)
Definition visits (ws : Worksheet) : list Visit :=
  match headerRow (scanHeader ws), timeCol (scanHeader ws) with
  | Some hr, Some tc =>
      visitsOf ws tc (dayCols (scanHeader ws)) (dataRows (rangeOf ws) hr)
  | _, _ => []
  end.

Definition accApp (a b : Acc) : Acc :=
  mkAcc (accSessions a ++ accSessions b) (accUnparsed a ++ accUnparsed b).

(** What one read adds to the two arrays, from call number [n] of
    [uuidv4] on, and the call number after it. *)
Definition visitOutcome (uuidv4 : nat -> option string) (v : Visit) (n : nat)
    : Acc * nat :=
  match parseSessionCell uuidv4 (vContent v) (vDay v) (vTime v) n with
  | (inr parsedSessions, n') => (mkAcc parsedSessions [], n')
  | (inl _, n') =>
      (mkAcc [] [mkUnparsed (Z.of_nat (vRow v) + 1) (Z.of_nat (vCol v) + 1) (vContent v)],
       n')
  end.

Fixpoint visitsOutcome (uuidv4 : nat -> option string) (vs : list Visit) (n : nat)
    : Acc * nat :=
  match vs with
  | [] => (mkAcc [] [], n)
  | v :: vs' =>
      let '(a, n1) := visitOutcome uuidv4 v n in
      let '(b, n2) := visitsOutcome uuidv4 vs' n1 in
      (accApp a b, n2)
  end.

(** The number of rows below the header row [hr], down to the last row of
    the range, times the number of weekday columns. *)
Definition cellCount (ws : Worksheet) (hr : nat) : Z :=
  (Z.of_nat (e_r (rangeOf ws)) - Z.of_nat hr)
  * Z.of_nat (length (dayCols (scanHeader ws))).

(** The quotient of [calculateConfidence]. *)
Definition parsedRatio (parsed total : Z) : Q :=
  (inject_Z parsed / inject_Z (Z.max total 1))%Q.

(** Some cell of the header scan of [parseWorksheet] has the word time:
    the rows are the first eleven of the range, the columns all of it. *)
Definition timeCellScanned (ws : Worksheet) : Prop :=
  exists row col,
    In row (headerRows (rangeOf ws)) /\ In col (sheetCols (rangeOf ws)) /\
    isTimeCell ws row col = true.

(** Every key of a weekday-to-column object is a weekday. *)
Definition keysAreDays (dc : list (string * nat)) : Prop :=
  forall day col, In (day, col) dc -> In day DAYS.

(** The fields that [parseSessionCell] fixes in each session it builds for
    weekday [day] and time [startTime]. *)
Definition builtFor (day startTime : string) (s : Session.t) : Prop :=
  Session.day s = day /\ Session.start_time s = startTime /\
  Session.duration_slots s = 1%Z /\ Session.notes s = "" /\
  Session.attendance_marked s = None.

(** A session without its identifier. *)
Definition withoutId (s : Session.t) : Session.t :=
  Session.mk "" (Session.day s) (Session.start_time s) (Session.duration_slots s)
    (Session.subject_name s) (Session.session_type s) (Session.room s)
    (Session.lecturer s) (Session.groups s) (Session.notes s)
    (Session.attendance_marked s).

(** Two outcomes of a walk that differ at most in the identifiers of
    their sessions. *)
Definition sameButIds (x y : Acc * nat) : Prop :=
  map withoutId (accSessions (fst x)) = map withoutId (accSessions (fst y)) /\
  accUnparsed (fst x) = accUnparsed (fst y) /\
  snd x = snd y.

(** ** Sample inputs *)

Definition textCell (text : string) : Cell := mkCell (Some (VString text)).

Definition sheetOf (range : Range) (entries : list (nat * nat * string)) : Worksheet :=
  mkSheet (Some range)
    (list_to_map (map (fun e : nat * nat * string => (fst e, textCell (snd e))) entries)).

(** Token generators: one that counts, one that counts from 100, one whose
    first call throws. *)
Definition countingUuid (n : nat) : option string := Some (pretty n).
Definition otherUuid (n : nat) : option string := Some (pretty (100 + n)).
Definition failFirstUuid (n : nat) : option string :=
  if (n =? 0)%nat then None else Some (pretty n).

(** A header row with three weekdays and two data rows; the time of the
    second data row does not normalize. *)
Definition weekSheet : Worksheet :=
  sheetOf (mkRange 0 0 2 3)
    [(0, 0, "Time"); (0, 1, "Monday"); (0, 2, "Tuesday"); (0, 3, "Wednesday");
     (1, 0, "9:00"); (1, 1, "Math (L): Dr. Smith"); (1, 3, "Lunch Break");
     (2, 0, "noon"); (2, 1, "Physics")].

(** The word time in one row and the weekdays in the next. *)
Definition splitHeaderSheet : Worksheet :=
  sheetOf (mkRange 0 0 1 3)
    [(0, 0, "Time"); (1, 1, "Monday"); (1, 2, "Tuesday"); (1, 3, "Wednesday")].

Definition emptySheet : Worksheet := sheetOf (mkRange 0 0 0 0) [].

Definition twoSheetBook : WorkBook :=
  mkBook ["Notes"; "Week"]
    (<["Notes" := emptySheet]> (<["Week" := splitHeaderSheet]> ∅)).

(** A header row that names one weekday three times. *)
Definition mondaysSheet : Worksheet :=
  sheetOf (mkRange 0 0 0 3)
    [(0, 0, "Time"); (0, 1, "Monday"); (0, 2, "Monday"); (0, 3, "Monday")].

Definition mondaysBook : WorkBook :=
  mkBook ["Notes"; "Mondays"]
    (<["Notes" := emptySheet]> (<["Mondays" := mondaysSheet]> ∅)).

Definition weekBook : WorkBook :=
  mkBook ["Notes"; "Week"]
    (<["Notes" := emptySheet]> (<["Week" := weekSheet]> ∅)).

(** A sheet sixteen columns wide, and the same sheet with the word time
    written in column 12 of the header row. *)
Definition wideSheet : Worksheet :=
  sheetOf (mkRange 0 0 1 15)
    [(0, 0, "Time"); (0, 1, "Monday"); (0, 2, "Tuesday"); (0, 3, "Wednesday")].

Definition wideSheetEdited : Worksheet :=
  mkSheet (ref wideSheet) (<[(0, 12) := textCell "Time"]> (cells wideSheet)).

(** One header cell that names two weekdays, and one session cell, padded
    with blanks, below it. *)
Definition sharedColumnSheet : Worksheet :=
  sheetOf (mkRange 0 0 1 1)
    [(0, 0, "Time"); (0, 1, "Monday / Tuesday"); (1, 0, "9:00"); (1, 1, " Math ")].

(** Two weekdays and two data rows, every session cell filled; and a
    generator whose second call throws. *)
Definition siblingSheet : Worksheet :=
  sheetOf (mkRange 0 0 2 2)
    [(0, 0, "Time"); (0, 1, "Monday"); (0, 2, "Tuesday");
     (1, 0, "9:00"); (1, 1, "Algebra"); (1, 2, "Biology");
     (2, 0, "10:00"); (2, 1, "Chemistry"); (2, 2, "Drawing")].

Definition failSecondUuid (n : nat) : option string :=
  if (n =? 1)%nat then None else Some (pretty n).

(** [wideSheet] with a cell written below its range. *)
Definition wideSheetBelow : Worksheet :=
  mkSheet (ref wideSheet) (<[(5, 12) := textCell "Time"]> (cells wideSheet)).

(** The example line of the cell grammar. *)
Definition mathLine : string := "Math (L): (Room3) Dr. Smith: (G1,G2)".

(** A time column and no weekday at all. *)
Definition noDaySheet : Worksheet :=
  sheetOf (mkRange 0 0 1 0) [(0, 0, "Time"); (1, 0, "9:00")].

(** ** Vocabulary of the further statements *)

(** What a header found in the rows [rows] and columns [cols] of a sheet
    points at: the header row and the time column are the row and column
    of one cell with the word time, and a weekday column is the column of
    a cell that names the weekday. *)
Definition headerSound (ws : Worksheet) (rows cols : list nat) (h : Header) : Prop :=
  (forall r, headerRow h = Some r ->
     exists c, timeCol h = Some c /\ In r rows /\ In c cols /\ isTimeCell ws r c = true) /\
  (forall c, timeCol h = Some c -> exists r, headerRow h = Some r) /\
  (forall day c, In (day, c) (dayCols h) ->
     In c cols /\
     exists r text,
       In r rows /\ cellText ws r c = Some text /\
       Js.includes (Js.toLowerCase day) (Js.trim (Js.toLowerCase text)) = true).

(** A generator that does not throw, and one that does not return a token
    twice. *)
Definition neverThrows (uuidv4 : nat -> option string) : Prop :=
  forall k, uuidv4 k <> None.



(** The records of the lines of a cell that the line grammar accepts, in
    line order. *)
Definition acceptedLines (cellContent : string) : list ParsedCell.t :=
  flat_map
    (fun line =>
       match parseSessionLine (Js.trim line) with
       | Some parsed => [parsed]
       | None => []
       end)
    (List.filter (fun line => Js.truthy (Js.trim line))
       (Js.splitChar "010" cellContent)).

(** The session that [parseSessionCell] builds from a record. *)
Definition sessionOf (id day startTime : string) (parsed : ParsedCell.t) : Session.t :=
  Session.mk id day startTime 1
    (ParsedCell.subject_name parsed) (ParsedCell.session_type parsed)
    (ParsedCell.room_or_code parsed) (ParsedCell.lecturer parsed)
    (ParsedCell.groups parsed) "" None.

(** The sessions that [parseSessionCell] builds from the records [ps] when
    the calls of [uuidv4] from number [n] on return tokens. *)
Fixpoint numbered (uuidv4 : nat -> option string) (day startTime : string)
    (n : nat) (ps : list ParsedCell.t) : list Session.t :=
  match ps with
  | [] => []
  | parsed :: ps' =>
      sessionOf (default "" (uuidv4 n)) day startTime parsed
      :: numbered uuidv4 day startTime (S n) ps'
  end.

(** The decimal text of a number below 100, without padding. *)
Definition natText (k : nat) : string :=
  if (k <? 10)%nat then String (digitChar k) EmptyString else twoDigits k.



Definition normalizesTo (text expected : string) : bool :=
  match normalizeTime text with
  | Some t => String.eqb t expected
  | None => false
  end.


(** The spellings of a time of a 24-hour clock: the hour with or without a
    leading zero, a colon or a period before the minutes. *)
Definition clock24Texts (h m : nat) : list string :=
  flat_map
    (fun hourText => map (fun sep => hourText +:+ sep +:+ twoDigits m) [":"; "."])
    [natText h; twoDigits h].


Definition clock24Checked (h m : nat) : bool :=
  forallb (fun text => normalizesTo text (canonicalTime h m)) (clock24Texts h m).

Definition bareChecked (k : nat) : bool :=
  forallb
    (fun text =>
       match normalizeTime text with
       | Some t => (k <? 24)%nat && String.eqb t (canonicalTime k 0)
       | None => negb (k <? 24)%nat
       end)
    [natText k; twoDigits k].

(** The credits of a line beside its subject: a type, a room, a lecturer
    of more than three characters, a group. *)
Definition credits (type room lecturer : string) (groups : list string) : nat :=
  (if Js.truthy type then 1 else 0) + (if Js.truthy room then 1 else 0) +
  (if (3 <? String.length lecturer)%nat then 1 else 0) +
  (if (0 <? length groups)%nat then 1 else 0).

(** ** [ExcelParser.parseExcelFile]

    The method reads the file, decodes it with [XLSX.read], chooses a sheet
    and parses it; its [catch] rewrites every error. Reading and decoding
    are the environment's: the model takes their outcome. *)

Module ParseFile.

(** [Platform.OS === 'web'] or not. *)
Inductive Platform : Type := web | mobile.

(** What the [try] block has after [XLSX.read]: the workbook, or a thrown
    [Error] with its message, or a thrown value that is no [Error]. *)
Inductive ReadOutcome : Type :=
| Decoded (workbook : WorkBook)
| ReadError (message : string)
| ReadThrown.

(** The double quote, which the messages contain. *)
Definition quote : string := String (ascii_of_nat 34) EmptyString.

Definition noSheetMessage : string :=
  "No timetable sheet found. Looking for headers containing " +:+ quote +:+ "Time"
  +:+ quote +:+ " and weekday names.".

Definition structureMessage : string :=
  "Could not find timetable structure. Ensure your Excel has a " +:+ quote +:+ "Time"
  +:+ quote +:+ " column and weekday headers.".

Definition fileSystemMessage : string :=
  "Unable to access the selected file. Please try selecting the file again or ensure it's saved locally.".

Definition fetchMessage : string :=
  "File access error. Please ensure the file is accessible and try again.".

Definition failedPrefix : string := "Failed to parse Excel file: ".

Section WithEngine.

(** The message of the [TypeError] that the engine throws when a property
    of [undefined] is read. *)
Variable typeErrorMessage : string.

Variable uuidv4 : nat -> option string.

(** The message of an exception of the [try] block. *)
Definition messageOf (e : Exn) : string :=
  match e with
  | StructureError => structureMessage
  | TypeError => typeErrorMessage
  | UuidError => EmptyString
  end.

(** The [try] block from [XLSX.read] on: the preview, or the thrown value
    as [Some message] for an [Error] and [None] for another value. *)
Definition tryBlock (read : ReadOutcome) (n : nat)
    : (option string + ImportPreview) * nat :=
  match read with
  | ReadError message => (inl (Some message), n)
  | ReadThrown => (inl None, n)
  | Decoded workbook =>
      match findTimetableSheet workbook with
      | inl e => (inl (Some (messageOf e)), n)
      | inr None => (inl (Some noSheetMessage), n)
      | inr (Some sheetName) =>
          if Js.isEmpty sheetName then (inl (Some noSheetMessage), n)
          else
            match Sheets workbook !! sheetName with
            | None => (inl (Some typeErrorMessage), n)
            | Some worksheet =>
                match parseWorksheet uuidv4 worksheet n with
                | (inr preview, n') => (inr preview, n')
                | (inl e, n') => (inl (Some (messageOf e)), n')
                end
            end
      end
  end.

(** The [catch] block: the message of the [Error] that it throws. *)
Definition catchBlock (platform : Platform) (error : option string) : string :=
  match platform, error with
  | mobile, Some message =>
      if Js.includes "FileSystem" message then fileSystemMessage
      else if Js.includes "fetch" message then fetchMessage
      else failedPrefix +:+ message
  | web, Some message => failedPrefix +:+ message
  | _, None => failedPrefix +:+ "Unknown error"
  end.

(** The preview, or the message of the thrown [Error]. *)
Definition parseExcelFile (platform : Platform) (read : ReadOutcome) (n : nat)
    : (string + ImportPreview) * nat :=
  match tryBlock read n with
  | (inr preview, n') => (inr preview, n')
  | (inl error, n') => (inl (catchBlock platform error), n')
  end.

End WithEngine.

End ParseFile.

(** ** The stored timetable ([Subject] and [TimetableData] of
    [src/types/index.ts]) *)

Module Subject.
Record t : Type := mk {
  subject_id : string;
  name : string;
  attended_classes : Z;
  missed_classes : Z;
  total_classes : Z;
  percentage : Q
}.
End Subject.

Module ImportMetadata.
Record t : Type := mk {
  filename : string;
  parsedSessions : Z;
  unparsedCells : Z;
  confidence : Confidence
}.
End ImportMetadata.

Module TimetableData.
Record t : Type := mk {
  days : list string;
  timeslots : list string;
  sessions : list Session.t;
  subjects : gmap string Subject.t;
  lastImported : option string;
  importMetadata : option ImportMetadata.t
}.
End TimetableData.

(** ** [class StorageManager]

    The store is the value kept under the key [timetable_data], as the
    data that [JSON.parse] gives back for it; [None] is an absent key.
    The calls of [AsyncStorage] may fail, as the device says. The object
    [subjects] is a map from its keys; keys that name a property of
    [Object.prototype] are outside the model. *)

Module StorageManager.

Record Device : Type := mkDevice {
  getItemFails : bool;
  setItemFails : bool;
  removeItemFails : bool;
  (** [Date.now()] *)
  now : Z
}.

Definition Store : Type := option TimetableData.t.

(** How a method ends: it returns, or throws an [Error] with a message. *)
Inductive Outcome : Type :=
| Done
| Thrown (message : string).

Definition withSubjects (data : TimetableData.t) (subjects : gmap string Subject.t)
    : TimetableData.t :=
  TimetableData.mk (TimetableData.days data) (TimetableData.timeslots data)
    (TimetableData.sessions data) subjects
    (TimetableData.lastImported data) (TimetableData.importMetadata data).

Definition withSessions (data : TimetableData.t) (sessions : list Session.t)
    : TimetableData.t :=
  TimetableData.mk (TimetableData.days data) (TimetableData.timeslots data)
    sessions (TimetableData.subjects data)
    (TimetableData.lastImported data) (TimetableData.importMetadata data).

Definition withAttendance (s : Session.t) (status : option Attendance) : Session.t :=
  Session.mk (Session.id s) (Session.day s) (Session.start_time s)
    (Session.duration_slots s) (Session.subject_name s) (Session.session_type s)
    (Session.room s) (Session.lecturer s) (Session.groups s) (Session.notes s) status.


(** [sessions.find(s => s.id === sessionId)] *)
Definition findSession (sessionId : string) (sessions : list Session.t)
    : option Session.t :=
  List.find (fun s => String.eqb (Session.id s) sessionId) sessions.

(** An assignment to a field of the session that [find] returned: the
    first session with the id is changed, where it stands. *)
Fixpoint updateFound (sessionId : string) (f : Session.t -> Session.t)
    (sessions : list Session.t) : list Session.t :=
  match sessions with
  | [] => []
  | s :: sessions' =>
      if String.eqb (Session.id s) sessionId then f s :: sessions'
      else s :: updateFound sessionId f sessions'
  end.

Definition isPresent (status : option Attendance) : bool :=
  match status with Some present => true | _ => false end.

Definition isAbsent (status : option Attendance) : bool :=
  match status with Some absent => true | _ => false end.

Section WithDevice.

(** The double that [Math.round((attended / total) * 10000) / 100]
    evaluates to, as the rational number it is. *)
Variable percentOf : Z -> Z -> Q.

Variable device : Device.

(** [total > 0 ? Math.round(...) / 100 : 0] *)
Definition percentage (attended total : Z) : Q :=
  if (0 <? total)%Z then percentOf attended total else 0%Q.

Definition loadTimetableData (store : Store) : option TimetableData.t :=
  if getItemFails device then None else store.

Definition saveTimetableData (data : TimetableData.t) (store : Store)
    : Outcome * Store :=
  if setItemFails device then (Thrown "Failed to save data to storage", store)
  else (Done, Some data).

Definition clearTimetableData (store : Store) : Outcome * Store :=
  if removeItemFails device then (Thrown "Failed to clear storage", store)
  else (Done, None).

(** The end of a method: [await this.saveTimetableData(data)] inside the
    [try] whose [catch] throws [message]. *)
Definition saveOr (message : string) (data : TimetableData.t) (store : Store)
    : Outcome * Store :=
  match saveTimetableData data store with
  | (Done, store') => (Done, store')
  | (Thrown _, store') => (Thrown message, store')
  end.


(** The counters of [subject] after the mark of one of its sessions
    changes from [oldStatus] to [status]. *)
Definition recount (oldStatus status : option Attendance) (subject : Subject.t)
    : Subject.t :=
  let attended := Subject.attended_classes subject in
  let missed := Subject.missed_classes subject in
  let attended := if isPresent oldStatus then (attended - 1)%Z else attended in
  let missed :=
    if isPresent oldStatus then missed
    else if isAbsent oldStatus then (missed - 1)%Z else missed in
  let attended := if isPresent status then (attended + 1)%Z else attended in
  let missed :=
    if isPresent status then missed
    else if isAbsent status then (missed + 1)%Z else missed in
  let total_classes := (attended + missed)%Z in
  Subject.mk (Subject.subject_id subject) (Subject.name subject)
    attended missed total_classes (percentage attended total_classes).

Definition markSessionAttendance (sessionId : string) (status : option Attendance)
    (store : Store) : Outcome * Store :=
  match loadTimetableData store with
  | None => (Done, store)
  | Some data =>
      match findSession sessionId (TimetableData.sessions data) with
      | None => (Done, store)
      | Some session =>
          let oldStatus := Session.attendance_marked session in
          let sessions' :=
            updateFound sessionId (fun s => withAttendance s status)
              (TimetableData.sessions data) in
          let subjects' :=
            match TimetableData.subjects data !! Session.subject_name session with
            | Some subject =>
                <[Session.subject_name session := recount oldStatus status subject]>
                  (TimetableData.subjects data)
            | None => TimetableData.subjects data
            end in
          saveOr "Failed to update session attendance"
            (withSubjects (withSessions data sessions') subjects') store
      end
  end.


End WithDevice.

End StorageManager.

(** ** [performImport] of the import screen *)

Module ImportScreen.

Import StorageManager.

(** [`subject_${name.replace(/\s+/g, '_').toLowerCase()}`] *)
Definition subjectId (subject_name : string) : string :=
  "subject_" +:+ Js.toLowerCase (replaceAll spacesRe [Lit "_"] subject_name).

Definition newSubject (subject_name : string) : Subject.t :=
  Subject.mk (subjectId subject_name) subject_name 0 0 0 0.

(** [sessions.forEach(session => { if (!subjects[name]) subjects[name] = ... })] *)
Definition initSubjects (sessions : list Session.t) : gmap string Subject.t :=
  fold_left
    (fun subjects session =>
       match subjects !! Session.subject_name session with
       | Some _ => subjects
       | None =>
           <[Session.subject_name session := newSubject (Session.subject_name session)]>
             subjects
       end)
    sessions ∅.

(** [Object.entries(existing).forEach(([name, subject]) =>
      { if (merged[name]) merged[name] = subject })] *)
Definition mergeSubjects (existing merged : gmap string Subject.t)
    : gmap string Subject.t :=
  map_fold
    (fun name subject acc =>
       match acc !! name with
       | Some _ => <[name := subject]> acc
       | None => acc
       end)
    merged existing.

(** [Array.from(new Set(xs))]: the first occurrence of each element. *)
Fixpoint distinct (xs : list string) : list string :=
  match xs with
  | [] => []
  | x :: xs' => x :: List.filter (fun y => negb (String.eqb x y)) (distinct xs')
  end.

(** [xs.sort()] on strings: ascending by code units. On distinct strings
    every sorting procedure gives this list. *)
Fixpoint insertSorted (x : string) (xs : list string) : list string :=
  match xs with
  | [] => [x]
  | y :: xs' => if String.leb x y then x :: xs else y :: insertSorted x xs'
  end.

Definition sortStrings (xs : list string) : list string :=
  fold_right insertSorted [] xs.

Definition importDays : list string :=
  ["Monday"; "Tuesday"; "Wednesday"; "Thursday"; "Friday"; "Saturday"].

(** [finalData] of [performImport(merge)]. [existing] is what
    [loadTimetableData] returned, [selectedFile] the state of that name and
    [nowIso] is [new Date().toISOString()]. *)
Definition finalData (merge : bool) (preview : ImportPreview)
    (selectedFile : option string) (nowIso : string)
    (existing : option TimetableData.t) : TimetableData.t :=
  let subjects :=
    if merge then
      match existing with
      | Some existingData =>
          mergeSubjects (TimetableData.subjects existingData)
            (initSubjects (sessions preview))
      | None => initSubjects (sessions preview)
      end
    else initSubjects (sessions preview) in
  TimetableData.mk importDays
    (sortStrings (distinct (map Session.start_time (sessions preview))))
    (sessions preview) subjects (Some nowIso)
    (Some (ImportMetadata.mk
             (match selectedFile with
              | Some file => if Js.truthy file then file else "unknown.xlsx"
              | None => "unknown.xlsx"
              end)
             (Z.of_nat (length (sessions preview)))
             (Z.of_nat (length (unparsedCells preview)))
             (confidence (metadata preview)))).

(** [performImport(merge)] up to its dialogs: the store afterwards. A
    failing save is reported in a dialog and leaves the store as it was. *)
Definition performImport (device : Device) (merge : bool)
    (preview : option ImportPreview) (selectedFile : option string)
    (nowIso : string) (store : Store) : Store :=
  match preview with
  | None => store
  | Some preview =>
      let existing := if merge then loadTimetableData device store else None in
      snd (saveTimetableData device
             (finalData merge preview selectedFile nowIso existing) store)
  end.

End ImportScreen.

(** ** Vocabulary of the statements on the stored timetable *)

(** The number of sessions of subject [name] whose mark satisfies [test]. *)
Definition markedCount (test : option Attendance -> bool) (name : string)
    (sessions : list Session.t) : Z :=
  Z.of_nat
    (length
       (List.filter
          (fun s => String.eqb (Session.subject_name s) name
                    && test (Session.attendance_marked s))
          sessions)).

(** What one session adds to that number. *)
Definition hit (test : option Attendance -> bool) (name : string) (s : Session.t) : Z :=
  if String.eqb (Session.subject_name s) name && test (Session.attendance_marked s)
  then 1%Z else 0%Z.

(** The counters of every subject agree with the marks of its sessions:
    attended and missed classes are the numbers of its sessions marked
    present and absent, the total is their sum and the percentage the one
    computed from them. *)
Definition inStep (percentOf : Z -> Z -> Q) (data : TimetableData.t) : Prop :=
  forall name subject,
    TimetableData.subjects data !! name = Some subject ->
    Subject.attended_classes subject =
      markedCount StorageManager.isPresent name (TimetableData.sessions data) /\
    Subject.missed_classes subject =
      markedCount StorageManager.isAbsent name (TimetableData.sessions data) /\
    Subject.total_classes subject =
      (Subject.attended_classes subject + Subject.missed_classes subject)%Z /\
    Subject.percentage subject =
      StorageManager.percentage percentOf
        (Subject.attended_classes subject) (Subject.total_classes subject).

Definition storeInStep (percentOf : Z -> Z -> Q) (store : StorageManager.Store) : Prop :=
  match store with
  | Some data => inStep percentOf data
  | None => True
  end.



(** Ascending without repetition. *)
Fixpoint ascending (xs : list string) : Prop :=
  match xs with
  | [] => True
  | x :: xs' => (forall y, In y xs' -> String.ltb x y = true) /\ ascending xs'
  end.

(** A device on which every call succeeds. *)
Definition goodDevice : StorageManager.Device :=
  StorageManager.mkDevice false false false 0.


(** A stand-in for the rounded percentage in the sample runs. *)
Definition samplePercent (attended total : Z) : Q := (attended * 100 # 1) / (total # 1).

(** The preview of [weekSheet]. *)
Definition weekPreview : ImportPreview :=
  match fst (parseWorksheet countingUuid weekSheet 0) with
  | inr preview => preview
  | inl _ => mkPreview [] [] (mkMetadata 0 0 low)
  end.

(** The store after a fresh import of [weekPreview] on a device without
    failures. *)
Definition weekStore : StorageManager.Store :=
  ImportScreen.performImport goodDevice false (Some weekPreview) (Some "week.xlsx")
    "2026-01-05T08:00:00.000Z" None.

(** ** What a match of the matcher is

    [derives r pos s c pos' s' c']: the pattern [r] can match the text
    between position [pos], where [s] is left, and position [pos'], where
    [s'] is left, turning the captures [c] into [c']. The matcher returns
    one of these matches (the first in its priority order). *)

Module RegexSpec.
Import Regex.

Inductive derives
  : regex -> nat -> string -> caps -> nat -> string -> caps -> Prop :=
| D_Eps pos s c : derives Eps pos s c pos s c
| D_Chr cls a pos s c :
    cls a = true -> derives (Chr cls) pos (String a s) c (S pos) s c
| D_Cat r1 r2 pos s c pos1 s1 c1 pos2 s2 c2 :
    derives r1 pos s c pos1 s1 c1 ->
    derives r2 pos1 s1 c1 pos2 s2 c2 ->
    derives (Cat r1 r2) pos s c pos2 s2 c2
| D_AltL r1 r2 pos s c pos' s' c' :
    derives r1 pos s c pos' s' c' -> derives (Alt r1 r2) pos s c pos' s' c'
| D_AltR r1 r2 pos s c pos' s' c' :
    derives r2 pos s c pos' s' c' -> derives (Alt r1 r2) pos s c pos' s' c'
| D_RepStop greedy lo hi r pos s c :
    lo = 0%nat \/ hi = Some 0%nat ->
    derives (Rep greedy lo hi r) pos s c pos s c
| D_RepStep greedy lo hi r pos s c pos1 s1 c1 pos2 s2 c2 :
    hi <> Some 0%nat ->
    derives r pos s c pos1 s1 c1 ->
    derives (Rep greedy (Nat.pred lo) (Nat.pred <$> hi) r) pos1 s1 c1 pos2 s2 c2 ->
    derives (Rep greedy lo hi r) pos s c pos2 s2 c2
| D_Grp i r pos s c pos' s' c' :
    derives r pos s c pos' s' c' ->
    derives (Grp i r) pos s c pos' s' ((i, Js.take (pos' - pos) s) :: c')
| D_Bol s c : derives Bol 0 s c 0 s c
| D_Eol pos c : derives Eol pos "" c pos "" c.

(** The loop of a quantifier in [rmatch], under a name. *)
Section RepLoop.
Variable body : nat -> string -> caps -> cont -> option (nat * caps).
Variable greedy : bool.
Variable k : cont.

Fixpoint repLoop (fuel lo : nat) (hi : option nat) (pos : nat) (s : string)
    (c : caps) {struct fuel} : option (nat * caps) :=
  match fuel with
  | O => None
  | S fuel' =>
      let iter (_ : unit) :=
        body pos s c (fun pos' s' c' =>
          if (lo =? 0)%nat && (pos' =? pos)%nat then None
          else repLoop fuel' (Nat.pred lo) (Nat.pred <$> hi) pos' s' c') in
      match hi with
      | Some O => k pos s c
      | _ =>
          if (0 <? lo)%nat then iter tt
          else if greedy then orElse (iter tt) (fun _ => k pos s c)
          else orElse (k pos s c) iter
      end
  end.

End RepLoop.

(** Every character of [s] satisfies [p]. *)
Fixpoint allChars (p : ascii -> bool) (s : string) : bool :=
  match s with
  | EmptyString => true
  | String a s' => p a && allChars p s'
  end.

(** The last character of [s] exists and is not white space. *)
Fixpoint endsSolid (s : string) : bool :=
  match s with
  | EmptyString => false
  | String a EmptyString => negb (Js.isSpace a)
  | String _ s' => endsSolid s'
  end.

End RegexSpec.

(** ** The line grammar on the documented example *)

(** The whole record that [parseSessionLine] builds for [mathLine]: the
    lecturer pattern asks for a colon before the name, and after the room
    there is a closing bracket, so the name stays in the subject. *)
Example parseSessionLine_mathLine_value :
  parseSessionLine mathLine =
  Some (ParsedCell.mk "Math (L) Dr. Smith" "" "3" "" ["G1"; "G2"]
          "Math (L) Dr. Smith:" medium).
Proof. vm_compute. reflexivity. Qed.

(** C1, as stated, does not hold: no record with the fields of the claim
    is returned for the example line. *)
Lemma parseSessionLine_mathLine_not_as_stated :
  ~ exists p,
      parseSessionLine mathLine = Some p /\
      ParsedCell.subject_name p = "Math" /\
      ParsedCell.session_type p = "L" /\
      ParsedCell.room_or_code p = "Room3" /\
      ParsedCell.lecturer p = "Dr. Smith" /\
      ParsedCell.groups p = ["G1"; "G2"] /\
      ParsedCell.confidence p = high.
Proof.
  intros (p & Hp & _ & _ & Hroom & _).
  rewrite parseSessionLine_mathLine_value in Hp.
  injection Hp as <-. discriminate Hroom.
Qed.

(** C1 (amended): for the line [Math (L): (Room3) Dr. Smith: (G1,G2)] the
    line parser returns a record, whose room_or_code is 3 (the leading
    Room token is stripped) and whose groups are G1 and G2. *)
Theorem parseSessionLine_mathLine :
  exists p,
    parseSessionLine mathLine = Some p /\
    ParsedCell.room_or_code p = "3" /\
    ParsedCell.groups p = ["G1"; "G2"].
Proof.
  eexists. split; [vm_compute; reflexivity|]. split; reflexivity.
Qed.

(** ** Time normalization *)

(** C3: on the text [2 PM] the normalizer returns neither null nor a time
    of the form HH:MM. The fourth pattern has the AM or PM marker as its
    second group, which the code reads as the minutes. *)
Theorem normalizeTime_hour_with_marker :
  normalizeTime "2 PM" = Some "02:NaN".
Proof. vm_compute. reflexivity. Qed.

(** The patterns with a colon or a period accept any digits: hours and
    minutes are not checked against 23 and 59, and twelve is added to an
    hour above 12. *)
Example normalizeTime_out_of_range :
  normalizeTime "25:99" = Some "25:99" /\
  normalizeTime "13:30 PM" = Some "25:30".
Proof. split; vm_compute; reflexivity. Qed.

Example normalizeTime_samples :
  map normalizeTime ["2.30"; "2:30 PM"; "14:30"; "12:05 am"; "9"; "24"; "soon"] =
  [Some "02:30"; Some "14:30"; Some "14:30"; Some "00:05"; Some "09:00"; None; None].
Proof. vm_compute. reflexivity. Qed.

Lemma fixesCanonical_all :
  forallb (fun h => forallb (fixesCanonical h) (List.seq 0 60)) (List.seq 0 24) = true.
Proof. vm_compute. reflexivity. Qed.

(** C10: a canonical time, [HH:MM] with the hour from 00 to 23 and the
    minutes from 00 to 59, is returned unchanged by [normalizeTime]. *)
Theorem normalizeTime_canonical (h m : nat) :
  h < 24 -> m < 60 ->
  normalizeTime (canonicalTime h m) = Some (canonicalTime h m).
Proof.
  intros Hh Hm.
  pose proof fixesCanonical_all as Hall.
  rewrite forallb_forall in Hall.
  assert (Hin : In h (List.seq 0 24)) by (apply in_seq; lia).
  specialize (Hall h Hin). rewrite forallb_forall in Hall.
  assert (Hin' : In m (List.seq 0 60)) by (apply in_seq; lia).
  specialize (Hall m Hin'). unfold fixesCanonical in Hall.
  destruct (normalizeTime (canonicalTime h m)) as [t|]; [|discriminate].
  apply String.eqb_eq in Hall. now subst.
Qed.

Lemma normalizeTime_canonical_witness :
  7 < 24 /\ 5 < 60 /\ normalizeTime (canonicalTime 7 5) = Some "07:05".
Proof.
  split; [lia|]. split; [lia|]. apply (normalizeTime_canonical 7 5); lia.
Defined.

(** ** The walk over the data rows as a list of reads *)

Section Walk.

Variable uuidv4 : nat -> option string.

Lemma accApp_nil_r (a : Acc) : accApp a (mkAcc [] []) = a.
Proof. destruct a. unfold accApp. simpl. now rewrite !app_nil_r. Qed.

Lemma accApp_nil_l (a : Acc) : accApp (mkAcc [] []) a = a.
Proof. now destruct a. Qed.

Lemma accApp_assoc (a b c : Acc) : accApp (accApp a b) c = accApp a (accApp b c).
Proof. unfold accApp. simpl. now rewrite <- !app_assoc. Qed.

Lemma visitsOutcome_app (vs ws : list Visit) (n : nat) :
  visitsOutcome uuidv4 (vs ++ ws) n =
  let '(a, n1) := visitsOutcome uuidv4 vs n in
  let '(b, n2) := visitsOutcome uuidv4 ws n1 in
  (accApp a b, n2).
Proof.
  revert n. induction vs as [|v vs IH]; intros n; simpl.
  - destruct (visitsOutcome uuidv4 ws n) as [b n2]. now rewrite accApp_nil_l.
  - destruct (visitOutcome uuidv4 v n) as [a n1]. rewrite IH.
    destruct (visitsOutcome uuidv4 vs n1) as [b n2].
    destruct (visitsOutcome uuidv4 ws n2) as [c n3].
    now rewrite accApp_assoc.
Qed.

Lemma parseCell_outcome (row dayCol : nat) (content day timeStr : string)
    (acc : Acc) (n : nat) :
  parseCell uuidv4 row dayCol content day timeStr acc n =
  let '(a, n') := visitOutcome uuidv4 (mkVisit row dayCol day timeStr content) n in
  (inr (accApp acc a), n').
Proof.
  unfold parseCell, visitOutcome. simpl.
  destruct (parseSessionCell uuidv4 content day timeStr n) as [[e|ss] n'];
    unfold accApp; simpl; now rewrite ?app_nil_r.
Qed.

Lemma visitDays_outcome (ws : Worksheet) (row : nat) (timeStr : string)
    (entries : list (string * nat)) (acc : Acc) (n : nat) :
  visitDays uuidv4 ws row timeStr entries acc n =
  let '(b, n') := visitsOutcome uuidv4 (visitsOfRow ws row timeStr entries) n in
  (inr (accApp acc b), n').
Proof.
  revert acc n. induction entries as [|[day dayCol] entries IH]; intros acc n.
  - simpl. unfold ret. now rewrite accApp_nil_r.
  - change (visitsOfRow ws row timeStr ((day, dayCol) :: entries))
      with ((match cellText ws row dayCol with
             | Some text =>
                 if Js.isEmpty (Js.trim text) then []
                 else [mkVisit row dayCol day timeStr (Js.trim text)]
             | None => []
             end) ++ visitsOfRow ws row timeStr entries).
    cbn [visitDays]. unfold bind, visitDay.
    destruct (cellText ws row dayCol) as [text|]; [|unfold ret; apply IH].
    destruct (Js.isEmpty (Js.trim text)); [unfold ret; apply IH|].
    rewrite parseCell_outcome. cbn [app visitsOutcome].
    destruct (visitOutcome uuidv4 _ n) as [a n1].
    rewrite IH.
    destruct (visitsOutcome uuidv4 (visitsOfRow ws row timeStr entries) n1) as [b n2].
    now rewrite accApp_assoc.
Qed.

Lemma visitRows_outcome (ws : Worksheet) (tc : nat) (entries : list (string * nat))
    (rows : list nat) (acc : Acc) (n : nat) :
  visitRows uuidv4 ws tc entries rows acc n =
  let '(b, n') := visitsOutcome uuidv4 (visitsOf ws tc entries rows) n in
  (inr (accApp acc b), n').
Proof.
  revert acc n. induction rows as [|row rows IH]; intros acc n.
  - simpl. unfold ret. now rewrite accApp_nil_r.
  - change (visitsOf ws tc entries (row :: rows))
      with ((match rowTime ws tc row with
             | Some timeStr => visitsOfRow ws row timeStr entries
             | None => []
             end) ++ visitsOf ws tc entries rows).
    cbn [visitRows].
    destruct (rowTime ws tc row) as [timeStr|]; [|apply IH].
    unfold bind. rewrite visitDays_outcome, visitsOutcome_app.
    destruct (visitsOutcome uuidv4 (visitsOfRow ws row timeStr entries) n) as [a n1].
    rewrite IH.
    destruct (visitsOutcome uuidv4 (visitsOf ws tc entries rows) n1) as [b n2].
    now rewrite accApp_assoc.
Qed.


Lemma parseWorksheet_outcome (ws : Worksheet) (n : nat) :
  parseWorksheet uuidv4 ws n =
  match headerRow (scanHeader ws), timeCol (scanHeader ws) with
  | Some hr, Some tc =>
      let '(b, n') := visitsOutcome uuidv4 (visits ws) n in
      let total := cellCount ws hr in
      let parsed := (total - Z.of_nat (length (accUnparsed b)))%Z in
      (inr (mkPreview (accSessions b) (accUnparsed b)
              (mkMetadata total parsed (calculateConfidence parsed total))), n')
  | _, _ => (inl StructureError, n)
  end.
Proof.
  unfold parseWorksheet, visits.
  destruct (headerRow (scanHeader ws)) as [hr|]; [|reflexivity].
  destruct (timeCol (scanHeader ws)) as [tc|]; [|reflexivity].
  unfold bind. rewrite visitRows_outcome.
  destruct (visitsOutcome uuidv4 _ n) as [b n'].
  rewrite accApp_nil_l. reflexivity.
Qed.

End Walk.

(** ** The aggregate confidence *)

Lemma calculateConfidence_cases (parsed total : Z) :
  ((8 # 10 <= parsedRatio parsed total)%Q ->
     calculateConfidence parsed total = high) /\
  ((6 # 10 <= parsedRatio parsed total)%Q /\ (parsedRatio parsed total < 8 # 10)%Q ->
     calculateConfidence parsed total = medium) /\
  ((parsedRatio parsed total < 6 # 10)%Q ->
     calculateConfidence parsed total = low).
Proof.
  unfold calculateConfidence. fold (parsedRatio parsed total).
  generalize (parsedRatio parsed total). intros ratio.
  destruct (Qle_bool (8 # 10) ratio) eqn:H8;
    destruct (Qle_bool (6 # 10) ratio) eqn:H6.
  all: try (apply Qle_bool_iff in H8).
  all: try (apply Qle_bool_iff in H6).
  all: try (assert (H8' : ~ (8 # 10 <= ratio)%Q)
              by (rewrite <- Qle_bool_iff; congruence)).
  all: try (assert (H6' : ~ (6 # 10 <= ratio)%Q)
              by (rewrite <- Qle_bool_iff; congruence)).
  all: repeat split; intros H; try reflexivity; exfalso; lra.
Qed.

Lemma calculateConfidence_nonpositive (parsed : Z) :
  (parsed <= 0)%Z -> calculateConfidence parsed 0 = low.
Proof.
  intros Hp. apply calculateConfidence_cases.
  unfold parsedRatio, Qlt, Qdiv, Qmult, Qinv, inject_Z. simpl. lia.
Qed.

(** C4: when [parseWorksheet] returns a preview, totalCells is (last row
    of the range minus header row) times the number of weekday columns,
    whatever the times of the rows; parsedCells is totalCells minus the
    number of unparsed cells; the confidence is high for a ratio
    parsedCells / max(totalCells, 1) of at least 0.8, medium for one of at
    least 0.6 and low below; and totalCells = 0 gives low. *)
Theorem parseWorksheet_metadata (uuidv4 : nat -> option string) (ws : Worksheet)
    (n n' : nat) (p : ImportPreview) :
  parseWorksheet uuidv4 ws n = (inr p, n') ->
  exists hr,
    headerRow (scanHeader ws) = Some hr /\
    totalCells (metadata p) = cellCount ws hr /\
    parsedCells (metadata p) =
      (totalCells (metadata p) - Z.of_nat (length (unparsedCells p)))%Z /\
    let ratio := parsedRatio (parsedCells (metadata p)) (totalCells (metadata p)) in
    ((8 # 10 <= ratio)%Q -> confidence (metadata p) = high) /\
    ((6 # 10 <= ratio)%Q /\ (ratio < 8 # 10)%Q -> confidence (metadata p) = medium) /\
    ((ratio < 6 # 10)%Q -> confidence (metadata p) = low) /\
    (totalCells (metadata p) = 0%Z -> confidence (metadata p) = low).
Proof.
  rewrite parseWorksheet_outcome.
  destruct (headerRow (scanHeader ws)) as [hr|]; [|discriminate].
  destruct (timeCol (scanHeader ws)) as [tc|]; [|discriminate].
  destruct (visitsOutcome uuidv4 (visits ws) n) as [b n1].
  intros [= <- _]. exists hr. cbn [metadata totalCells parsedCells confidence unparsedCells].
  split; [reflexivity|]. split; [reflexivity|]. split; [reflexivity|].
  pose proof (calculateConfidence_cases
                (cellCount ws hr - Z.of_nat (length (accUnparsed b))) (cellCount ws hr))
    as (H1 & H2 & H3).
  repeat split; try assumption.
  intros ->. apply calculateConfidence_nonpositive. lia.
Qed.

Lemma parseWorksheet_metadata_witness :
  exists p n',
    parseWorksheet countingUuid weekSheet 0 = (inr p, n') /\
    totalCells (metadata p) = 6%Z /\
    parsedCells (metadata p) = 6%Z.
Proof.
  destruct (parseWorksheet countingUuid weekSheet 0) as [[e|p] n'] eqn:E;
    [vm_compute in E; discriminate|].
  exists p, n'. split; [reflexivity|].
  destruct (parseWorksheet_metadata _ _ _ _ _ E) as (hr & Hhr & Htot & Hpar & _).
  vm_compute in Hhr. injection Hhr as <-.
  rewrite Hpar, Htot.
  vm_compute in E. injection E as <- _.
  split; reflexivity.
Defined.

(** ** Where a read comes from *)

Lemma In_visitsOfRow (ws : Worksheet) (row : nat) (timeStr : string)
    (entries : list (string * nat)) (v : Visit) :
  In v (visitsOfRow ws row timeStr entries) <->
  exists text,
    In (vDay v, vCol v) entries /\ vRow v = row /\ vTime v = timeStr /\
    cellText ws row (vCol v) = Some text /\
    vContent v = Js.trim text /\ Js.isEmpty (Js.trim text) = false.
Proof.
  unfold visitsOfRow. rewrite in_flat_map. split.
  - intros ([day dayCol] & Hin & Hv). cbn [fst snd] in Hv.
    destruct (cellText ws row dayCol) as [text|] eqn:Htext; [|contradiction].
    destruct (Js.isEmpty (Js.trim text)) eqn:Hblank; [contradiction|].
    destruct Hv as [<-|[]]. exists text. cbn. repeat split; assumption || reflexivity.
  - intros (text & Hin & <- & <- & Htext & Hcontent & Hblank).
    exists (vDay v, vCol v). split; [assumption|]. cbn [fst snd].
    rewrite Htext, Hblank. left. destruct v; cbn in *. now subst.
Qed.

Lemma In_visitsOf (ws : Worksheet) (tc : nat) (entries : list (string * nat))
    (rows : list nat) (v : Visit) :
  In v (visitsOf ws tc entries rows) <->
  In (vRow v) rows /\ rowTime ws tc (vRow v) = Some (vTime v) /\
  exists text,
    In (vDay v, vCol v) entries /\
    cellText ws (vRow v) (vCol v) = Some text /\
    vContent v = Js.trim text /\ Js.isEmpty (Js.trim text) = false.
Proof.
  unfold visitsOf. rewrite in_flat_map. split.
  - intros (row & Hrow & Hv).
    destruct (rowTime ws tc row) as [timeStr|] eqn:Htime; [|contradiction].
    apply In_visitsOfRow in Hv as (text & Hin & <- & <- & Htext & Hc & Hb).
    eauto 10.
  - intros (Hrow & Htime & text & Hin & Htext & Hc & Hb).
    exists (vRow v). split; [assumption|]. rewrite Htime.
    apply In_visitsOfRow. eauto 10.
Qed.

Lemma rowTime_normalized (ws : Worksheet) (tc row : nat) (timeStr : string) :
  rowTime ws tc row = Some timeStr ->
  exists text, cellText ws row tc = Some text /\ normalizeTime text = Some timeStr.
Proof.
  unfold rowTime. destruct (cellText ws row tc) as [text|]; [|discriminate].
  destruct (normalizeTime text) as [t|] eqn:Ht; [|discriminate].
  destruct (Js.truthy t); [|discriminate]. intros [= <-]. eauto.
Qed.

(** ** The weekday columns are columns of weekdays *)

Lemma setKey_In (k : string) (x : nat) (o : list (string * nat)) (k' : string) (y : nat) :
  In (k', y) (setKey k x o) -> In (k', y) o \/ (k' = k /\ y = x).
Proof.
  induction o as [|[k0 y0] o IH]; cbn [setKey].
  - intros [[= <- <-]|[]]. now right.
  - destruct (String.eqb k k0) eqn:E.
    + apply String.eqb_eq in E. subst k0.
      intros [[= <- <-]|Hin]; [now right|left; now right].
    + intros [Heq|Hin]; [left; now left|].
      destruct (IH Hin) as [H|H]; [left; now right|now right].
Qed.

Lemma recordDays_keys (text : string) (col : nat) (dc : list (string * nat)) :
  keysAreDays dc -> keysAreDays (recordDays text col dc).
Proof.
  unfold recordDays.
  assert (Hgen : forall days, (forall d, In d days -> In d DAYS) ->
            forall dc0, keysAreDays dc0 ->
            keysAreDays
              (fold_left
                 (fun dc1 day =>
                    if Js.includes (Js.toLowerCase day) text
                    then setKey day col dc1 else dc1) days dc0)).
  { induction days as [|d days IH]; intros Hsub dc0 Hdc0; cbn [fold_left].
    - assumption.
    - apply IH; [intros d' Hd'; apply Hsub; now right|].
      destruct (Js.includes (Js.toLowerCase d) text); [|assumption].
      intros day c Hin. apply setKey_In in Hin as [Hin|[-> _]].
      + eapply Hdc0; eassumption.
      + apply Hsub. now left. }
  apply Hgen. auto.
Qed.

Lemma scanCell_keys (ws : Worksheet) (row col : nat) (h : Header) :
  keysAreDays (dayCols h) -> keysAreDays (dayCols (scanCell ws row h col)).
Proof.
  intros Hh. unfold scanCell.
  destruct (cellText ws row col) as [text|]; [|assumption].
  cbn [dayCols]. apply recordDays_keys.
  now destruct (Js.includes "time" (Js.trim (Js.toLowerCase text))).
Qed.

Lemma scanCols_keys (ws : Worksheet) (row : nat) (cols : list nat) (h : Header) :
  keysAreDays (dayCols h) ->
  keysAreDays (dayCols (fold_left (scanCell ws row) cols h)).
Proof.
  revert h. induction cols as [|col cols IH]; intros h Hh; cbn [fold_left].
  - assumption.
  - apply IH. now apply scanCell_keys.
Qed.

Lemma scanRows_keys (ws : Worksheet) (cols rows : list nat) (h : Header) :
  keysAreDays (dayCols h) -> keysAreDays (dayCols (scanRows ws cols rows h)).
Proof.
  revert h. induction rows as [|row rows IH]; intros h Hh; cbn [scanRows].
  - assumption.
  - pose proof (scanCols_keys ws row cols h Hh) as Hh'.
    destruct (isSet _ && _); [assumption|]. now apply IH.
Qed.

Lemma scanHeader_keys (ws : Worksheet) : keysAreDays (dayCols (scanHeader ws)).
Proof. apply scanRows_keys. intros day col []. Qed.

(** ** The sessions of a preview *)

Section Sessions.

Variable uuidv4 : nat -> option string.

Lemma sessionsOfLines_built (lines : list string) (day startTime : string)
    (acc : list Session.t) (n n' : nat) (r : list Session.t) :
  sessionsOfLines uuidv4 lines day startTime acc n = (inr r, n') ->
  forall s, In s r -> In s acc \/ builtFor day startTime s.
Proof.
  revert acc n. induction lines as [|line lines IH]; intros acc n; cbn [sessionsOfLines].
  - unfold ret. intros [= <- _] s Hs. now left.
  - destruct (parseSessionLine (Js.trim line)) as [parsed|]; [|apply IH].
    unfold bind, callUuid. destruct (uuidv4 n) as [tok|]; [|discriminate].
    intros Hrun s Hs. destruct (IH _ _ Hrun s Hs) as [Hin|Hb]; [|now right].
    apply in_app_or in Hin as [Hin|[<-|[]]]; [now left|right].
    repeat split.
Qed.

Lemma visitOutcome_built (v : Visit) (n : nat) (s : Session.t) :
  In s (accSessions (fst (visitOutcome uuidv4 v n))) ->
  builtFor (vDay v) (vTime v) s.
Proof.
  unfold visitOutcome, parseSessionCell.
  destruct (sessionsOfLines uuidv4 _ (vDay v) (vTime v) [] n) as [[e|r] n'] eqn:Hrun;
    cbn [fst accSessions]; [intros []|].
  intros Hs. destruct (sessionsOfLines_built _ _ _ _ _ _ _ Hrun s Hs) as [[]|Hb].
  exact Hb.
Qed.

Lemma visitsOutcome_built (vs : list Visit) (n : nat) (s : Session.t) :
  In s (accSessions (fst (visitsOutcome uuidv4 vs n))) ->
  exists v, In v vs /\ builtFor (vDay v) (vTime v) s.
Proof.
  revert n. induction vs as [|v vs IH]; intros n; cbn [visitsOutcome].
  - intros [].
  - pose proof (visitOutcome_built v n s) as Hv.
    destruct (visitOutcome uuidv4 v n) as [a n1].
    specialize (IH n1).
    destruct (visitsOutcome uuidv4 vs n1) as [b n2].
    cbn [fst accApp accSessions] in *. intros Hs.
    apply in_app_or in Hs as [Hs|Hs].
    + exists v. split; [now left|auto].
    + destruct (IH Hs) as (v' & Hin & Hb). exists v'. split; [now right|assumption].
Qed.

(** C9: every session of a returned preview has a recognized weekday as
    its day, has as start_time the non-null result of [normalizeTime] on
    the time cell of a data row, has duration_slots 1, empty notes and a
    null attendance_marked. *)
Theorem parseWorksheet_sessions (ws : Worksheet) (n n' : nat) (p : ImportPreview) :
  parseWorksheet uuidv4 ws n = (inr p, n') ->
  forall s, In s (sessions p) ->
    In (Session.day s) DAYS /\
    (exists hr tc row text,
        headerRow (scanHeader ws) = Some hr /\
        timeCol (scanHeader ws) = Some tc /\
        In row (dataRows (rangeOf ws) hr) /\
        cellText ws row tc = Some text /\
        normalizeTime text = Some (Session.start_time s)) /\
    Session.duration_slots s = 1%Z /\
    Session.notes s = "" /\
    Session.attendance_marked s = None.
Proof.
  rewrite parseWorksheet_outcome. unfold visits.
  destruct (headerRow (scanHeader ws)) as [hr|]; [|discriminate].
  destruct (timeCol (scanHeader ws)) as [tc|]; [|discriminate].
  pose proof (visitsOutcome_built (visitsOf ws tc (dayCols (scanHeader ws))
                                     (dataRows (rangeOf ws) hr)) n) as Hbuilt.
  destruct (visitsOutcome uuidv4 _ n) as [b n1]. cbn [fst] in Hbuilt.
  intros [= <- _] s Hs. cbn [sessions] in Hs.
  destruct (Hbuilt s Hs) as (v & Hv & Hday & Htime & Hdur & Hnotes & Hatt).
  apply In_visitsOf in Hv as (Hrow & Hrt & text & Hentry & _).
  apply rowTime_normalized in Hrt as (ttext & Hcell & Hnorm).
  split; [rewrite Hday; eapply scanHeader_keys; eassumption|].
  split; [exists hr, tc, (vRow v), ttext; rewrite Htime; auto|].
  auto.
Qed.

End Sessions.

Lemma parseWorksheet_sessions_witness :
  exists p n',
    parseWorksheet countingUuid weekSheet 0 = (inr p, n') /\
    map Session.day (sessions p) = ["Monday"; "Wednesday"] /\
    (forall s, In s (sessions p) -> In (Session.day s) DAYS).
Proof.
  destruct (parseWorksheet countingUuid weekSheet 0) as [[e|p] n'] eqn:E;
    [vm_compute in E; discriminate|].
  exists p, n'. split; [reflexivity|]. split.
  - vm_compute in E. injection E as <- _. reflexivity.
  - intros s Hs.
    exact (proj1 (parseWorksheet_sessions countingUuid weekSheet 0 n' p E s Hs)).
Defined.

(** ** A read that throws *)

(** C5, as stated, does not hold on a sheet whose header cell names two
    weekdays: the session cell below it is read once for each. With a
    generator whose first call throws, the read for Monday throws; the
    diagnostic carries the trimmed text, not the text of the cell, and the
    read for Tuesday puts the line of that same cell into sessions. *)
Lemma failed_cell_not_as_stated :
  exists p n',
    parseSessionCell failFirstUuid "Math" "Monday" "09:00" 0 = (inl UuidError, 1) /\
    parseWorksheet failFirstUuid sharedColumnSheet 0 = (inr p, n') /\
    cellText sharedColumnSheet 1 1 = Some " Math " /\
    unparsedCells p = [mkUnparsed 2 2 "Math"] /\
    (forall u, In u (unparsedCells p) -> content u <> " Math ") /\
    map Session.subject_name (sessions p) = ["Math"].
Proof.
  destruct (parseWorksheet failFirstUuid sharedColumnSheet 0) as [[e|p] n'] eqn:E;
    vm_compute in E; [discriminate|].
  injection E as <- <-. eexists _, _.
  split; [vm_compute; reflexivity|]. split; [reflexivity|].
  split; [vm_compute; reflexivity|]. split; [reflexivity|].
  split; [|reflexivity].
  intros u [<-|[]]. discriminate.
Qed.

(** C5 (amended): when the read of a session cell for a weekday throws,
    the preview holds, for that read, exactly one unparsed cell with the
    1-based row and column of the cell and its trimmed text, and no
    session; the reads before it and after it, siblings in the same row
    and column among them, contribute what they contribute on their own. *)
Theorem failed_read_is_reported (uuidv4 : nat -> option string) (ws : Worksheet)
    (n n1 : nat) (pre post : list Visit) (v : Visit) (e : Exn) :
  visits ws = pre ++ v :: post ->
  parseSessionCell uuidv4 (vContent v) (vDay v) (vTime v)
    (snd (visitsOutcome uuidv4 pre n)) = (inl e, n1) ->
  exists p nf,
    parseWorksheet uuidv4 ws n = (inr p, nf) /\
    sessions p =
      accSessions (fst (visitsOutcome uuidv4 pre n)) ++
      accSessions (fst (visitsOutcome uuidv4 post n1)) /\
    unparsedCells p =
      accUnparsed (fst (visitsOutcome uuidv4 pre n)) ++
      mkUnparsed (Z.of_nat (vRow v) + 1) (Z.of_nat (vCol v) + 1) (vContent v)
      :: accUnparsed (fst (visitsOutcome uuidv4 post n1)) /\
    exists text,
      cellText ws (vRow v) (vCol v) = Some text /\ vContent v = Js.trim text.
Proof.
  intros Hvisits Hthrow.
  assert (Hcell : exists text,
             cellText ws (vRow v) (vCol v) = Some text /\ vContent v = Js.trim text).
  { assert (Hin : In v (visits ws)) by (rewrite Hvisits; apply in_elt).
    unfold visits in Hin.
    destruct (headerRow (scanHeader ws)); [|destruct Hin].
    destruct (timeCol (scanHeader ws)); [|destruct Hin].
    apply In_visitsOf in Hin as (_ & _ & text & _ & Htext & Hcontent & _).
    eauto. }
  rewrite parseWorksheet_outcome.
  destruct (headerRow (scanHeader ws)) as [hr|] eqn:Hhr;
    [|unfold visits in Hvisits; rewrite Hhr in Hvisits;
      destruct pre; discriminate].
  destruct (timeCol (scanHeader ws)) as [tc|] eqn:Htc;
    [|unfold visits in Hvisits; rewrite Hhr, Htc in Hvisits;
      destruct pre; discriminate].
  rewrite Hvisits, visitsOutcome_app.
  destruct (visitsOutcome uuidv4 pre n) as [a na]. cbn [fst snd] in *.
  cbn [visitsOutcome]. unfold visitOutcome at 1. rewrite Hthrow.
  destruct (visitsOutcome uuidv4 post n1) as [b nb]. cbn [fst snd].
  eexists _, _. split; [reflexivity|].
  cbn [sessions unparsedCells accApp accSessions accUnparsed app].
  split; [reflexivity|]. split; [reflexivity|]. assumption.
Qed.

Lemma failed_read_is_reported_witness :
  exists p nf,
    parseWorksheet failSecondUuid siblingSheet 0 = (inr p, nf) /\
    map Session.subject_name (sessions p) = ["Algebra"; "Chemistry"; "Drawing"] /\
    unparsedCells p = [mkUnparsed 2 3 "Biology"].
Proof.
  destruct (failed_read_is_reported failSecondUuid siblingSheet 0 2
              [mkVisit 1 1 "Monday" "09:00" "Algebra"]
              [mkVisit 2 1 "Monday" "10:00" "Chemistry";
               mkVisit 2 2 "Tuesday" "10:00" "Drawing"]
              (mkVisit 1 2 "Tuesday" "09:00" "Biology") UuidError)
    as (p & nf & Hrun & Hsessions & Hunparsed & _).
  - vm_compute. reflexivity.
  - vm_compute. reflexivity.
  - exists p, nf. split; [exact Hrun|]. rewrite Hsessions, Hunparsed.
    split; vm_compute; reflexivity.
Defined.

(** ** The header scan *)

Lemma scanCell_headerRow (ws : Worksheet) (row col : nat) (h : Header) :
  isSet (headerRow (scanCell ws row h col)) =
  isSet (headerRow h) || isTimeCell ws row col.
Proof.
  unfold scanCell, isTimeCell.
  destruct (cellText ws row col) as [text|]; [|now rewrite orb_false_r].
  destruct (Js.includes "time" (Js.trim (Js.toLowerCase text))); cbn.
  - now rewrite orb_true_r.
  - now rewrite orb_false_r.
Qed.

Lemma scanCell_timeCol (ws : Worksheet) (row col : nat) (h : Header) :
  isSet (timeCol (scanCell ws row h col)) =
  isSet (timeCol h) || isTimeCell ws row col.
Proof.
  unfold scanCell, isTimeCell.
  destruct (cellText ws row col) as [text|]; [|now rewrite orb_false_r].
  destruct (Js.includes "time" (Js.trim (Js.toLowerCase text))); cbn.
  - now rewrite orb_true_r.
  - now rewrite orb_false_r.
Qed.

Section ScanSet.

(** Either of the two projections [headerRow] and [timeCol]. *)
Variable field : Header -> option nat.
Hypothesis scanCell_field : forall ws row col h,
  isSet (field (scanCell ws row h col)) = isSet (field h) || isTimeCell ws row col.

Lemma scanCols_field (ws : Worksheet) (row : nat) (cols : list nat) (h : Header) :
  isSet (field (fold_left (scanCell ws row) cols h)) =
  isSet (field h) || existsb (isTimeCell ws row) cols.
Proof.
  revert h. induction cols as [|col cols IH]; intros h; cbn [fold_left existsb].
  - now rewrite orb_false_r.
  - now rewrite IH, scanCell_field, orb_assoc.
Qed.

End ScanSet.

Lemma scanRows_headerRow (ws : Worksheet) (cols rows : list nat) (h : Header) :
  isSet (headerRow (scanRows ws cols rows h)) =
  isSet (headerRow h) || existsb (fun row => existsb (isTimeCell ws row) cols) rows.
Proof.
  revert h. induction rows as [|row rows IH]; intros h; cbn [scanRows existsb].
  - now rewrite orb_false_r.
  - pose proof (scanCols_field headerRow scanCell_headerRow ws row cols h) as Hrow.
    destruct (isSet (headerRow (fold_left (scanCell ws row) cols h))
              && (3 <=? length (dayCols (fold_left (scanCell ws row) cols h)))%nat)
      eqn:Hbreak.
    + apply andb_true_iff in Hbreak as [Hset _].
      rewrite orb_assoc, <- Hrow, Hset. reflexivity.
    + now rewrite IH, Hrow, orb_assoc.
Qed.

(** [headerRow] and [timeCol] are assigned together. *)
Lemma scanRows_both (ws : Worksheet) (cols rows : list nat) (h : Header) :
  isSet (timeCol h) = isSet (headerRow h) ->
  isSet (timeCol (scanRows ws cols rows h)) =
  isSet (headerRow (scanRows ws cols rows h)).
Proof.
  revert h. induction rows as [|row rows IH]; intros h Hh; cbn [scanRows].
  - assumption.
  - assert (Hh' : isSet (timeCol (fold_left (scanCell ws row) cols h)) =
                  isSet (headerRow (fold_left (scanCell ws row) cols h))).
    { rewrite (scanCols_field headerRow scanCell_headerRow).
      rewrite (scanCols_field timeCol scanCell_timeCol).
      now rewrite Hh. }
    destruct (isSet _ && _); [assumption|]. now apply IH.
Qed.

Lemma timeCellScanned_existsb (ws : Worksheet) :
  timeCellScanned ws <->
  existsb (fun row => existsb (isTimeCell ws row) (sheetCols (rangeOf ws)))
    (headerRows (rangeOf ws)) = true.
Proof.
  unfold timeCellScanned. rewrite existsb_exists. split.
  - intros (row & col & Hrow & Hcol & Ht). exists row. split; [assumption|].
    apply existsb_exists. eauto.
  - intros (row & Hrow & Hex). apply existsb_exists in Hex as (col & Hcol & Ht).
    eauto.
Qed.

Lemma scanHeader_found (ws : Worksheet) :
  (timeCellScanned ws ->
   exists hr tc, headerRow (scanHeader ws) = Some hr /\ timeCol (scanHeader ws) = Some tc)
  /\
  (~ timeCellScanned ws ->
   headerRow (scanHeader ws) = None /\ timeCol (scanHeader ws) = None).
Proof.
  pose proof (scanRows_headerRow ws (sheetCols (rangeOf ws)) (headerRows (rangeOf ws))
                (mkHeader None None [])) as Hrow.
  pose proof (scanRows_both ws (sheetCols (rangeOf ws)) (headerRows (rangeOf ws))
                (mkHeader None None []) eq_refl) as Hboth.
  fold (scanHeader ws) in Hrow, Hboth. cbn [headerRow isSet orb] in Hrow.
  rewrite timeCellScanned_existsb.
  destruct (existsb _ (headerRows (rangeOf ws))).
  - split; [intros _|intros []; reflexivity].
    rewrite Hrow in Hboth.
    destruct (headerRow (scanHeader ws)) as [hr|]; [|discriminate].
    destruct (timeCol (scanHeader ws)) as [tc|]; [|discriminate].
    eauto.
  - split; [discriminate|intros _].
    rewrite Hrow in Hboth.
    destruct (headerRow (scanHeader ws)); [discriminate|].
    destruct (timeCol (scanHeader ws)); [discriminate|].
    auto.
Qed.

Lemma timeCellScanned_dec (ws : Worksheet) : timeCellScanned ws \/ ~ timeCellScanned ws.
Proof.
  rewrite timeCellScanned_existsb.
  destruct (existsb _ (headerRows (rangeOf ws))); [now left|right; discriminate].
Qed.

(** C6: [parseWorksheet] throws its structure error exactly when no cell
    of its header scan has the word time in its lower-cased text, and it
    returns a preview exactly when some cell has: the number of weekday
    columns found plays no part, and a run that throws yields no
    preview. *)
Theorem parseWorksheet_structure_error (uuidv4 : nat -> option string)
    (ws : Worksheet) (n : nat) :
  ((exists n', parseWorksheet uuidv4 ws n = (inl StructureError, n')) <->
   ~ timeCellScanned ws) /\
  ((exists p n', parseWorksheet uuidv4 ws n = (inr p, n')) <->
   timeCellScanned ws).
Proof.
  destruct (scanHeader_found ws) as [Hfound Hnone].
  rewrite parseWorksheet_outcome.
  destruct (timeCellScanned_dec ws) as [Ht|Ht].
  - destruct (Hfound Ht) as (hr & tc & -> & ->).
    destruct (visitsOutcome uuidv4 (visits ws) n) as [b n1]. split; split.
    + intros (n' & H). discriminate.
    + intros Hno. contradiction.
    + intros _. assumption.
    + intros _. eauto.
  - destruct (Hnone Ht) as [-> _]. split; split.
    + intros _. assumption.
    + intros _. eauto.
    + intros (p & n' & H). discriminate.
    + intros H. contradiction.
Qed.

(** A sheet with the word time and no weekday is parsed, to a preview
    without sessions. *)
Example parseWorksheet_noDaySheet :
  parseWorksheet countingUuid noDaySheet 0 =
  (inr (mkPreview [] [] (mkMetadata 0 0 low)), 0).
Proof. vm_compute. reflexivity. Qed.

(** ** What the header scan reads *)

Lemma cellText_agree (ws1 ws2 : Worksheet) (row col : nat) :
  cells ws1 !! (row, col) = cells ws2 !! (row, col) ->
  cellText ws1 row col = cellText ws2 row col.
Proof. unfold cellText. now intros ->. Qed.

Lemma scanCols_agree (ws1 ws2 : Worksheet) (row : nat) (cols : list nat) (h : Header) :
  (forall col, In col cols -> cells ws1 !! (row, col) = cells ws2 !! (row, col)) ->
  fold_left (scanCell ws1 row) cols h = fold_left (scanCell ws2 row) cols h.
Proof.
  revert h. induction cols as [|col cols IH]; intros h Hagree; cbn [fold_left].
  - reflexivity.
  - unfold scanCell at 2 4.
    rewrite (cellText_agree ws1 ws2 row col) by (apply Hagree; now left).
    apply IH. intros c Hc. apply Hagree. now right.
Qed.

Lemma scanRows_agree (ws1 ws2 : Worksheet) (cols rows : list nat) (h : Header) :
  (forall row col, In row rows -> In col cols ->
     cells ws1 !! (row, col) = cells ws2 !! (row, col)) ->
  scanRows ws1 cols rows h = scanRows ws2 cols rows h.
Proof.
  revert h. induction rows as [|row rows IH]; intros h Hagree; cbn [scanRows].
  - reflexivity.
  - rewrite (scanCols_agree ws1 ws2 row cols h)
      by (intros col Hcol; apply Hagree; [now left|assumption]).
    destruct (isSet _ && _); [reflexivity|].
    apply IH. intros r c Hr Hc. apply Hagree; [now right|assumption].
Qed.

(** C8, as stated, does not hold: column 12 of [wideSheet] lies outside
    the eleven probed columns, and writing the word time there moves the
    detected time column. *)
Lemma scanHeader_reads_beyond_window :
  ~ In 12 (probeCols (rangeOf wideSheet)) /\
  timeCol (scanHeader wideSheet) = Some 0 /\
  timeCol (scanHeader wideSheetEdited) = Some 12 /\
  scanHeader wideSheetEdited <> scanHeader wideSheet.
Proof.
  split; [|split; [|split]]; vm_compute; try reflexivity; try discriminate.
  intuition discriminate.
Qed.

(** C8 (amended): the header scan of [parseWorksheet] reads only cells in
    the first eleven rows of the range of the sheet, in any column of the
    range: two sheets with the same range that agree on those cells have
    the same header row, time column and weekday columns. *)
Theorem scanHeader_reads_header_rows (ws1 ws2 : Worksheet) :
  ref ws1 = ref ws2 ->
  (forall row col,
     In row (headerRows (rangeOf ws1)) -> In col (sheetCols (rangeOf ws1)) ->
     cells ws1 !! (row, col) = cells ws2 !! (row, col)) ->
  scanHeader ws1 = scanHeader ws2.
Proof.
  intros Href Hagree. unfold scanHeader.
  assert (Hrange : rangeOf ws2 = rangeOf ws1) by (unfold rangeOf; now rewrite Href).
  rewrite Hrange. now apply scanRows_agree.
Qed.

Lemma scanHeader_reads_header_rows_witness :
  scanHeader wideSheet = scanHeader wideSheetBelow.
Proof.
  apply scanHeader_reads_header_rows.
  - reflexivity.
  - intros row col Hrow Hcol. unfold wideSheetBelow. cbn [cells].
    rewrite lookup_insert_ne; [reflexivity|].
    intros [= <- <-]. vm_compute in Hrow. intuition discriminate.
Defined.

(** ** The choice of the sheet *)

Lemma probeCols_fold (ws : Worksheet) (row : nat) (cols : list nat)
    (hasTime : bool) (dayCount : nat) :
  fold_left (probeCell ws row) cols (hasTime, dayCount) =
  (hasTime || existsb (isTimeCell ws row) cols,
   dayCount + length (List.filter (isDayCell ws row) cols)).
Proof.
  revert hasTime dayCount.
  induction cols as [|col cols IH]; intros hasTime dayCount;
    cbn [fold_left existsb List.filter].
  - now rewrite orb_false_r, Nat.add_0_r.
  - unfold probeCell at 2. unfold isTimeCell at 1, isDayCell at 1.
    destruct (cellText ws row col) as [text|]; [|rewrite IH; reflexivity].
    rewrite IH.
    destruct (Js.includes "time" (Js.trim (Js.toLowerCase text)));
      destruct (mentionsDay (Js.trim (Js.toLowerCase text)));
      cbn [orb length]; rewrite ?orb_true_r, ?orb_false_r; f_equal; lia.
Qed.

Lemma probeRow_qualifies (ws : Worksheet) (row : nat) :
  probeRow ws (rangeOf ws) row = true <-> rowQualifies ws row.
Proof.
  unfold probeRow, rowQualifies. rewrite probeCols_fold. cbn [orb Nat.add].
  rewrite andb_true_iff, existsb_exists, Nat.leb_le. reflexivity.
Qed.

Lemma probeSheet_qualifies (ws : Worksheet) :
  probeSheet ws = true <-> sheetQualifies ws.
Proof.
  unfold probeSheet, sheetQualifies. rewrite existsb_exists.
  split; intros (row & Hrow & Hq); exists row; (split; [assumption|]);
    now apply probeRow_qualifies.
Qed.

Lemma probeSheets_first (workbook : WorkBook) (names : list string) :
  (forall name, In name names -> is_Some (Sheets workbook !! name)) ->
  (exists name pre post ws,
      probeSheets workbook names = inr (Some name) /\
      names = pre ++ name :: post /\
      Sheets workbook !! name = Some ws /\ sheetQualifies ws /\
      forall name' ws', In name' pre -> Sheets workbook !! name' = Some ws' ->
                        ~ sheetQualifies ws')
  \/
  (probeSheets workbook names = inr None /\
   forall name' ws', In name' names -> Sheets workbook !! name' = Some ws' ->
                     ~ sheetQualifies ws').
Proof.
  induction names as [|name names IH]; intros Hall; cbn [probeSheets].
  - right. split; [reflexivity|]. intros ? ? [].
  - destruct (Hall name (or_introl eq_refl)) as [ws Hws]. rewrite Hws.
    destruct (probeSheet ws) eqn:Hprobe.
    + left. exists name, [], names, ws.
      repeat split; try assumption; try reflexivity.
      * now apply probeSheet_qualifies.
      * intros ? ? [].
    + assert (Hno : ~ sheetQualifies ws).
      { rewrite <- probeSheet_qualifies. congruence. }
      destruct IH as [(nm & pre & post & ws0 & Hrun & -> & Hlook & Hq & Hpre)|[Hrun Hnone]].
      * intros nm Hnm. apply Hall. now right.
      * left. exists nm, (name :: pre), post, ws0.
        repeat split; try assumption; try reflexivity.
        intros name' ws' [<-|Hin] Hlook'; [congruence|eauto].
      * right. split; [assumption|].
        intros name' ws' [<-|Hin] Hlook'; [congruence|eauto].
Qed.

(** C2, as stated, does not hold. In [twoSheetBook] the second sheet has
    the word time in one row and three weekdays in the next, inside its
    scan window, and [findTimetableSheet] returns the first sheet. In
    [mondaysBook] the second sheet names a single weekday, in three cells
    of its header row, and [findTimetableSheet] returns it. *)
Lemma findTimetableSheet_not_as_stated :
  (locateAsStated twoSheetBook = Some "Week" /\
   findTimetableSheet twoSheetBook = inr (Some "Notes") /\
   findTimetableSheet twoSheetBook <> inr (locateAsStated twoSheetBook)) /\
  (locateAsStated mondaysBook = Some "Notes" /\
   findTimetableSheet mondaysBook = inr (Some "Mondays") /\
   findTimetableSheet mondaysBook <> inr (locateAsStated mondaysBook)).
Proof. repeat split; vm_compute; (reflexivity || discriminate). Qed.

(** C2 (amended): on a workbook with at least one sheet, in which every
    listed name has a sheet, [findTimetableSheet] returns the name of the
    first sheet with a qualifying row: a row, among the first eleven of
    the range, that has within the first eleven columns of the range a
    cell with the word time and at least three cells that name a weekday.
    When no sheet has one it returns the name of the first sheet. It does
    not throw. *)
Theorem findTimetableSheet_first_qualifying (workbook : WorkBook) :
  SheetNames workbook <> [] ->
  (forall name, In name (SheetNames workbook) -> is_Some (Sheets workbook !! name)) ->
  exists name,
    findTimetableSheet workbook = inr (Some name) /\
    ((exists pre post ws,
         SheetNames workbook = pre ++ name :: post /\
         Sheets workbook !! name = Some ws /\ sheetQualifies ws /\
         forall name' ws', In name' pre -> Sheets workbook !! name' = Some ws' ->
                           ~ sheetQualifies ws')
     \/
     (head (SheetNames workbook) = Some name /\
      forall name' ws', In name' (SheetNames workbook) ->
                        Sheets workbook !! name' = Some ws' -> ~ sheetQualifies ws')).
Proof.
  intros Hne Hall. unfold findTimetableSheet.
  destruct (probeSheets_first workbook (SheetNames workbook) Hall)
    as [(name & pre & post & ws & -> & Hsplit & Hlook & Hq & Hpre)|[-> Hnone]].
  - exists name. split; [reflexivity|]. left. eauto 10.
  - destruct (SheetNames workbook) as [|name names] eqn:Hnames; [contradiction|].
    exists name. split; [reflexivity|]. right. split; [reflexivity|assumption].
Qed.

Lemma findTimetableSheet_first_qualifying_witness :
  findTimetableSheet weekBook = inr (Some "Week").
Proof.
  destruct (findTimetableSheet_first_qualifying weekBook) as (name & Hrun & _).
  - discriminate.
  - intros name [<-|[<-|[]]]; vm_compute; eauto.
  - rewrite Hrun. vm_compute in Hrun. injection Hrun as <-. reflexivity.
Defined.

(** ** Two runs on one sheet *)

Section TwoRuns.

Variables uuidA uuidB : nat -> option string.
Hypothesis sameFailures : forall k, uuidA k = None <-> uuidB k = None.

Lemma sessionsOfLines_two (lines : list string) (day startTime : string)
    (accA accB : list Session.t) (n : nat) :
  map withoutId accA = map withoutId accB ->
  match sessionsOfLines uuidA lines day startTime accA n,
        sessionsOfLines uuidB lines day startTime accB n with
  | (inr rA, nA), (inr rB, nB) => map withoutId rA = map withoutId rB /\ nA = nB
  | (inl _, nA), (inl _, nB) => nA = nB
  | _, _ => False
  end.
Proof.
  revert accA accB n.
  induction lines as [|line lines IH]; intros accA accB n Hacc; cbn [sessionsOfLines].
  - unfold ret. auto.
  - destruct (parseSessionLine (Js.trim line)) as [parsed|]; [|now apply IH].
    unfold bind, callUuid.
    destruct (uuidA n) as [tokA|] eqn:EA; destruct (uuidB n) as [tokB|] eqn:EB.
    + apply IH. rewrite !map_app, Hacc. reflexivity.
    + apply sameFailures in EB. congruence.
    + apply sameFailures in EA. congruence.
    + reflexivity.
Qed.

Lemma visitOutcome_two (v : Visit) (n : nat) :
  sameButIds (visitOutcome uuidA v n) (visitOutcome uuidB v n).
Proof.
  unfold visitOutcome, parseSessionCell.
  pose proof (sessionsOfLines_two
                (List.filter (fun line => Js.truthy (Js.trim line))
                   (Js.splitChar "010" (vContent v)))
                (vDay v) (vTime v) [] [] n eq_refl) as H.
  destruct (sessionsOfLines uuidA _ _ _ [] n) as [[eA|rA] nA];
    destruct (sessionsOfLines uuidB _ _ _ [] n) as [[eB|rB] nB];
    try contradiction; unfold sameButIds; cbn; intuition.
Qed.

Lemma visitsOutcome_two (vs : list Visit) (n : nat) :
  sameButIds (visitsOutcome uuidA vs n) (visitsOutcome uuidB vs n).
Proof.
  revert n. induction vs as [|v vs IH]; intros n; cbn [visitsOutcome].
  - repeat split.
  - destruct (visitOutcome_two v n) as (Hs & Hu & Hn).
    destruct (visitOutcome uuidA v n) as [a nA].
    destruct (visitOutcome uuidB v n) as [b nB].
    cbn [fst snd] in *. subst nB.
    destruct (IH nA) as (Hs' & Hu' & Hn').
    destruct (visitsOutcome uuidA vs nA) as [a' nA'].
    destruct (visitsOutcome uuidB vs nA) as [b' nB'].
    unfold sameButIds. cbn [fst snd accApp accSessions accUnparsed] in *.
    rewrite !map_app, Hs, Hs', Hu, Hu'. auto.
Qed.

(** C7 (amended): two runs on one sheet in which [uuidv4] throws at the
    same calls, in particular two runs in which it never throws, both
    throw the structure error or return previews with the same sessions
    up to their ids, the same unparsed cells and the same metadata. *)
Theorem parseWorksheet_same_but_ids (ws : Worksheet) (n : nat) :
  (exists nA nB,
      parseWorksheet uuidA ws n = (inl StructureError, nA) /\
      parseWorksheet uuidB ws n = (inl StructureError, nB))
  \/
  (exists pA pB nA nB,
      parseWorksheet uuidA ws n = (inr pA, nA) /\
      parseWorksheet uuidB ws n = (inr pB, nB) /\
      map withoutId (sessions pA) = map withoutId (sessions pB) /\
      unparsedCells pA = unparsedCells pB /\
      metadata pA = metadata pB).
Proof.
  rewrite !parseWorksheet_outcome.
  destruct (headerRow (scanHeader ws)) as [hr|]; [|left; eauto].
  destruct (timeCol (scanHeader ws)) as [tc|]; [|left; eauto].
  destruct (visitsOutcome_two (visits ws) n) as (Hs & Hu & Hn).
  destruct (visitsOutcome uuidA (visits ws) n) as [a nA].
  destruct (visitsOutcome uuidB (visits ws) n) as [b nB].
  cbn [fst snd] in *. right. eexists _, _, _, _.
  split; [reflexivity|]. split; [reflexivity|].
  cbn [sessions unparsedCells metadata]. rewrite Hu. auto.
Qed.

End TwoRuns.

(** C7, as stated, does not hold: the ids are the tokens that [uuidv4]
    returns, so two generators give two previews of one sheet; and a
    generator that throws gives a preview with other unparsed cells. *)
Lemma parseWorksheet_not_deterministic :
  fst (parseWorksheet countingUuid weekSheet 0) <>
  fst (parseWorksheet otherUuid weekSheet 0) /\
  fst (parseWorksheet countingUuid sharedColumnSheet 0) <>
  fst (parseWorksheet failFirstUuid sharedColumnSheet 0).
Proof. split; vm_compute; discriminate. Qed.

Lemma parseWorksheet_same_but_ids_witness :
  exists pA pB nA nB,
    parseWorksheet countingUuid weekSheet 0 = (inr pA, nA) /\
    parseWorksheet otherUuid weekSheet 0 = (inr pB, nB) /\
    map Session.id (sessions pA) = ["0"; "1"] /\
    map Session.id (sessions pB) = ["100"; "101"] /\
    map withoutId (sessions pA) = map withoutId (sessions pB) /\
    unparsedCells pA = unparsedCells pB /\
    metadata pA = metadata pB.
Proof.
  destruct (parseWorksheet_same_but_ids countingUuid otherUuid) with
    (ws := weekSheet) (n := 0)
    as [(nA & nB & HA & _)|(pA & pB & nA & nB & HA & HB & Hs & Hu & Hm)].
  - intros k. split; discriminate.
  - vm_compute in HA. discriminate.
  - exists pA, pB, nA, nB. repeat split; try assumption.
    + vm_compute in HA. injection HA as <- _. reflexivity.
    + vm_compute in HB. injection HB as <- _. reflexivity.
Defined.

(** ** Further properties of the header scan *)

Lemma setKey_keys (k : string) (x : nat) (o : list (string * nat)) :
  map fst (setKey k x o) =
  if existsb (String.eqb k) (map fst o) then map fst o else map fst o ++ [k].
Proof.
  induction o as [|[k0 y0] o IH]; cbn [setKey map fst existsb app].
  - reflexivity.
  - destruct (String.eqb k k0); cbn [map fst orb].
    + reflexivity.
    + rewrite IH. now destruct (existsb (String.eqb k) (map fst o)).
Qed.

Lemma setKey_NoDup (k : string) (x : nat) (o : list (string * nat)) :
  List.NoDup (map fst o) -> List.NoDup (map fst (setKey k x o)).
Proof.
  intros Hnd. rewrite setKey_keys.
  destruct (existsb (String.eqb k) (map fst o)) eqn:E; [assumption|].
  apply List.NoDup_app.
  - assumption.
  - constructor; [intros []|constructor].
  - intros a Ha [<-|[]].
    assert (existsb (String.eqb k) (map fst o) = true); [|congruence].
    apply existsb_exists. exists k. split; [assumption|apply String.eqb_refl].
Qed.

Lemma setKey_In_new (k : string) (x : nat) (o : list (string * nat)) :
  In (k, x) (setKey k x o).
Proof.
  induction o as [|[k0 y0] o IH]; cbn [setKey].
  - now left.
  - destruct (String.eqb k k0) eqn:E.
    + apply String.eqb_eq in E. subst. now left.
    + now right.
Qed.

Section DaysFold.

Variables (text : string) (col : nat).

Let step (dc : list (string * nat)) (day : string) : list (string * nat) :=
  if Js.includes (Js.toLowerCase day) text then setKey day col dc else dc.

Lemma recordDays_fold_NoDup (days : list string) (dc : list (string * nat)) :
  List.NoDup (map fst dc) -> List.NoDup (map fst (fold_left step days dc)).
Proof.
  revert dc. induction days as [|d days IH]; intros dc Hdc; cbn [fold_left].
  - assumption.
  - apply IH. unfold step.
    destruct (Js.includes (Js.toLowerCase d) text); [now apply setKey_NoDup|assumption].
Qed.

Lemma recordDays_fold_In (days : list string) (dc : list (string * nat))
    (day : string) (c : nat) :
  In (day, c) (fold_left step days dc) ->
  In (day, c) dc \/
  (c = col /\ Js.includes (Js.toLowerCase day) text = true).
Proof.
  revert dc. induction days as [|d days IH]; intros dc; cbn [fold_left].
  - now left.
  - intros Hin. destruct (IH _ Hin) as [Hdc|Hnew]; [|now right].
    unfold step in Hdc.
    destruct (Js.includes (Js.toLowerCase d) text) eqn:E; [|now left].
    apply setKey_In in Hdc as [Hdc|[-> ->]]; [now left|now right].
Qed.

End DaysFold.

Lemma recordDays_NoDup (text : string) (col : nat) (dc : list (string * nat)) :
  List.NoDup (map fst dc) -> List.NoDup (map fst (recordDays text col dc)).
Proof. apply recordDays_fold_NoDup. Qed.

Lemma recordDays_In (text : string) (col : nat) (dc : list (string * nat))
    (day : string) (c : nat) :
  In (day, c) (recordDays text col dc) ->
  In (day, c) dc \/ (c = col /\ Js.includes (Js.toLowerCase day) text = true).
Proof. apply recordDays_fold_In. Qed.

Section HeaderInvariants.

Variables (ws : Worksheet) (rows cols : list nat).

Lemma scanCell_sound (row col : nat) (h : Header) :
  In row rows -> In col cols ->
  headerSound ws rows cols h -> headerSound ws rows cols (scanCell ws row h col).
Proof.
  intros Hrow Hcol Hh. unfold scanCell.
  destruct (cellText ws row col) as [text|] eqn:Htext; [|exact Hh].
  destruct Hh as (Hhr & Htc & Hdc).
  assert (Hdays : forall day c,
             In (day, c) (recordDays (Js.trim (Js.toLowerCase text)) col (dayCols h)) ->
             In c cols /\
             exists r text0,
               In r rows /\ cellText ws r c = Some text0 /\
               Js.includes (Js.toLowerCase day) (Js.trim (Js.toLowerCase text0)) = true).
  { intros day c Hin.
    apply recordDays_In in Hin as [Hin|[-> Hinc]]; [now apply Hdc|].
    split; [assumption|]. exists row, text. auto. }
  assert (Htime : Js.includes "time" (Js.trim (Js.toLowerCase text)) = isTimeCell ws row col)
    by (unfold isTimeCell; now rewrite Htext).
  destruct (Js.includes "time" (Js.trim (Js.toLowerCase text))) eqn:Hinc;
    cbn [headerRow timeCol dayCols]; (split; [|split]).
  - intros r [= <-]. exists col. auto.
  - intros c [= <-]. eauto.
  - exact Hdays.
  - exact Hhr.
  - exact Htc.
  - exact Hdays.
Qed.

Lemma scanCols_sound (row : nat) (cs : list nat) (h : Header) :
  In row rows -> (forall c, In c cs -> In c cols) ->
  headerSound ws rows cols h ->
  headerSound ws rows cols (fold_left (scanCell ws row) cs h).
Proof.
  intros Hrow. revert h. induction cs as [|c cs IH]; intros h Hsub Hh; cbn [fold_left].
  - assumption.
  - apply IH; [intros c' Hc'; apply Hsub; now right|].
    apply scanCell_sound; [assumption|apply Hsub; now left|assumption].
Qed.

Lemma scanRows_sound (rs : list nat) (h : Header) :
  (forall r, In r rs -> In r rows) ->
  headerSound ws rows cols h ->
  headerSound ws rows cols (scanRows ws cols rs h).
Proof.
  revert h. induction rs as [|r rs IH]; intros h Hsub Hh; cbn [scanRows].
  - assumption.
  - assert (Hh' : headerSound ws rows cols (fold_left (scanCell ws r) cols h))
      by (apply scanCols_sound; auto; apply Hsub; now left).
    destruct (isSet _ && _); [assumption|].
    apply IH; [intros r' Hr'; apply Hsub; now right|assumption].
Qed.

Lemma scanCell_NoDup (row col : nat) (h : Header) :
  List.NoDup (map fst (dayCols h)) ->
  List.NoDup (map fst (dayCols (scanCell ws row h col))).
Proof.
  intros Hh. unfold scanCell.
  destruct (cellText ws row col) as [text|]; [|assumption].
  cbn [dayCols]. apply recordDays_NoDup.
  now destruct (Js.includes "time" (Js.trim (Js.toLowerCase text))).
Qed.

Lemma scanCols_NoDup (row : nat) (cs : list nat) (h : Header) :
  List.NoDup (map fst (dayCols h)) ->
  List.NoDup (map fst (dayCols (fold_left (scanCell ws row) cs h))).
Proof.
  revert h. induction cs as [|c cs IH]; intros h Hh; cbn [fold_left].
  - assumption.
  - apply IH. now apply scanCell_NoDup.
Qed.

Lemma scanRows_NoDup (rs : list nat) (h : Header) :
  List.NoDup (map fst (dayCols h)) ->
  List.NoDup (map fst (dayCols (scanRows ws cols rs h))).
Proof.
  revert h. induction rs as [|r rs IH]; intros h Hh; cbn [scanRows].
  - assumption.
  - pose proof (scanCols_NoDup r cols h Hh) as Hh'.
    destruct (isSet _ && _); [assumption|]. now apply IH.
Qed.

End HeaderInvariants.

(** X1: the header that the scan detects points at cells of the sheet.
    The header row is one of the first eleven rows of the range and the
    time column a column of the range, and the cell there has the word
    time; every weekday column is a column of the range in which a cell of
    those rows names that weekday. *)
Theorem scanHeader_sound (ws : Worksheet) :
  headerSound ws (headerRows (rangeOf ws)) (sheetCols (rangeOf ws)) (scanHeader ws).
Proof.
  apply scanRows_sound; [auto|].
  split; [|split]; cbn; try discriminate. intros day c [].
Qed.

(** X2: no weekday has two columns, and there are at most seven weekday
    columns. *)
Theorem scanHeader_days_distinct (ws : Worksheet) :
  List.NoDup (map fst (dayCols (scanHeader ws))) /\
  (length (dayCols (scanHeader ws)) <= 7)%nat.
Proof.
  assert (Hnd : List.NoDup (map fst (dayCols (scanHeader ws))))
    by (apply scanRows_NoDup; constructor).
  split; [assumption|].
  rewrite <- (length_map fst).
  change 7%nat with (length DAYS).
  apply NoDup_incl_length; [assumption|].
  intros day Hday. apply in_map_iff in Hday as ([d c] & <- & Hin).
  eapply scanHeader_keys. eassumption.
Qed.

(** ** Further properties of the walk over the data rows *)

Section WalkFacts.

Variable uuidv4 : nat -> option string.


Lemma visitOutcome_unparsed (v : Visit) (n : nat) :
  (length (accUnparsed (fst (visitOutcome uuidv4 v n))) <= 1)%nat /\
  forall u, In u (accUnparsed (fst (visitOutcome uuidv4 v n))) ->
            u = mkUnparsed (Z.of_nat (vRow v) + 1) (Z.of_nat (vCol v) + 1) (vContent v).
Proof.
  unfold visitOutcome.
  destruct (parseSessionCell uuidv4 (vContent v) (vDay v) (vTime v) n) as [[e|ss] n'];
    cbn; split; try lia; intros u Hu; intuition.
Qed.

Lemma visitsOutcome_unparsed (vs : list Visit) (n : nat) :
  (length (accUnparsed (fst (visitsOutcome uuidv4 vs n))) <= length vs)%nat /\
  forall u, In u (accUnparsed (fst (visitsOutcome uuidv4 vs n))) ->
            exists v, In v vs /\
              u = mkUnparsed (Z.of_nat (vRow v) + 1) (Z.of_nat (vCol v) + 1) (vContent v).
Proof.
  revert n. induction vs as [|v vs IH]; intros n; cbn [visitsOutcome].
  - cbn. split; [lia|intros u []].
  - destruct (visitOutcome_unparsed v n) as [Hlen Hin].
    destruct (visitOutcome uuidv4 v n) as [a n1].
    destruct (IH n1) as [Hlen' Hin'].
    destruct (visitsOutcome uuidv4 vs n1) as [b n2].
    cbn [fst accApp accUnparsed length] in *. rewrite length_app. split; [lia|].
    intros u Hu. apply in_app_or in Hu as [Hu|Hu].
    + exists v. split; [now left|auto].
    + destruct (Hin' u Hu) as (v' & Hv' & ->). exists v'. split; [now right|reflexivity].
Qed.

End WalkFacts.

Lemma visitsOfRow_length (ws : Worksheet) (row : nat) (timeStr : string)
    (entries : list (string * nat)) :
  (length (visitsOfRow ws row timeStr entries) <= length entries)%nat.
Proof.
  unfold visitsOfRow. induction entries as [|entry entries IH]; cbn [flat_map length].
  - lia.
  - rewrite length_app.
    destruct (cellText ws row (snd entry)) as [text|]; [|cbn; lia].
    destruct (Js.isEmpty (Js.trim text)); cbn; lia.
Qed.

Lemma visitsOf_length (ws : Worksheet) (tc : nat) (entries : list (string * nat))
    (rows : list nat) :
  (length (visitsOf ws tc entries rows) <= length rows * length entries)%nat.
Proof.
  unfold visitsOf. induction rows as [|row rows IH]; cbn [flat_map length].
  - lia.
  - rewrite length_app.
    pose proof (visitsOfRow_length ws row) as Hrow.
    destruct (rowTime ws tc row) as [timeStr|]; [specialize (Hrow timeStr entries)|];
      cbn [length]; lia.
Qed.

Lemma headerRow_in_range (ws : Worksheet) (hr : nat) :
  headerRow (scanHeader ws) = Some hr ->
  (s_r (rangeOf ws) <= hr)%nat /\ (hr <= e_r (rangeOf ws))%nat /\
  (hr <= s_r (rangeOf ws) + 10)%nat.
Proof.
  intros Hhr. destruct (scanHeader_sound ws) as (Hrow & _ & _).
  destruct (Hrow hr Hhr) as (c & _ & Hin & _).
  unfold headerRows in Hin. apply in_seq in Hin. lia.
Qed.

(** X3: in a returned preview parsedCells lies between 0 and totalCells,
    and totalCells is at most seven times the number of rows of the range
    below its first row. *)
Theorem parseWorksheet_counts (uuidv4 : nat -> option string) (ws : Worksheet)
    (n n' : nat) (p : ImportPreview) :
  parseWorksheet uuidv4 ws n = (inr p, n') ->
  (0 <= parsedCells (metadata p))%Z /\
  (parsedCells (metadata p) <= totalCells (metadata p))%Z /\
  (totalCells (metadata p)
   <= 7 * Z.of_nat (e_r (rangeOf ws) - s_r (rangeOf ws)))%Z.
Proof.
  rewrite parseWorksheet_outcome. unfold visits.
  destruct (headerRow (scanHeader ws)) as [hr|] eqn:Hhr; [|discriminate].
  destruct (timeCol (scanHeader ws)) as [tc|]; [|discriminate].
  pose proof (visitsOutcome_unparsed uuidv4
                (visitsOf ws tc (dayCols (scanHeader ws)) (dataRows (rangeOf ws) hr)) n)
    as [Hlen _].
  pose proof (visitsOf_length ws tc (dayCols (scanHeader ws)) (dataRows (rangeOf ws) hr))
    as Hvisits.
  destruct (visitsOutcome uuidv4 _ n) as [b n1]. cbn [fst] in Hlen.
  intros [= <- _]. cbn [metadata parsedCells totalCells].
  unfold dataRows in Hvisits, Hlen. rewrite length_seq in Hvisits.
  destruct (headerRow_in_range ws hr Hhr) as (Hlo & Hhi & _).
  destruct (scanHeader_days_distinct ws) as [_ Hseven].
  unfold cellCount.
  assert (Hunp : (Z.of_nat (length (accUnparsed b))
                  <= Z.of_nat ((e_r (rangeOf ws) - hr) * length (dayCols (scanHeader ws))))%Z)
    by (apply Nat2Z.inj_le; lia).
  rewrite Nat2Z.inj_mul, Nat2Z.inj_sub in Hunp by assumption.
  split; [lia|]. split; [lia|].
  rewrite (Z.mul_comm 7).
  apply Z.mul_le_mono_nonneg; lia.
Qed.

Lemma parseWorksheet_counts_witness :
  exists p n',
    parseWorksheet failSecondUuid siblingSheet 0 = (inr p, n') /\
    (0 <= parsedCells (metadata p) <= totalCells (metadata p))%Z /\
    totalCells (metadata p) = 4%Z.
Proof.
  destruct (parseWorksheet failSecondUuid siblingSheet 0) as [[e|p] n'] eqn:E;
    [vm_compute in E; discriminate|].
  exists p, n'. split; [reflexivity|].
  destruct (parseWorksheet_counts _ _ _ _ _ E) as (Hlo & Hhi & _).
  split; [split; assumption|].
  vm_compute in E. injection E as <- _. reflexivity.
Defined.

(** X4: every unparsed cell of a preview is a session cell of the sheet:
    it lies in a data row whose time normalizes, in a weekday column, has
    text that is not blank, and the diagnostic carries its 1-based
    position and its trimmed text. *)
Theorem unparsedCells_origin (uuidv4 : nat -> option string) (ws : Worksheet)
    (n n' : nat) (p : ImportPreview) (u : UnparsedCell) :
  parseWorksheet uuidv4 ws n = (inr p, n') ->
  In u (unparsedCells p) ->
  exists hr tc r c day timeStr text,
    headerRow (scanHeader ws) = Some hr /\ timeCol (scanHeader ws) = Some tc /\
    In r (dataRows (rangeOf ws) hr) /\ rowTime ws tc r = Some timeStr /\
    In (day, c) (dayCols (scanHeader ws)) /\
    cellText ws r c = Some text /\ Js.isEmpty (Js.trim text) = false /\
    u = mkUnparsed (Z.of_nat r + 1) (Z.of_nat c + 1) (Js.trim text).
Proof.
  rewrite parseWorksheet_outcome. unfold visits.
  destruct (headerRow (scanHeader ws)) as [hr|] eqn:Hhr; [|discriminate].
  destruct (timeCol (scanHeader ws)) as [tc|]; [|discriminate].
  pose proof (visitsOutcome_unparsed uuidv4
                (visitsOf ws tc (dayCols (scanHeader ws)) (dataRows (rangeOf ws) hr)) n)
    as [_ Hin].
  destruct (visitsOutcome uuidv4 _ n) as [b n1]. cbn [fst] in Hin.
  intros [= <- _] Hu. cbn [unparsedCells] in Hu.
  destruct (Hin u Hu) as (v & Hv & ->).
  apply In_visitsOf in Hv as (Hrow & Htime & text & Hentry & Htext & Hcontent & Hblank).
  exists hr, tc, (vRow v), (vCol v), (vDay v), (vTime v), text.
  rewrite Hcontent. auto 10.
Qed.

Lemma unparsedCells_origin_witness :
  exists p n' text,
    parseWorksheet failSecondUuid siblingSheet 0 = (inr p, n') /\
    In (mkUnparsed 2 3 "Biology") (unparsedCells p) /\
    cellText siblingSheet 1 2 = Some text.
Proof.
  destruct (parseWorksheet failSecondUuid siblingSheet 0) as [[e|p] n'] eqn:E;
    [vm_compute in E; discriminate|].
  assert (Hin : In (mkUnparsed 2 3 "Biology") (unparsedCells p)).
  { vm_compute in E. injection E as <- _. now left. }
  destruct (unparsedCells_origin _ _ _ _ _ _ E Hin)
    as (hr & tc & r & c & day & timeStr & text & _ & _ & _ & _ & _ & Htext & _ & Hu).
  injection Hu as Hr Hc _.
  assert (r = 1%nat) as -> by lia. assert (c = 2%nat) as -> by lia.
  exists p, n', text. auto.
Defined.

(** ** Runs in which [uuidv4] does not throw *)

Section NoThrow.

Variable uuidv4 : nat -> option string.
Hypothesis uuid_ok : neverThrows uuidv4.

Lemma sessionsOfLines_ok (lines : list string) (day startTime : string)
    (acc : list Session.t) (n : nat) :
  exists r n', sessionsOfLines uuidv4 lines day startTime acc n = (inr r, n').
Proof.
  revert acc n. induction lines as [|line lines IH]; intros acc n; cbn [sessionsOfLines].
  - unfold ret. eauto.
  - destruct (parseSessionLine (Js.trim line)) as [parsed|]; [|apply IH].
    unfold bind, callUuid. destruct (uuidv4 n) as [tok|] eqn:E; [apply IH|].
    now apply uuid_ok in E.
Qed.

Lemma visitsOutcome_ok (vs : list Visit) (n : nat) :
  accUnparsed (fst (visitsOutcome uuidv4 vs n)) = [].
Proof.
  revert n. induction vs as [|v vs IH]; intros n; cbn [visitsOutcome].
  - reflexivity.
  - unfold visitOutcome, parseSessionCell.
    destruct (sessionsOfLines_ok
                (List.filter (fun line => Js.truthy (Js.trim line))
                   (Js.splitChar "010" (vContent v)))
                (vDay v) (vTime v) [] n) as (r & n1 & ->).
    specialize (IH n1). destruct (visitsOutcome uuidv4 vs n1) as [b n2].
    cbn [fst accApp accUnparsed app] in *. assumption.
Qed.

Lemma calculateConfidence_all (total : Z) :
  calculateConfidence total total = if (0 <? total)%Z then high else low.
Proof.
  destruct (0 <? total)%Z eqn:E.
  - apply Z.ltb_lt in E. apply calculateConfidence_cases.
    unfold parsedRatio. rewrite Z.max_l by lia.
    assert (Hone : (inject_Z total / inject_Z total == 1)%Q).
    { apply Qmult_inv_r. unfold Qeq, inject_Z. cbn. lia. }
    rewrite Hone. discriminate.
  - apply Z.ltb_ge in E. apply calculateConfidence_cases.
    unfold parsedRatio. rewrite Z.max_r by lia.
    unfold Qlt, Qdiv, Qmult, Qinv, inject_Z. cbn. lia.
Qed.

(** X5: when [uuidv4] does not throw, a returned preview has no unparsed
    cell, parsedCells equals totalCells, and the confidence is high when
    totalCells is positive and low when it is 0; it is never medium. *)
Theorem parseWorksheet_without_throw (ws : Worksheet) (n n' : nat) (p : ImportPreview) :
  parseWorksheet uuidv4 ws n = (inr p, n') ->
  unparsedCells p = [] /\
  parsedCells (metadata p) = totalCells (metadata p) /\
  confidence (metadata p) =
    if (0 <? totalCells (metadata p))%Z then high else low.
Proof.
  rewrite parseWorksheet_outcome.
  destruct (headerRow (scanHeader ws)) as [hr|]; [|discriminate].
  destruct (timeCol (scanHeader ws)) as [tc|]; [|discriminate].
  pose proof (visitsOutcome_ok (visits ws) n) as Hnone.
  destruct (visitsOutcome uuidv4 (visits ws) n) as [b n1]. cbn [fst] in Hnone.
  intros [= <- _]. cbn [unparsedCells metadata parsedCells totalCells confidence].
  rewrite Hnone. cbn [length Z.of_nat]. rewrite Z.sub_0_r.
  split; [reflexivity|]. split; [reflexivity|]. apply calculateConfidence_all.
Qed.

End NoThrow.

Lemma countingUuid_neverThrows : neverThrows countingUuid.
Proof. intros k. discriminate. Qed.

Lemma parseWorksheet_without_throw_witness :
  exists p n',
    parseWorksheet countingUuid weekSheet 0 = (inr p, n') /\
    unparsedCells p = [] /\ confidence (metadata p) = high.
Proof.
  destruct (parseWorksheet countingUuid weekSheet 0) as [[e|p] n'] eqn:E;
    [vm_compute in E; discriminate|].
  exists p, n'. split; [reflexivity|].
  destruct (parseWorksheet_without_throw countingUuid countingUuid_neverThrows _ _ _ _ E)
    as (Hnone & _ & Hconf).
  split; [assumption|]. rewrite Hconf.
  vm_compute in E. injection E as <- _. reflexivity.
Defined.

(** ** The identifiers of the sessions *)

Section Tokens.

Variable uuidv4 : nat -> option string.










End Tokens.



(** ** The sessions of one cell *)

Section CellSessions.

Variable uuidv4 : nat -> option string.

Lemma sessionsOfLines_numbered (lines : list string) (day startTime : string)
    (acc : list Session.t) (n : nat) :
  let ps :=
    flat_map (fun line =>
                match parseSessionLine (Js.trim line) with
                | Some parsed => [parsed]
                | None => []
                end) lines in
  (forall i, (i < length ps)%nat -> uuidv4 (n + i) <> None) ->
  sessionsOfLines uuidv4 lines day startTime acc n =
  (inr (acc ++ numbered uuidv4 day startTime n ps), n + length ps).
Proof.
  revert acc n. induction lines as [|line lines IH]; intros acc n;
    cbn [sessionsOfLines flat_map].
  - cbn. intros _. unfold ret. now rewrite app_nil_r, Nat.add_0_r.
  - destruct (parseSessionLine (Js.trim line)) as [parsed|]; cbn [app]; [|apply IH].
    cbn [length numbered]. intros Hok.
    unfold bind, callUuid.
    destruct (uuidv4 n) as [tok|] eqn:E;
      [|exfalso; apply (Hok 0%nat); [lia|now rewrite Nat.add_0_r]].
    rewrite IH.
    + rewrite <- app_assoc. cbn [app default]. f_equal. lia.
    + intros i Hi. replace (S n + i)%nat with (n + S i)%nat by lia. apply Hok. lia.
Qed.

Lemma sessionsOfLines_throws (lines : list string) (day startTime : string)
    (acc : list Session.t) (n i : nat) :
  let ps :=
    flat_map (fun line =>
                match parseSessionLine (Js.trim line) with
                | Some parsed => [parsed]
                | None => []
                end) lines in
  (i < length ps)%nat -> uuidv4 (n + i) = None ->
  (forall j, (j < i)%nat -> uuidv4 (n + j) <> None) ->
  sessionsOfLines uuidv4 lines day startTime acc n = (inl UuidError, S (n + i)).
Proof.
  revert acc n i. induction lines as [|line lines IH]; intros acc n i;
    cbn [sessionsOfLines flat_map].
  - cbn. lia.
  - destruct (parseSessionLine (Js.trim line)) as [parsed|]; cbn [app]; [|apply IH].
    cbn [length]. intros Hi Hnone Hok. unfold bind, callUuid.
    destruct i as [|i].
    + rewrite Nat.add_0_r in Hnone. rewrite Hnone. now rewrite Nat.add_0_r.
    + destruct (uuidv4 n) as [tok|] eqn:E;
        [|exfalso; apply (Hok 0%nat); [lia|now rewrite Nat.add_0_r]].
      rewrite (IH _ (S n) i).
      * f_equal. lia.
      * lia.
      * now replace (S n + i)%nat with (n + S i)%nat by lia.
      * intros j Hj. replace (S n + j)%nat with (n + S j)%nat by lia. apply Hok. lia.
Qed.

(** X7: when the calls of [uuidv4] that a cell needs return tokens,
    [parseSessionCell] returns one session for each line that the line
    grammar accepts, in line order, with the fields of that line, the
    given day and time, and the tokens of consecutive calls as ids; it
    makes one call for each such line, and none for a blank or rejected
    line. *)
Theorem parseSessionCell_accepted (cellContent day startTime : string) (n : nat) :
  (forall i, (i < length (acceptedLines cellContent))%nat -> uuidv4 (n + i) <> None) ->
  parseSessionCell uuidv4 cellContent day startTime n =
  (inr (numbered uuidv4 day startTime n (acceptedLines cellContent)),
   n + length (acceptedLines cellContent)).
Proof.
  intros Hok. unfold parseSessionCell.
  now rewrite (sessionsOfLines_numbered _ day startTime [] n Hok).
Qed.

(** X8: when a call of [uuidv4] for an accepted line of a cell throws,
    [parseSessionCell] throws at the first such call: it returns no
    session, also none for the lines before, and makes no call after. *)
Theorem parseSessionCell_throws (cellContent day startTime : string) (n i : nat) :
  (i < length (acceptedLines cellContent))%nat ->
  uuidv4 (n + i) = None ->
  (forall j, (j < i)%nat -> uuidv4 (n + j) <> None) ->
  parseSessionCell uuidv4 cellContent day startTime n = (inl UuidError, S (n + i)).
Proof.
  intros Hi Hnone Hok. unfold parseSessionCell.
  now apply sessionsOfLines_throws.
Qed.

End CellSessions.

Lemma parseSessionCell_accepted_witness :
  map Session.subject_name
    (numbered countingUuid "Monday" "09:00" 5
       (acceptedLines "Algebra
 
(G1)
Biology")) = ["Algebra"; "Biology"] /\
  snd (parseSessionCell countingUuid "Algebra
 
(G1)
Biology" "Monday" "09:00" 5) = 7%nat.
Proof.
  split; [vm_compute; reflexivity|].
  rewrite (parseSessionCell_accepted countingUuid _ "Monday" "09:00" 5).
  - vm_compute. reflexivity.
  - intros i _. discriminate.
Defined.

Lemma parseSessionCell_throws_witness :
  parseSessionCell failSecondUuid "Algebra
Biology
Chemistry" "Monday" "09:00" 0 = (inl UuidError, 2%nat).
Proof.
  apply (parseSessionCell_throws failSecondUuid _ "Monday" "09:00" 0 1).
  - vm_compute. lia.
  - reflexivity.
  - intros j Hj. assert (j = 0%nat) as -> by lia. discriminate.
Defined.

(** ** Further properties of the time normalizer *)

Lemma length_append (a b : string) :
  String.length (a +:+ b) = (String.length a + String.length b)%nat.
Proof.
  induction a as [|c a IH]; [reflexivity|].
  change (S (String.length (a +:+ b)) = S (String.length a + String.length b)).
  now rewrite IH.
Qed.

Lemma length_padStart (k : nat) (c : ascii) (s : string) :
  (k <= String.length (Js.padStart k c s))%nat.
Proof.
  unfold Js.padStart. rewrite length_append.
  assert (Hrep : forall j, String.length (Js.repeatChar c j) = j)
    by (induction j as [|j IH]; cbn [Js.repeatChar String.length];
        [reflexivity|f_equal; exact IH]).
  rewrite Hrep. lia.
Qed.

Lemma firstPattern_length (ps : list regex) (cleaned t : string) :
  firstPattern ps cleaned = Some t -> (5 <= String.length t)%nat.
Proof.
  induction ps as [|pattern ps IH]; cbn [firstPattern]; [discriminate|].
  destruct (exec pattern cleaned) as [m|]; [|assumption].
  intros [= <-]. unfold timeOfMatch, formatTime.
  rewrite !length_append. change (String.length ":") with 1%nat.
  match goal with
  | |- (5 <= String.length (Js.padStart 2 ?c ?a)
             + (1 + String.length (Js.padStart 2 ?c' ?b)))%nat =>
      pose proof (length_padStart 2 c a); pose proof (length_padStart 2 c' b)
  end.
  lia.
Qed.

(** X9: a result of [normalizeTime] that is not null has at least five
    characters. It is therefore never the empty string, and the test
    [!timeStr] of [parseWorksheet] skips a row only when [normalizeTime]
    returned null. *)
Theorem normalizeTime_length (timeStr t : string) :
  normalizeTime timeStr = Some t ->
  (5 <= String.length t)%nat /\ Js.truthy t = true.
Proof.
  intros Hnorm.
  assert (Hlen : (5 <= String.length t)%nat).
  { unfold normalizeTime in Hnorm.
    destruct (firstPattern TIME_PATTERNS _) as [t0|] eqn:Hfirst.
    - injection Hnorm as <-. eapply firstPattern_length. eassumption.
    - destruct (exec numericRe _) as [m|]; [|discriminate].
      destruct (Js.parseInt _) as [hours|]; [|discriminate].
      destruct ((0 <=? hours)%Z && (hours <=? 23)%Z); [|discriminate].
      injection Hnorm as <-. rewrite length_append.
      change (String.length ":00") with 3%nat.
      pose proof (length_padStart 2 "0" (pretty hours)). lia. }
  split; [assumption|].
  destruct t; [change (String.length EmptyString) with 0%nat in Hlen; lia|reflexivity].
Qed.

Lemma normalizeTime_length_witness :
  normalizeTime "7" = Some "07:00" /\ (5 <= String.length "07:00")%nat.
Proof.
  assert (H : normalizeTime "7" = Some "07:00") by (vm_compute; reflexivity).
  split; [exact H|]. exact (proj1 (normalizeTime_length _ _ H)).
Defined.

Lemma rowTime_normalizeTime (ws : Worksheet) (tc row : nat) :
  rowTime ws tc row =
  match cellText ws row tc with
  | Some text => normalizeTime text
  | None => None
  end.
Proof.
  unfold rowTime. destruct (cellText ws row tc) as [text|]; [|reflexivity].
  destruct (normalizeTime text) as [t|] eqn:E; [|reflexivity].
  now rewrite (proj2 (normalizeTime_length _ _ E)).
Qed.


Lemma clock24Checked_all :
  forallb (fun h => forallb (clock24Checked h) (List.seq 0 60)) (List.seq 0 24) = true.
Proof. vm_compute. reflexivity. Qed.

Lemma bareChecked_all : forallb bareChecked (List.seq 0 100) = true.
Proof. vm_compute. reflexivity. Qed.

Lemma normalizesTo_eq (text expected : string) :
  normalizesTo text expected = true -> normalizeTime text = Some expected.
Proof.
  unfold normalizesTo. destruct (normalizeTime text) as [t|]; [|discriminate].
  intros H. apply String.eqb_eq in H. now subst.
Qed.



(** X11: a time of a 24-hour clock, with hour 0 to 23 and minutes 00 to
    59, the hour written with or without a leading zero and a colon or a
    period before the minutes, normalizes to the canonical time with a
    colon and a two-digit hour. *)
Theorem normalizeTime_clock24 (h m : nat) (text : string) :
  (h < 24)%nat -> (m < 60)%nat -> In text (clock24Texts h m) ->
  normalizeTime text = Some (canonicalTime h m).
Proof.
  intros Hh Hm Htext.
  pose proof clock24Checked_all as Hall. rewrite forallb_forall in Hall.
  specialize (Hall h). rewrite forallb_forall in Hall.
  assert (Hin : In h (List.seq 0 24)) by (apply in_seq; lia).
  assert (Hin' : In m (List.seq 0 60)) by (apply in_seq; lia).
  specialize (Hall Hin m Hin'). unfold clock24Checked in Hall.
  rewrite forallb_forall in Hall. now apply normalizesTo_eq, Hall.
Qed.

Lemma normalizeTime_clock24_witness :
  normalizeTime "9.05" = Some "09:05".
Proof.
  apply (normalizeTime_clock24 9 5); try lia. cbn. auto.
Defined.

(** X12: a bare number of one or two digits normalizes to that hour with
    minutes 00 when it is at most 23, and to null from 24 on. *)
Theorem normalizeTime_bare (k : nat) (text : string) :
  (k < 100)%nat -> In text [natText k; twoDigits k] ->
  normalizeTime text = if (k <? 24)%nat then Some (canonicalTime k 0) else None.
Proof.
  intros Hk Htext.
  pose proof bareChecked_all as Hall. rewrite forallb_forall in Hall.
  assert (Hin : In k (List.seq 0 100)) by (apply in_seq; lia).
  specialize (Hall k Hin). unfold bareChecked in Hall.
  rewrite forallb_forall in Hall. specialize (Hall text Htext).
  destruct (normalizeTime text) as [t|]; destruct (k <? 24)%nat; cbn in Hall;
    try discriminate; try reflexivity.
  apply String.eqb_eq in Hall. now subst.
Qed.

Lemma normalizeTime_bare_witness :
  normalizeTime "24" = None.
Proof. apply (normalizeTime_bare 24); [lia|]. cbn. auto. Defined.

(** ** The confidence of a line *)

(** X13: the confidence of a line in terms of its subject and its
    credits. With a subject of more than three characters it is high from
    three credits on, medium with one or two, and low with none; with a
    shorter subject it is never high, medium from three credits on and low
    below. *)
Theorem calculateLineConfidence_table (subject type room lecturer : string)
    (groups : list string) :
  calculateLineConfidence subject type room lecturer groups =
  let c := credits type room lecturer groups in
  if (3 <? String.length subject)%nat
  then (if (3 <=? c)%nat then high else if (1 <=? c)%nat then medium else low)
  else (if (3 <=? c)%nat then medium else low).
Proof.
  unfold calculateLineConfidence, credits.
  assert (Hsub : Js.truthy subject && (3 <? String.length subject)%nat
                 = (3 <? String.length subject)%nat)
    by (destruct subject; reflexivity).
  assert (Hlec : Js.truthy lecturer && (3 <? String.length lecturer)%nat
                 = (3 <? String.length lecturer)%nat)
    by (destruct lecturer; reflexivity).
  rewrite Hsub, Hlec.
  destruct (3 <? String.length subject)%nat; destruct (Js.truthy type);
    destruct (Js.truthy room); destruct (3 <? String.length lecturer)%nat;
    destruct (0 <? length groups)%nat; reflexivity.
Qed.

(** ** Invariants of the records of the line grammar *)

Lemma upperChar_idempotent (c : ascii) : Js.upperChar (Js.upperChar c) = Js.upperChar c.
Proof. destruct c as [[] [] [] [] [] [] [] []]; reflexivity. Qed.

Lemma toUpperCase_idempotent (s : string) :
  Js.toUpperCase (Js.toUpperCase s) = Js.toUpperCase s.
Proof.
  unfold Js.toUpperCase. induction s as [|c s IH]; cbn [Js.mapChars]; [reflexivity|].
  now rewrite upperChar_idempotent, IH.
Qed.

(** A record returned by [parseSessionLine] has a subject that is
    not empty, no empty group, a type without lower-case letters, and the
    confidence that [calculateLineConfidence] gives to its own fields. *)
Theorem parseSessionLine_record (line : string) (p : ParsedCell.t) :
  parseSessionLine line = Some p ->
  ParsedCell.subject_name p <> "" /\
  (forall g, In g (ParsedCell.groups p) -> g <> "") /\
  Js.toUpperCase (ParsedCell.session_type p) = ParsedCell.session_type p /\
  ParsedCell.confidence p =
    calculateLineConfidence (ParsedCell.subject_name p) (ParsedCell.session_type p)
      (ParsedCell.room_or_code p) (ParsedCell.lecturer p) (ParsedCell.groups p).
Proof.
  unfold parseSessionLine.
  set (step1 := match exec groupsRe line with Some _ => _ | None => _ end).
  assert (Hgroups : forall g, In g (fst step1) -> g <> "").
  { subst step1. destruct (exec groupsRe line) as [m|]; cbn [fst]; [|intros g []].
    intros g Hg. apply filter_In in Hg as [_ Hg].
    intros ->. discriminate. }
  destruct step1 as [groups line1].
  set (step2 := match exec lecturerRe line1 with Some _ => _ | None => _ end).
  destruct step2 as [lecturer line2].
  set (step3 := match exec roomRe line2 with Some _ => _ | None => _ end).
  destruct step3 as [room line3].
  set (step4 := match exec subjectRe line3 with Some _ => _ | None => _ end).
  assert (Htype : Js.toUpperCase (snd step4) = snd step4).
  { subst step4. destruct (exec subjectRe line3) as [m|]; cbn [snd]; [|reflexivity].
    apply toUpperCase_idempotent. }
  destruct step4 as [subject type]. cbn [fst snd] in *.
  destruct (Js.isEmpty subject) eqn:Hempty; [discriminate|].
  intros [= <-]. cbn.
  repeat split; try assumption.
  intros ->. discriminate.
Qed.

Lemma parseSessionLine_record_witness :
  exists p,
    parseSessionLine mathLine = Some p /\
    ParsedCell.subject_name p <> "" /\ ParsedCell.confidence p = medium.
Proof.
  destruct (parseSessionLine mathLine) as [p|] eqn:E; [|vm_compute in E; discriminate].
  exists p. split; [reflexivity|].
  destruct (parseSessionLine_record _ _ E) as (Hsub & _ & _ & Hconf).
  split; [assumption|]. rewrite Hconf.
  vm_compute in E. injection E as <-. reflexivity.
Defined.

(** ** The whole import of one file *)

Section ParseFileFacts.

Import ParseFile.

Variable typeErrorMessage : string.
Variable uuidv4 : nat -> option string.

Lemma startsWith_append (p x : string) : Js.startsWith p (p +:+ x) = true.
Proof.
  induction p as [|c p IH]; [reflexivity|].
  change (Ascii.eqb c c && Js.startsWith p (p +:+ x) = true).
  now rewrite Ascii.eqb_refl, IH.
Qed.

Lemma catchBlock_structure (platform : Platform) :
  catchBlock platform (Some structureMessage) = failedPrefix +:+ structureMessage.
Proof. destruct platform; vm_compute; reflexivity. Qed.


Lemma findTimetableSheet_listed (workbook : WorkBook) (name : string) :
  (forall nm, In nm (SheetNames workbook) -> is_Some (Sheets workbook !! nm)) ->
  findTimetableSheet workbook = inr (Some name) ->
  In name (SheetNames workbook).
Proof.
  intros Hall. unfold findTimetableSheet.
  destruct (probeSheets_first workbook (SheetNames workbook) Hall)
    as [(nm & pre & post & ws & -> & Hsplit & _)|[-> _]].
  - intros [= <-]. rewrite Hsplit. apply in_elt.
  - destruct (SheetNames workbook) as [|nm names]; [discriminate|].
    intros [= <-]. now left.
Qed.

(** X14: on a decoded workbook with at least one sheet, in which every
    listed name is not empty and has a sheet, [parseExcelFile] chooses a
    listed sheet with [findTimetableSheet] and returns what
    [parseWorksheet] returns for it; when that throws, it throws the
    message of the structure error behind the prefix [Failed to parse
    Excel file: ], on the web and on a phone alike. *)
Theorem parseExcelFile_decoded (platform : Platform) (workbook : WorkBook) (n : nat) :
  SheetNames workbook <> [] ->
  (forall name, In name (SheetNames workbook) ->
     name <> "" /\ is_Some (Sheets workbook !! name)) ->
  exists name worksheet,
    findTimetableSheet workbook = inr (Some name) /\
    In name (SheetNames workbook) /\
    Sheets workbook !! name = Some worksheet /\
    parseExcelFile typeErrorMessage uuidv4 platform (Decoded workbook) n =
    match parseWorksheet uuidv4 worksheet n with
    | (inr preview, n') => (inr preview, n')
    | (inl _, n') => (inl (failedPrefix +:+ structureMessage), n')
    end.
Proof.
  intros Hne Hall.
  assert (Hsheets : forall nm, In nm (SheetNames workbook) ->
                               is_Some (Sheets workbook !! nm))
    by (intros nm Hnm; now apply Hall).
  assert (Hfound : exists name, findTimetableSheet workbook = inr (Some name)).
  { unfold findTimetableSheet.
    destruct (probeSheets_first workbook (SheetNames workbook) Hsheets)
      as [(nm & pre & post & ws & -> & _)|[-> _]]; [eauto|].
    destruct (SheetNames workbook); [contradiction|]. cbn. eauto. }
  destruct Hfound as (name & Hfound).
  pose proof (findTimetableSheet_listed _ _ Hsheets Hfound) as Hin.
  destruct (Hall name Hin) as [Hname [worksheet Hws]].
  exists name, worksheet. repeat split; try assumption.
  unfold parseExcelFile, tryBlock. rewrite Hfound, Hws.
  destruct name as [|c name]; [contradiction|]. cbn [Js.isEmpty].
  rewrite parseWorksheet_outcome.
  destruct (headerRow (scanHeader worksheet)); [|now rewrite catchBlock_structure].
  destruct (timeCol (scanHeader worksheet)); [|now rewrite catchBlock_structure].
  now destruct (visitsOutcome uuidv4 (visits worksheet) n).
Qed.


(** X16: every message that [parseExcelFile] throws starts with the prefix
    [Failed to parse Excel file: ], except that on a phone an error whose
    message mentions [FileSystem] or [fetch] is replaced by one of the two
    file access messages. *)
Theorem parseExcelFile_messages (platform : Platform) (read : ReadOutcome)
    (n n' : nat) (message : string) :
  parseExcelFile typeErrorMessage uuidv4 platform read n = (inl message, n') ->
  Js.startsWith failedPrefix message = true \/
  (platform = mobile /\ (message = fileSystemMessage \/ message = fetchMessage)).
Proof.
  unfold parseExcelFile.
  destruct (tryBlock typeErrorMessage uuidv4 read n) as [[error|preview] n1];
    [|discriminate].
  intros [= <- _]. unfold catchBlock.
  destruct platform; destruct error as [inner|]; try (left; apply startsWith_append).
  destruct (Js.includes "FileSystem" inner); [right; auto|].
  destruct (Js.includes "fetch" inner); [right; auto|].
  left. apply startsWith_append.
Qed.

End ParseFileFacts.

Lemma parseExcelFile_decoded_witness :
  exists preview n',
    ParseFile.parseExcelFile "TypeError" countingUuid ParseFile.mobile
      (ParseFile.Decoded weekBook) 0 = (inr preview, n') /\
    length (sessions preview) = 2%nat.
Proof.
  destruct (parseExcelFile_decoded "TypeError" countingUuid ParseFile.mobile weekBook 0)
    as (name & worksheet & Hfound & _ & Hws & Hrun).
  - discriminate.
  - intros name [<-|[<-|[]]]; (split; [discriminate|vm_compute; eauto]).
  - vm_compute in Hfound. injection Hfound as <-.
    vm_compute in Hws. injection Hws as <-.
    rewrite Hrun. eexists _, _. split; vm_compute; reflexivity.
Defined.


Lemma parseExcelFile_messages_witness :
  Js.startsWith ParseFile.failedPrefix
    (ParseFile.failedPrefix +:+ ParseFile.structureMessage) = true \/
  (ParseFile.mobile = ParseFile.mobile /\
   (ParseFile.failedPrefix +:+ ParseFile.structureMessage = ParseFile.fileSystemMessage \/
    ParseFile.failedPrefix +:+ ParseFile.structureMessage = ParseFile.fetchMessage)).
Proof.
  apply (parseExcelFile_messages "TypeError" countingUuid ParseFile.mobile
           (ParseFile.Decoded (mkBook ["Notes"] (<["Notes" := emptySheet]> ∅))) 0 0).
  vm_compute. reflexivity.
Defined.

(** ** The stored timetable *)

Section StorageFacts.

Import StorageManager.

Variable percentOf : Z -> Z -> Q.

Lemma markedCount_cons (test : option Attendance -> bool) (name : string)
    (s : Session.t) (sessions : list Session.t) :
  markedCount test name (s :: sessions) =
  (hit test name s + markedCount test name sessions)%Z.
Proof.
  unfold markedCount, hit. cbn [List.filter].
  destruct (String.eqb (Session.subject_name s) name
            && test (Session.attendance_marked s)); cbn [length]; lia.
Qed.

Lemma updateFound_missing (sessionId : string) (f : Session.t -> Session.t)
    (sessions : list Session.t) :
  findSession sessionId sessions = None -> updateFound sessionId f sessions = sessions.
Proof.
  unfold findSession. induction sessions as [|s sessions IH]; cbn [find updateFound].
  - reflexivity.
  - destruct (String.eqb (Session.id s) sessionId); [discriminate|].
    intros H. now rewrite IH.
Qed.

Lemma markedCount_updateFound (test : option Attendance -> bool) (name sessionId : string)
    (f : Session.t -> Session.t) (sessions : list Session.t) (s0 : Session.t) :
  findSession sessionId sessions = Some s0 ->
  markedCount test name (updateFound sessionId f sessions) =
  (markedCount test name sessions - hit test name s0 + hit test name (f s0))%Z.
Proof.
  unfold findSession. induction sessions as [|s sessions IH]; cbn [find updateFound].
  - discriminate.
  - destruct (String.eqb (Session.id s) sessionId).
    + intros [= <-]. rewrite !markedCount_cons. lia.
    + intros H. rewrite !markedCount_cons, (IH H). lia.
Qed.


Lemma hit_other (test : option Attendance -> bool) (name : string) (s : Session.t) :
  Session.subject_name s <> name -> hit test name s = 0%Z.
Proof.
  intros Hne. unfold hit.
  destruct (String.eqb (Session.subject_name s) name) eqn:E; [|reflexivity].
  apply String.eqb_eq in E. contradiction.
Qed.

Lemma hit_same (test : option Attendance -> bool) (s : Session.t) :
  hit test (Session.subject_name s) s =
  if test (Session.attendance_marked s) then 1%Z else 0%Z.
Proof. unfold hit. now rewrite String.eqb_refl. Qed.

Lemma recount_counts (oldStatus status : option Attendance) (subject : Subject.t) :
  Subject.attended_classes (recount percentOf oldStatus status subject) =
    (Subject.attended_classes subject
     - (if isPresent oldStatus then 1 else 0) + (if isPresent status then 1 else 0))%Z /\
  Subject.missed_classes (recount percentOf oldStatus status subject) =
    (Subject.missed_classes subject
     - (if isAbsent oldStatus then 1 else 0) + (if isAbsent status then 1 else 0))%Z.
Proof.
  unfold recount. cbn [Subject.attended_classes Subject.missed_classes].
  destruct oldStatus as [[]|]; destruct status as [[]|]; cbn; split; lia.
Qed.

Lemma mark_inStep (data : TimetableData.t) (sessionId : string)
    (status : option Attendance) (session : Session.t) :
  inStep percentOf data ->
  findSession sessionId (TimetableData.sessions data) = Some session ->
  inStep percentOf
    (withSubjects
       (withSessions data
          (updateFound sessionId (fun s => withAttendance s status)
             (TimetableData.sessions data)))
       (match TimetableData.subjects data !! Session.subject_name session with
        | Some subject =>
            <[Session.subject_name session :=
                recount percentOf (Session.attendance_marked session) status subject]>
              (TimetableData.subjects data)
        | None => TimetableData.subjects data
        end)).
Proof.
  intros Hstep Hfind name subject.
  cbn [withSubjects withSessions TimetableData.subjects TimetableData.sessions].
  rewrite !(markedCount_updateFound _ _ _ _ _ _ Hfind).
  destruct (decide (Session.subject_name session = name)) as [<-|Hne].
  - destruct (TimetableData.subjects data !! Session.subject_name session)
      as [subject0|] eqn:Hlook.
    + rewrite lookup_insert_eq. intros [= <-].
      destruct (Hstep _ _ Hlook) as (Ha & Hm & _ & _).
      destruct (recount_counts (Session.attendance_marked session) status subject0)
        as [Ha' Hm'].
      assert (Hnew : forall test,
                 hit test (Session.subject_name session) (withAttendance session status)
                 = if test status then 1%Z else 0%Z)
        by (intros test; apply (hit_same test (withAttendance session status))).
      split; [rewrite Ha', Ha, hit_same, Hnew; lia|].
      split; [rewrite Hm', Hm, hit_same, Hnew; lia|].
      split; reflexivity.
    + intros Hsome. rewrite Hlook in Hsome. discriminate.
  - assert (Hlook : forall m : gmap string Subject.t,
               match TimetableData.subjects data !! Session.subject_name session with
               | Some subject0 =>
                   <[Session.subject_name session :=
                       recount percentOf (Session.attendance_marked session) status
                         subject0]> (TimetableData.subjects data)
               | None => TimetableData.subjects data
               end !! name = TimetableData.subjects data !! name).
    { intros _. destruct (TimetableData.subjects data !! Session.subject_name session);
        [now rewrite lookup_insert_ne|reflexivity]. }
    rewrite (Hlook ∅). intros Hsub.
    destruct (Hstep _ _ Hsub) as (Ha & Hm & Ht & Hp).
    rewrite !hit_other by assumption.
    repeat split; try assumption; lia.
Qed.

Lemma mark_keeps_inStep (device : Device) (sessionId : string)
    (status : option Attendance) (store : Store) :
  storeInStep percentOf store ->
  storeInStep percentOf
    (snd (markSessionAttendance percentOf device sessionId status store)).
Proof.
  intros Hstore. unfold markSessionAttendance, loadTimetableData.
  destruct (getItemFails device); [assumption|].
  destruct store as [data|]; [|assumption]. cbn [storeInStep] in Hstore.
  destruct (findSession sessionId (TimetableData.sessions data)) as [session|] eqn:Hfind;
    [|assumption].
  unfold saveOr, saveTimetableData.
  destruct (setItemFails device); cbn [snd storeInStep]; [assumption|].
  now apply mark_inStep.
Qed.


(** X17: [markSessionAttendance] keeps the counters in step with the
    marks. If, in the store, every subject's attended and missed classes
    are the numbers of its sessions marked present and absent, its total
    their sum and its percentage the one computed from them, then the same
    holds in the store after the call, whatever the session id, the new
    mark and the failures of the device. *)
Theorem markSessionAttendance_inStep (device : Device) (sessionId : string)
    (status : option Attendance) (store : Store) :
  storeInStep percentOf store ->
  storeInStep percentOf
    (snd (markSessionAttendance percentOf device sessionId status store)).
Proof. apply mark_keeps_inStep. Qed.


End StorageFacts.

(** ** The data that an import stores *)

Section ImportFacts.

Import StorageManager ImportScreen.

Lemma ltb_compare (x y : string) : String.ltb x y = true <-> String.compare x y = Lt.
Proof. unfold String.ltb. destruct (String.compare x y); intuition discriminate. Qed.

Lemma ltb_trans (x y z : string) :
  String.ltb x y = true -> String.ltb y z = true -> String.ltb x z = true.
Proof.
  rewrite !ltb_compare.
  change String.compare with OrderedTypeEx.String_as_OT.cmp.
  rewrite !OrderedTypeEx.String_as_OT.cmp_lt.
  apply OrderedTypeEx.String_as_OT.lt_trans.
Qed.

Lemma leb_false_ltb (x y : string) : String.leb x y = false -> String.ltb y x = true.
Proof.
  unfold String.leb. rewrite ltb_compare, (String.compare_antisym y x).
  destruct (String.compare x y); try discriminate. reflexivity.
Qed.

Lemma leb_true_ltb (x y : string) :
  String.leb x y = true -> x <> y -> String.ltb x y = true.
Proof.
  unfold String.leb. rewrite ltb_compare.
  destruct (String.compare x y) eqn:E; try discriminate; [|reflexivity].
  intros _ Hne. apply String.compare_eq_iff in E. contradiction.
Qed.

Lemma insertSorted_In (x z : string) (xs : list string) :
  In z (insertSorted x xs) <-> z = x \/ In z xs.
Proof.
  induction xs as [|y xs IH]; cbn [insertSorted].
  - cbn. intuition.
  - destruct (String.leb x y); cbn [In]; [intuition|]. rewrite IH. intuition.
Qed.

Lemma insertSorted_ascending (x : string) (xs : list string) :
  ascending xs -> ~ In x xs -> ascending (insertSorted x xs).
Proof.
  induction xs as [|y xs IH]; cbn [insertSorted ascending].
  - intros _ _. split; [intros ? []|exact I].
  - intros [Hy Hxs] Hnot.
    destruct (String.leb x y) eqn:E; cbn [ascending].
    + assert (Hxy : String.ltb x y = true)
        by (apply leb_true_ltb; [assumption|intros ->; apply Hnot; now left]).
      split; [|split; assumption].
      intros z [<-|Hz]; [assumption|]. eapply ltb_trans; [eassumption|auto].
    + split; [|apply IH; [assumption|intros H; apply Hnot; now right]].
      intros z Hz. apply insertSorted_In in Hz as [->|Hz]; [|auto].
      now apply leb_false_ltb.
Qed.

Lemma sortStrings_In (z : string) (xs : list string) :
  In z (sortStrings xs) <-> In z xs.
Proof.
  unfold sortStrings. induction xs as [|x xs IH]; cbn [fold_right In]; [reflexivity|].
  rewrite insertSorted_In, IH. intuition.
Qed.

Lemma sortStrings_ascending (xs : list string) :
  List.NoDup xs -> ascending (sortStrings xs).
Proof.
  unfold sortStrings. induction 1 as [|x xs Hx Hnd IH]; cbn [fold_right ascending].
  - exact I.
  - apply insertSorted_ascending; [assumption|].
    intros Hin. apply Hx. now apply (sortStrings_In x xs).
Qed.

Lemma distinct_In (z : string) (xs : list string) : In z (distinct xs) <-> In z xs.
Proof.
  induction xs as [|x xs IH]; cbn [distinct In]; [reflexivity|].
  rewrite filter_In, IH. split.
  - intuition.
  - intros [->|Hz]; [now left|].
    destruct (String.eqb x z) eqn:E.
    + apply String.eqb_eq in E. now left.
    + right. split; [assumption|reflexivity].
Qed.

Lemma distinct_NoDup (xs : list string) : List.NoDup (distinct xs).
Proof.
  induction xs as [|x xs IH]; cbn [distinct]; constructor.
  - intros Hin. apply filter_In in Hin as [_ Hne]. now rewrite String.eqb_refl in Hne.
  - now apply List.NoDup_filter.
Qed.

(** X19: the timeslots of the data that [performImport] builds are the
    start times of the sessions of the preview, each once, in ascending
    order of their code units. *)
Theorem finalData_timeslots (merge : bool) (preview : ImportPreview)
    (selectedFile : option string) (nowIso : string)
    (existing : option TimetableData.t) :
  let data := finalData merge preview selectedFile nowIso existing in
  ascending (TimetableData.timeslots data) /\
  forall t, In t (TimetableData.timeslots data) <->
            exists s, In s (sessions preview) /\ Session.start_time s = t.
Proof.
  cbn [finalData TimetableData.timeslots]. split.
  - apply sortStrings_ascending, distinct_NoDup.
  - intros t. rewrite sortStrings_In, distinct_In, in_map_iff.
    split; intros (s & H1 & H2); exists s; auto.
Qed.

Lemma initSubjects_fold (sessions : list Session.t) (acc : gmap string Subject.t)
    (name : string) :
  fold_left
    (fun subjects session =>
       match subjects !! Session.subject_name session with
       | Some _ => subjects
       | None =>
           <[Session.subject_name session := newSubject (Session.subject_name session)]>
             subjects
       end) sessions acc !! name =
  match acc !! name with
  | Some subject => Some subject
  | None =>
      if existsb (fun s => String.eqb (Session.subject_name s) name) sessions
      then Some (newSubject name) else None
  end.
Proof.
  revert acc. induction sessions as [|s sessions IH]; intros acc; cbn [fold_left existsb].
  - now destruct (acc !! name).
  - rewrite IH. destruct (String.eqb (Session.subject_name s) name) eqn:E.
    + apply String.eqb_eq in E. subst name.
      destruct (acc !! Session.subject_name s) eqn:Hacc.
      * now rewrite Hacc.
      * now rewrite lookup_insert_eq.
    + apply String.eqb_neq in E.
      destruct (acc !! Session.subject_name s) eqn:Hacc; [reflexivity|].
      now rewrite lookup_insert_ne.
Qed.

Lemma initSubjects_lookup (sessions : list Session.t) (name : string) :
  initSubjects sessions !! name =
  if existsb (fun s => String.eqb (Session.subject_name s) name) sessions
  then Some (newSubject name) else None.
Proof. unfold initSubjects. now rewrite initSubjects_fold, lookup_empty. Qed.

Lemma mergeSubjects_lookup (existing merged : gmap string Subject.t) (name : string) :
  mergeSubjects existing merged !! name =
  match merged !! name with
  | Some fresh => Some (default fresh (existing !! name))
  | None => None
  end.
Proof.
  unfold mergeSubjects.
  apply (map_fold_weak_ind
           (fun (acc : gmap string Subject.t) (seen : gmap string Subject.t) =>
              acc !! name =
              match merged !! name with
              | Some fresh => Some (default fresh (seen !! name))
              | None => None
              end)).
  - rewrite lookup_empty. now destruct (merged !! name).
  - intros key subject seen acc Hfresh IH.
    destruct (decide (key = name)) as [->|Hne].
    + rewrite lookup_insert_eq. rewrite Hfresh in IH. cbn [default] in IH.
      destruct (acc !! name) eqn:Hacc.
      * rewrite lookup_insert_eq. now destruct (merged !! name).
      * rewrite Hacc. now destruct (merged !! name).
    + rewrite (lookup_insert_ne seen) by assumption.
      destruct (acc !! key); [now rewrite lookup_insert_ne|assumption].
Qed.

Lemma finalData_subjects_lookup (merge : bool) (preview : ImportPreview)
    (selectedFile : option string) (nowIso : string)
    (existing : option TimetableData.t) (name : string) :
  TimetableData.subjects (finalData merge preview selectedFile nowIso existing) !! name =
  if existsb (fun s => String.eqb (Session.subject_name s) name) (sessions preview)
  then Some (if merge
             then default (newSubject name)
                    (existing ≫= fun data => TimetableData.subjects data !! name)
             else newSubject name)
  else None.
Proof.
  cbn [finalData TimetableData.subjects].
  destruct merge; [|apply initSubjects_lookup].
  destruct existing as [data|]; cbn [mbind option_bind default].
  - rewrite mergeSubjects_lookup, initSubjects_lookup.
    now destruct (existsb _ (sessions preview)).
  - apply initSubjects_lookup.
Qed.


End ImportFacts.

(** ** From a parsed sheet to the attendance counters *)

Section AfterImport.

Import StorageManager ImportScreen.

Variable percentOf : Z -> Z -> Q.

Lemma markedCount_unmarked (test : option Attendance -> bool) (name : string)
    (sessions : list Session.t) :
  test None = false ->
  (forall s, In s sessions -> Session.attendance_marked s = None) ->
  markedCount test name sessions = 0%Z.
Proof.
  intros Htest. induction sessions as [|s sessions IH]; intros Hall; [reflexivity|].
  rewrite markedCount_cons, IH by (intros s' Hs'; apply Hall; now right).
  unfold hit. rewrite (Hall s) by now left. rewrite Htest, andb_false_r. reflexivity.
Qed.

Lemma fresh_inStep (preview : ImportPreview) (selectedFile : option string)
    (nowIso : string) (existing : option TimetableData.t) :
  (forall s, In s (sessions preview) -> Session.attendance_marked s = None) ->
  inStep percentOf (finalData false preview selectedFile nowIso existing).
Proof.
  intros Hall name subject. rewrite finalData_subjects_lookup.
  destruct (existsb _ (sessions preview)); [|discriminate].
  intros [= <-]. cbn [finalData TimetableData.sessions newSubject
                      Subject.attended_classes Subject.missed_classes
                      Subject.total_classes Subject.percentage].
  rewrite !markedCount_unmarked by (assumption || reflexivity).
  repeat split.
Qed.



Lemma parseWorksheet_unmarked (uuidv4 : nat -> option string) (ws : Worksheet)
    (n n' : nat) (preview : ImportPreview) :
  parseWorksheet uuidv4 ws n = (inr preview, n') ->
  forall s, In s (sessions preview) -> Session.attendance_marked s = None.
Proof.
  rewrite parseWorksheet_outcome.
  destruct (headerRow (scanHeader ws)); [|discriminate].
  destruct (timeCol (scanHeader ws)); [|discriminate].
  pose proof (visitsOutcome_built uuidv4 (visits ws) n) as Hbuilt.
  destruct (visitsOutcome uuidv4 (visits ws) n) as [b nb]. cbn [fst] in Hbuilt.
  intros [= <- _] s Hs. destruct (Hbuilt s Hs) as (v & _ & Hb). apply Hb.
Qed.


End AfterImport.

(** ** Marks, manual counters and failing devices *)

Section MarkFacts.

Import StorageManager.

Variable percentOf : Z -> Z -> Q.
Variable device : Device.

Lemma findSession_updateFound (sessionId : string) (f : Session.t -> Session.t)
    (sessions : list Session.t) (s0 : Session.t) :
  (forall s, Session.id (f s) = Session.id s) ->
  findSession sessionId sessions = Some s0 ->
  findSession sessionId (updateFound sessionId f sessions) = Some (f s0).
Proof.
  intros Hid. unfold findSession.
  induction sessions as [|s sessions IH]; cbn [find updateFound]; [discriminate|].
  destruct (String.eqb (Session.id s) sessionId) eqn:E; cbn [find].
  - intros [= <-]. now rewrite Hid, E.
  - rewrite E. exact IH.
Qed.

Lemma updateFound_twice (sessionId : string) (f : Session.t -> Session.t)
    (sessions : list Session.t) :
  (forall s, Session.id (f s) = Session.id s) -> (forall s, f (f s) = f s) ->
  updateFound sessionId f (updateFound sessionId f sessions) =
  updateFound sessionId f sessions.
Proof.
  intros Hid Hff. induction sessions as [|s sessions IH]; cbn [updateFound]; [reflexivity|].
  destruct (String.eqb (Session.id s) sessionId) eqn:E; cbn [updateFound].
  - now rewrite Hid, E, Hff.
  - now rewrite E, IH.
Qed.

Lemma recount_twice (oldStatus status : option Attendance) (subject : Subject.t) :
  recount percentOf status status (recount percentOf oldStatus status subject) =
  recount percentOf oldStatus status subject.
Proof.
  unfold recount. cbn [Subject.attended_classes Subject.missed_classes
                       Subject.subject_id Subject.name].
  destruct oldStatus as [[]|]; destruct status as [[]|]; cbn [isPresent isAbsent];
    repeat (f_equal; try lia).
Qed.

(** X22: marking a session twice with the same status is the same as
    marking it once: the second call leaves sessions, counters, totals and
    percentages as the first call left them. *)
Theorem markSessionAttendance_twice (sessionId : string) (status : option Attendance)
    (store : Store) :
  snd (markSessionAttendance percentOf device sessionId status
         (snd (markSessionAttendance percentOf device sessionId status store))) =
  snd (markSessionAttendance percentOf device sessionId status store).
Proof.
  unfold markSessionAttendance at 2 3. unfold loadTimetableData.
  destruct (getItemFails device) eqn:Hget.
  { cbn [snd]. unfold markSessionAttendance, loadTimetableData. now rewrite Hget. }
  destruct store as [data|];
    [|cbn [snd]; unfold markSessionAttendance, loadTimetableData; now rewrite Hget].
  destruct (findSession sessionId (TimetableData.sessions data)) as [session|] eqn:Hfind.
  2:{ cbn [snd]. unfold markSessionAttendance, loadTimetableData.
      now rewrite Hget, Hfind. }
  unfold saveOr, saveTimetableData.
  destruct (setItemFails device) eqn:Hset; cbn [snd].
  { unfold markSessionAttendance, loadTimetableData, saveOr, saveTimetableData.
    now rewrite Hget, Hfind, Hset. }
  unfold markSessionAttendance, loadTimetableData, saveOr, saveTimetableData.
  rewrite Hget, Hset.
  cbn [withSubjects withSessions TimetableData.sessions TimetableData.subjects
       TimetableData.days TimetableData.timeslots TimetableData.lastImported
       TimetableData.importMetadata].
  rewrite (findSession_updateFound sessionId (fun s => withAttendance s status)
             _ session (fun s => eq_refl) Hfind).
  cbn [snd withAttendance Session.subject_name Session.attendance_marked].
  rewrite (updateFound_twice sessionId (fun s => withAttendance s status)
             _ (fun s => eq_refl) (fun s => eq_refl)).
  do 2 f_equal.
  destruct (TimetableData.subjects data !! Session.subject_name session)
    as [subject|] eqn:Hlook.
  - rewrite lookup_insert_eq, recount_twice. apply insert_insert_eq.
  - now rewrite Hlook.
Qed.



End MarkFacts.


(** ** Sample runs on the stored timetable *)

Lemma weekPreview_parsed :
  parseWorksheet countingUuid weekSheet 0 = (inr weekPreview, 2%nat).
Proof. vm_compute. reflexivity. Qed.

Lemma weekStore_inStep : storeInStep samplePercent weekStore.
Proof.
  apply fresh_inStep. eapply parseWorksheet_unmarked. apply weekPreview_parsed.
Qed.

Lemma markSessionAttendance_inStep_witness :
  storeInStep samplePercent
    (snd (StorageManager.markSessionAttendance samplePercent goodDevice "0"
            (Some present) weekStore)) /\
  exists data subject,
    snd (StorageManager.markSessionAttendance samplePercent goodDevice "0"
           (Some present) weekStore) = Some data /\
    TimetableData.subjects data !! "Math" = Some subject /\
    Subject.attended_classes subject = 1%Z /\ Subject.total_classes subject = 1%Z.
Proof.
  split.
  - apply markSessionAttendance_inStep. apply weekStore_inStep.
  - eexists _, _. split; [vm_compute; reflexivity|].
    split; [vm_compute; reflexivity|]. split; reflexivity.
Defined.




(** ** A sheet that the locator recognises is a sheet that the parser
    accepts *)

Lemma probeCols_sheetCols (range : Range) (c : nat) :
  In c (probeCols range) -> In c (sheetCols range).
Proof. unfold probeCols, sheetCols. rewrite !in_seq. lia. Qed.

Lemma sheetQualifies_scanned (ws : Worksheet) :
  sheetQualifies ws -> timeCellScanned ws.
Proof.
  intros (row & Hrow & (col & Hcol & Htime) & _).
  exists row, col. auto using probeCols_sheetCols.
Qed.

Lemma qualifying_sheet_parses (uuidv4 : nat -> option string) (ws : Worksheet) (n : nat) :
  sheetQualifies ws -> exists p n', parseWorksheet uuidv4 ws n = (inr p, n').
Proof.
  intros Hq. destruct (scanHeader_found ws) as [Hfound _].
  destruct (Hfound (sheetQualifies_scanned ws Hq)) as (hr & tc & Hhr & Htc).
  rewrite parseWorksheet_outcome, Hhr, Htc.
  destruct (visitsOutcome uuidv4 (visits ws) n) as [b n1]. eauto.
Qed.

(** X25: when some sheet of a decoded workbook has a row that
    [findTimetableSheet] recognises as a header row, [parseExcelFile]
    returns a preview: the sheet that the locator chooses for its header
    row is never refused by the parser for its structure. (Every listed
    name is not empty and has a sheet.) *)
Theorem parseExcelFile_qualifying (typeErrorMessage : string)
    (uuidv4 : nat -> option string) (platform : ParseFile.Platform)
    (workbook : WorkBook) (n : nat) (name : string) (worksheet : Worksheet) :
  (forall nm, In nm (SheetNames workbook) ->
     nm <> "" /\ is_Some (Sheets workbook !! nm)) ->
  In name (SheetNames workbook) ->
  Sheets workbook !! name = Some worksheet ->
  sheetQualifies worksheet ->
  exists preview n',
    ParseFile.parseExcelFile typeErrorMessage uuidv4 platform
      (ParseFile.Decoded workbook) n = (inr preview, n').
Proof.
  intros Hall Hin Hws Hq.
  assert (Hsheets : forall nm, In nm (SheetNames workbook) ->
                               is_Some (Sheets workbook !! nm))
    by (intros nm Hnm; now apply Hall).
  unfold ParseFile.parseExcelFile, ParseFile.tryBlock, findTimetableSheet.
  destruct (probeSheets_first workbook (SheetNames workbook) Hsheets)
    as [(nm & pre & post & ws & -> & Hsplit & Hlook & Hqualifies & _)|[_ Hnone]].
  - assert (Hnm : nm <> "")
      by (apply Hall; rewrite Hsplit; apply in_elt).
    destruct nm as [|c nm]; [contradiction|]. cbn [Js.isEmpty]. rewrite Hlook.
    destruct (qualifying_sheet_parses uuidv4 ws n Hqualifies) as (p & n' & ->). eauto.
  - exfalso. eapply Hnone; eassumption.
Qed.

Lemma parseExcelFile_qualifying_witness :
  exists preview n',
    ParseFile.parseExcelFile "TypeError" countingUuid ParseFile.web
      (ParseFile.Decoded weekBook) 0 = (inr preview, n').
Proof.
  apply (parseExcelFile_qualifying "TypeError" countingUuid ParseFile.web weekBook 0
           "Week" weekSheet).
  - intros nm [<-|[<-|[]]]; (split; [discriminate|vm_compute; eauto]).
  - right. now left.
  - vm_compute. reflexivity.
  - apply probeSheet_qualifies. vm_compute. reflexivity.
Defined.

(** ** The matcher returns matches of the pattern *)

Module RegexFacts.
Import Regex RegexSpec ExcelParser.

#[local] Hint Constructors derives : core.

Lemma rmatch_Rep (greedy : bool) (lo : nat) (hi : option nat) (r : regex)
    (pos : nat) (s : string) (c : caps) (k : cont) :
  rmatch (Rep greedy lo hi r) pos s c k =
  repLoop (rmatch r) greedy k (S (lo + String.length s)) lo hi pos s c.
Proof. reflexivity. Qed.

Lemma rmatch_sound (r : regex) : forall pos s c k res,
  rmatch r pos s c k = Some res ->
  exists pos' s' c', derives r pos s c pos' s' c' /\ k pos' s' c' = Some res.
Proof.
  induction r as [|cls|r1 IH1 r2 IH2|r1 IH1 r2 IH2|greedy lo0 hi0 r1 IH1|i r1 IH1| |];
    intros pos s c k res H.
  - cbn [rmatch] in H. eauto 6.
  - cbn [rmatch] in H. destruct s as [|a s']; [discriminate|].
    destruct (cls a) eqn:E; [|discriminate]. eauto 6.
  - cbn [rmatch] in H. apply IH1 in H as (p1 & s1 & c1 & D1 & H).
    apply IH2 in H as (p2 & s2 & c2 & D2 & H). eauto 8.
  - cbn [rmatch] in H. unfold orElse in H. destruct (rmatch r1 pos s c k) eqn:E.
    + inversion H; subst. apply IH1 in E as (p1 & s1 & c1 & D1 & E). eauto 6.
    + apply IH2 in H as (p1 & s1 & c1 & D1 & E'). eauto 6.
  - rewrite rmatch_Rep in H.
    revert H. generalize (S (lo0 + String.length s)) as fuel. intros fuel.
    revert lo0 hi0 pos s c.
    induction fuel as [|fuel IHf]; intros lo hi pos s c H; [discriminate|].
    cbn [repLoop] in H.
    set (iter := rmatch r1 pos s c _) in H.
    assert (Hiter : iter = Some res -> hi <> Some 0%nat ->
      exists pos' s' c',
        derives (Rep greedy lo hi r1) pos s c pos' s' c' /\ k pos' s' c' = Some res).
    { intros Hi Hhi. apply IH1 in Hi as (p1 & s1 & c1 & D1 & Hi).
      destruct ((lo =? 0)%nat && (p1 =? pos)%nat); [discriminate|].
      apply IHf in Hi as (p2 & s2 & c2 & D2 & Hi). eauto 8. }
    assert (Hstop : k pos s c = Some res -> lo = 0%nat \/ hi = Some 0%nat ->
      exists pos' s' c',
        derives (Rep greedy lo hi r1) pos s c pos' s' c' /\ k pos' s' c' = Some res)
      by eauto 8.
    assert (Hbody :
      (if (0 <? lo)%nat then iter
       else if greedy then orElse iter (fun _ => k pos s c)
            else orElse (k pos s c) (fun _ => iter)) = Some res ->
      hi <> Some 0%nat ->
      exists pos' s' c',
        derives (Rep greedy lo hi r1) pos s c pos' s' c' /\ k pos' s' c' = Some res).
    { intros Hb Hhi. destruct (0 <? lo)%nat eqn:Elo; [now apply Hiter|].
      apply Nat.ltb_ge in Elo.
      unfold orElse in Hb. destruct greedy.
      - destruct iter eqn:E.
        + inversion Hb; subst. now apply Hiter.
        + apply Hstop; [assumption|lia].
      - destruct (k pos s c) eqn:E.
        + inversion Hb; subst. apply Hstop; [assumption|lia].
        + now apply Hiter. }
    destruct hi as [[|h]|].
    + apply Hstop; [exact H|now right].
    + apply Hbody; [exact H|discriminate].
    + apply Hbody; [exact H|discriminate].
  - cbn [rmatch] in H. apply IH1 in H as (p1 & s1 & c1 & D1 & H).
    exists p1, s1, ((i, Js.take (p1 - pos) s) :: c1). split; [now constructor|exact H].
  - cbn [rmatch] in H. destruct (pos =? 0)%nat eqn:E; [|discriminate].
    apply Nat.eqb_eq in E as ->. eauto 6.
  - cbn [rmatch] in H. destruct s; [|discriminate]. eauto 6.
Qed.

(** *** Texts *)

Lemma append_cons (a : ascii) (u v : string) :
  String a u +:+ v = String a (u +:+ v).
Proof. reflexivity. Qed.

Lemma append_empty_l (v : string) : "" +:+ v = v.
Proof. reflexivity. Qed.

Lemma append_empty_r (u : string) : u +:+ "" = u.
Proof.
  induction u as [|a u IH]; [reflexivity|]. now rewrite append_cons, IH.
Qed.

Lemma append_assoc (u v w : string) : (u +:+ v) +:+ w = u +:+ (v +:+ w).
Proof.
  induction u as [|a u IH]; [reflexivity|]. now rewrite !append_cons, IH.
Qed.

Lemma take_append (u v : string) : Js.take (String.length u) (u +:+ v) = u.
Proof.
  induction u as [|a u IH]; [now destruct v|].
  rewrite append_cons. cbn [String.length Js.take]. now rewrite IH.
Qed.

Lemma drop_append (u v : string) : Js.drop (String.length u) (u +:+ v) = v.
Proof.
  induction u as [|a u IH]; [reflexivity|].
  rewrite append_cons. cbn [String.length Js.drop]. exact IH.
Qed.

Lemma append_inv_tail (u w s : string) : u +:+ s = w +:+ s -> u = w.
Proof.
  intros H.
  assert (Hlen : String.length u = String.length w).
  { apply (f_equal String.length) in H. rewrite !length_append in H. lia. }
  rewrite <- (take_append u s), H, Hlen. apply take_append.
Qed.

Lemma among_append (u v : string) (a : ascii) :
  among (u +:+ v) a = among u a || among v a.
Proof.
  induction u as [|b u IH]; [reflexivity|].
  rewrite append_cons. cbn [among]. now rewrite IH, orb_assoc.
Qed.

Lemma allChars_append (p : ascii -> bool) (u v : string) :
  allChars p (u +:+ v) = allChars p u && allChars p v.
Proof.
  induction u as [|b u IH]; [reflexivity|].
  rewrite append_cons. cbn [allChars]. now rewrite IH, andb_assoc.
Qed.

Lemma endsSolid_append (u v : string) :
  v <> "" -> endsSolid (u +:+ v) = endsSolid v.
Proof.
  intros Hv. induction u as [|a u IH]; [reflexivity|].
  rewrite append_cons. cbn [endsSolid].
  destruct (u +:+ v) eqn:E; [|exact IH].
  destruct u; [|discriminate]. now destruct v.
Qed.

Lemma endsSolid_spaces (w : string) :
  allChars Js.isSpace w = true -> endsSolid w = false.
Proof.
  induction w as [|a w IH]; [reflexivity|]. cbn [allChars endsSolid].
  intros [Ha Hw]%andb_true_iff. destruct w; [now rewrite Ha|now apply IH].
Qed.

Lemma endsSolid_before_spaces (u w : string) :
  allChars Js.isSpace w = true -> endsSolid (u +:+ w) = true -> w = "".
Proof.
  intros Hw H. destruct w as [|a w]; [reflexivity|].
  rewrite endsSolid_append, (endsSolid_spaces _ Hw) in H; discriminate.
Qed.

Lemma trimEnd_solid (t : string) :
  Js.trimEnd t <> "" -> endsSolid (Js.trimEnd t) = true.
Proof.
  induction t as [|a t IH]; [intros []; reflexivity|]. cbn [Js.trimEnd].
  destruct (Js.trimEnd t) as [|b t'] eqn:E.
  - cbn [Js.isEmpty]. rewrite andb_true_r.
    destruct (Js.isSpace a) eqn:Ea; [intros []; reflexivity|].
    intros _. cbn [endsSolid]. now rewrite Ea.
  - cbn [Js.isEmpty]. rewrite andb_false_r. intros _.
    cbn [endsSolid]. cbn [endsSolid] in IH. now apply IH.
Qed.

Lemma trimEnd_spaces (w : string) :
  allChars Js.isSpace w = true -> Js.trimEnd w = "".
Proof.
  induction w as [|a w IH]; [reflexivity|]. cbn [allChars Js.trimEnd].
  intros [Ha Hw]%andb_true_iff. now rewrite (IH Hw), Ha.
Qed.

Lemma trimEnd_append_spaces (t w : string) :
  allChars Js.isSpace w = true -> Js.trimEnd (t +:+ w) = Js.trimEnd t.
Proof.
  intros Hw. induction t as [|a t IH]; [now apply trimEnd_spaces|].
  rewrite append_cons. cbn [Js.trimEnd]. now rewrite IH.
Qed.

Lemma trimStart_spaces (w : string) :
  allChars Js.isSpace w = true -> Js.trimStart w = "".
Proof.
  induction w as [|a w IH]; [reflexivity|]. cbn [allChars Js.trimStart].
  intros [Ha Hw]%andb_true_iff. now rewrite Ha, (IH Hw).
Qed.

Lemma trim_append_spaces (u w : string) :
  allChars Js.isSpace w = true -> Js.trim (u +:+ w) = Js.trim u.
Proof.
  intros Hw. unfold Js.trim. induction u as [|a u IH].
  - rewrite append_empty_l, (trimStart_spaces _ Hw). reflexivity.
  - rewrite append_cons. cbn [Js.trimStart].
    destruct (Js.isSpace a); [exact IH|].
    rewrite <- append_cons. now apply trimEnd_append_spaces.
Qed.

(** *** Matches *)

Lemma derives_text (r : regex) (pos : nat) (s : string) (c : caps)
    (pos' : nat) (s' : string) (c' : caps) :
  derives r pos s c pos' s' c' ->
  exists u, s = u +:+ s' /\ pos' = (pos + String.length u)%nat.
Proof.
  induction 1 as
    [pos s c|cls a pos s c Ha|r1 r2 pos s c pos1 s1 c1 pos2 s2 c2 _ IH1 _ IH2
    |r1 r2 pos s c pos' s' c' _ IH|r1 r2 pos s c pos' s' c' _ IH
    |greedy lo hi r pos s c Hstop
    |greedy lo hi r pos s c pos1 s1 c1 pos2 s2 c2 Hhi _ IH1 _ IH2
    |i r pos s c pos' s' c' _ IH|s c|pos c].
  - exists "". split; [reflexivity|cbn; lia].
  - exists (String a ""). split; [reflexivity|cbn; lia].
  - destruct IH1 as (u1 & -> & ->), IH2 as (u2 & -> & ->).
    exists (u1 +:+ u2). rewrite append_assoc, length_append. split; [reflexivity|lia].
  - exact IH.
  - exact IH.
  - exists "". split; [reflexivity|cbn; lia].
  - destruct IH1 as (u1 & -> & ->), IH2 as (u2 & -> & ->).
    exists (u1 +:+ u2). rewrite append_assoc, length_append. split; [reflexivity|lia].
  - exact IH.
  - exists "". split; [reflexivity|cbn; lia].
  - exists "". split; [reflexivity|cbn; lia].
Qed.

(** A quantifier over a class of characters matches a run of characters
    of the class and leaves the captures alone. *)
Lemma derives_rep_chr (greedy : bool) (cls : ascii -> bool) (r : regex)
    (pos : nat) (s : string) (c : caps) (pos' : nat) (s' : string) (c' : caps) :
  derives r pos s c pos' s' c' ->
  forall lo hi, r = Rep greedy lo hi (Chr cls) ->
  exists u, s = u +:+ s' /\ pos' = (pos + String.length u)%nat /\ c' = c /\
            allChars cls u = true /\ (hi = None -> (lo <= String.length u)%nat).
Proof.
  induction 1 as
    [pos s c|cls' a pos s c Ha|r1 r2 pos s c pos1 s1 c1 pos2 s2 c2 _ IH1 _ IH2
    |r1 r2 pos s c pos' s' c' _ IH|r1 r2 pos s c pos' s' c' _ IH
    |greedy' lo' hi' r pos s c Hstop
    |greedy' lo' hi' r pos s c pos1 s1 c1 pos2 s2 c2 Hhi H1 _ H2 IH2
    |i r pos s c pos' s' c' _ IH|s c|pos c];
    intros lo hi Hr; try discriminate.
  - injection Hr as -> -> -> ->. exists "".
    split; [reflexivity|]. split; [cbn; lia|]. split; [reflexivity|].
    split; [reflexivity|]. intros ->. destruct Hstop as [->|]; [cbn; lia|discriminate].
  - injection Hr as -> -> -> ->. inversion H1; subst.
    destruct (IH2 _ _ eq_refl) as (u & -> & -> & -> & Hu & Hlo).
    exists (String a u). rewrite append_cons. cbn [String.length allChars].
    rewrite Hu, andb_true_r.
    split; [reflexivity|]. split; [lia|]. split; [reflexivity|].
    split; [assumption|]. intros ->. specialize (Hlo eq_refl). lia.
Qed.

Lemma derives_star_chr (greedy : bool) (cls : ascii -> bool)
    (pos : nat) (s : string) (c : caps) (pos' : nat) (s' : string) (c' : caps) :
  derives (Rep greedy 0 None (Chr cls)) pos s c pos' s' c' ->
  exists u, s = u +:+ s' /\ pos' = (pos + String.length u)%nat /\ c' = c /\
            allChars cls u = true.
Proof.
  intros H.
  destruct (derives_rep_chr greedy cls _ _ _ _ _ _ _ H _ _ eq_refl)
    as (u & Hs & Hpos & Hc & Hu & _). eauto.
Qed.

Lemma derives_plus_chr (greedy : bool) (cls : ascii -> bool)
    (pos : nat) (s : string) (c : caps) (pos' : nat) (s' : string) (c' : caps) :
  derives (Rep greedy 1 None (Chr cls)) pos s c pos' s' c' ->
  exists u, s = u +:+ s' /\ pos' = (pos + String.length u)%nat /\ c' = c /\
            allChars cls u = true /\ u <> "".
Proof.
  intros H.
  destruct (derives_rep_chr greedy cls _ _ _ _ _ _ _ H _ _ eq_refl)
    as (u & Hs & Hpos & Hc & Hu & Hlo).
  exists u. repeat (split; [assumption|]).
  intros ->. specialize (Hlo eq_refl). cbn in Hlo. lia.
Qed.

(** A match at a position: the text matched, what is left after it, and
    the derivation. *)
Lemma matchAt_sound (r : regex) (pos : nat) (s : string) (e : nat) (c : caps) :
  matchAt r pos s = Some (e, c) ->
  exists w s', s = w +:+ s' /\ e = (pos + String.length w)%nat /\
               Js.take (e - pos) s = w /\ derives r pos s [] e s' c.
Proof.
  unfold matchAt. intros H.
  apply rmatch_sound in H as (p' & s' & c' & D & [= <- <-]).
  destruct (derives_text _ _ _ _ _ _ _ D) as (w & Hs & Hp).
  exists w, s'. split; [assumption|]. split; [assumption|]. split; [|assumption].
  rewrite Hs, Hp. replace (pos + String.length w - pos)%nat with (String.length w) by lia.
  apply take_append.
Qed.

(** The first match from a position on: the text skipped, the text
    matched and the text left. *)
Lemma execFrom_sound (r : regex) : forall s pos m,
  execFrom r pos s = Some m ->
  exists u s',
    s = u +:+ matched m +:+ s' /\
    index m = (pos + String.length u)%nat /\
    derives r (index m) (matched m +:+ s') []
      (index m + String.length (matched m)) s' (groups m).
Proof.
  assert (Hhere : forall s pos e c,
    matchAt r pos s = Some (e, c) ->
    let m := mkMatch pos (Js.take (e - pos) s) c in
    exists u s',
      s = u +:+ matched m +:+ s' /\
      index m = (pos + String.length u)%nat /\
      derives r (index m) (matched m +:+ s') []
        (index m + String.length (matched m)) s' (groups m)).
  { intros s pos e c E. cbn [index matched groups].
    apply matchAt_sound in E as (w & s' & Hs & He & Htake & D).
    rewrite Htake. exists "", s'. rewrite append_empty_l, <- Hs, <- He.
    split; [reflexivity|]. split; [cbn; lia|assumption]. }
  induction s as [|a s IH]; intros pos m H; cbn [execFrom] in H.
  - destruct (matchAt r pos "") as [[e c]|] eqn:E; [|discriminate].
    injection H as <-. now apply Hhere.
  - destruct (matchAt r pos (String a s)) as [[e c]|] eqn:E.
    + injection H as <-. now apply Hhere.
    + apply IH in H as (u & s' & Hs & Hi & D).
      exists (String a u), s'. rewrite append_cons, <- Hs.
      split; [reflexivity|]. split; [cbn [String.length]; lia|assumption].
Qed.

(** *** Reading a derivation off a pattern *)

Lemma derives_Cat (r1 r2 : regex) (pos : nat) (s : string) (c : caps)
    (pos' : nat) (s' : string) (c' : caps) :
  derives (Cat r1 r2) pos s c pos' s' c' ->
  exists p1 s1 c1, derives r1 pos s c p1 s1 c1 /\ derives r2 p1 s1 c1 pos' s' c'.
Proof. inversion 1; subst. eauto. Qed.

Lemma derives_Grp (i : nat) (r : regex) (pos : nat) (s : string) (c : caps)
    (pos' : nat) (s' : string) (c' : caps) :
  derives (Grp i r) pos s c pos' s' c' ->
  exists c1, derives r pos s c pos' s' c1 /\ c' = (i, Js.take (pos' - pos) s) :: c1.
Proof. inversion 1; subst. eauto. Qed.

Lemma derives_Bol (pos : nat) (s : string) (c : caps)
    (pos' : nat) (s' : string) (c' : caps) :
  derives Bol pos s c pos' s' c' -> pos = 0%nat /\ pos' = 0%nat /\ s' = s /\ c' = c.
Proof. inversion 1; subst. auto. Qed.

Lemma derives_Eol (pos : nat) (s : string) (c : caps)
    (pos' : nat) (s' : string) (c' : caps) :
  derives Eol pos s c pos' s' c' -> s = "" /\ s' = "" /\ pos' = pos /\ c' = c.
Proof. inversion 1; subst. auto. Qed.

Lemma derives_lit (a : ascii) (pos : nat) (s : string) (c : caps)
    (pos' : nat) (s' : string) (c' : caps) :
  derives (lit a) pos s c pos' s' c' -> s = String a s' /\ pos' = S pos /\ c' = c.
Proof.
  unfold lit. inversion 1; subst.
  match goal with H : Ascii.eqb a _ = true |- _ => apply Ascii.eqb_eq in H as <- end.
  auto.
Qed.

Lemma derives_opt (r : regex) (pos : nat) (s : string) (c : caps)
    (pos' : nat) (s' : string) (c' : caps) :
  derives (opt r) pos s c pos' s' c' ->
  (pos' = pos /\ s' = s /\ c' = c) \/ derives r pos s c pos' s' c'.
Proof.
  unfold opt. inversion 1 as [| | | | | |? ? ? ? ? ? ? ? ? ? ? ? ? Hhi D1 D2| | |]; subst;
    [now left|right].
  cbn in D2. inversion D2; subst; [assumption|congruence].
Qed.

(** A pattern that begins with a literal character matches nowhere in a
    text without that character. *)
Lemma exec_needs_first (a : ascii) (r : regex) (line : string) :
  among line a = false -> exec (Cat (lit a) r) line = None.
Proof.
  intros Hline. destruct (exec _ line) as [m|] eqn:E; [|reflexivity].
  apply execFrom_sound in E as (u & s' & Hs & _ & D).
  apply derives_Cat in D as (p1 & s1 & c1 & D & _).
  apply derives_lit in D as (Hm & _).
  rewrite Hm in Hs. rewrite Hs, among_append in Hline. cbn [among] in Hline.
  rewrite Ascii.eqb_refl, orb_true_r in Hline. discriminate.
Qed.

(** *** The patterns of the line grammar on a line without brackets and
    colons *)

Section PlainLine.
Variable line : string.
Hypothesis no_bracket : among line "(" = false.
Hypothesis no_colon : among line ":" = false.

Lemma groupsRe_plain : exec groupsRe line = None.
Proof. now apply (exec_needs_first "("). Qed.

Lemma lecturerRe_plain : exec lecturerRe line = None.
Proof. now apply (exec_needs_first ":"). Qed.

Lemma roomRe_plain : exec roomRe line = None.
Proof. now apply (exec_needs_first ":"). Qed.

Lemma trailingColonRe_plain : exec trailingColonRe line = None.
Proof. now apply (exec_needs_first ":"). Qed.

Lemma subjectRe_plain (m : MatchResult) :
  exec subjectRe line = Some m ->
  exists u w, line = u +:+ w /\ allChars Js.isSpace w = true /\
              group 1 m = Some u /\ group 2 m = None.
Proof.
  intros E. apply execFrom_sound in E as (u0 & s' & Hs & Hi & D).
  change subjectRe with
    (Cat Bol (Cat (Grp 1 (plusLazy dot)) (Cat (star space)
      (Cat (opt (Cat (lit "(") (Cat (Grp 2 (plus (oneOfi "PLTFpr"))) (lit ")"))))
        (Cat (star space) (Cat (opt (lit ":")) Eol)))))) in D.
  apply derives_Cat in D as (p1 & s1 & c1 & D1 & D).
  apply derives_Bol in D1 as (Hidx & -> & -> & ->).
  apply derives_Cat in D as (p2 & s2 & c2 & D2 & D).
  apply derives_Grp in D2 as (c2' & D2 & ->).
  apply derives_plus_chr in D2 as (u & Hu & -> & -> & _ & _).
  apply derives_Cat in D as (p3 & s3 & c3 & D3 & D).
  apply derives_star_chr in D3 as (w1 & -> & -> & -> & Hw1).
  apply derives_Cat in D as (p4 & s4 & c4 & D4 & D).
  assert (Hline : line = u0 +:+ u +:+ w1 +:+ s3) by now rewrite Hs, Hu.
  apply derives_opt in D4 as [(-> & -> & ->)|D4].
  2:{ apply derives_Cat in D4 as (? & ? & ? & D4 & _).
      apply derives_lit in D4 as (-> & _). exfalso.
      rewrite Hline, !among_append in no_bracket. cbn [among] in no_bracket.
      rewrite Ascii.eqb_refl, !orb_true_r in no_bracket. discriminate. }
  apply derives_Cat in D as (p5 & s5 & c5 & D5 & D).
  apply derives_star_chr in D5 as (w2 & Hw2e & -> & -> & Hw2).
  apply derives_Cat in D as (p6 & s6 & c6 & D6 & D).
  apply derives_opt in D6 as [(-> & -> & ->)|D6].
  2:{ apply derives_lit in D6 as (-> & _). exfalso.
      rewrite Hline, Hw2e, !among_append in no_colon. cbn [among] in no_colon.
      rewrite Ascii.eqb_refl, !orb_true_r in no_colon. discriminate. }
  apply derives_Eol in D as (-> & _ & _ & Hgroups).
  rewrite Hidx in Hi. destruct u0; [|cbn in Hi; lia].
  exists u, (w1 +:+ w2). rewrite Hline, Hw2e, append_empty_l, append_empty_r.
  split; [reflexivity|]. split; [now rewrite allChars_append, Hw1, Hw2|].
  unfold group. rewrite Hgroups. cbn [capture Nat.eqb].
  replace (0 + String.length u - 0)%nat with (String.length u) by lia.
  rewrite Hu, take_append. split; reflexivity.
Qed.

End PlainLine.

(** Collapsing the runs of white space of a text that ends with another
    character gives such a text. *)
Lemma replaceAll_spaces_solid (fuel : nat) : forall pos s,
  endsSolid s = true ->
  endsSolid (replaceAllFrom fuel spacesRe [Lit " "] pos s) = true.
Proof.
  induction fuel as [|fuel IH]; intros pos s Hs; cbn [replaceAllFrom]; [exact Hs|].
  destruct (execFrom spacesRe pos s) as [m|] eqn:E; [|exact Hs].
  apply execFrom_sound in E as (u & s' & Hsplit & Hi & D).
  apply derives_plus_chr in D as (w & Hw & _ & _ & Hspaces & Hne).
  apply append_inv_tail in Hw. rewrite <- Hw in Hspaces, Hne.
  assert (Hs' : endsSolid s' = true).
  { destruct s' as [|a s'].
    - rewrite Hsplit, append_empty_r in Hs.
      now apply endsSolid_before_spaces in Hs.
    - rewrite Hsplit, <- append_assoc, endsSolid_append in Hs by discriminate.
      exact Hs. }
  replace (index m - pos)%nat with (String.length u) by lia.
  assert (Hrest : Js.drop (String.length u + String.length (matched m)) s = s')
    by now rewrite Hsplit, <- append_assoc, <- length_append, drop_append.
  rewrite Hrest.
  assert (Htake : Js.take (String.length u) s = u)
    by now rewrite Hsplit, take_append.
  rewrite Htake.
  destruct (String.length (matched m) =? 0)%nat eqn:Elen.
  { apply Nat.eqb_eq in Elen. destruct (matched m); [now destruct Hne|discriminate]. }
  specialize (IH (index m + String.length (matched m))%nat s' Hs').
  cbn [expand]. rewrite <- append_assoc.
  apply eq_trans with (2 := IH). apply endsSolid_append.
  intros Hnil. rewrite Hnil in IH. discriminate.
Qed.

(** The pattern "/^(.*?)\s*$/" with the replacement "$1" leaves such a text
    as it is. *)
Lemma cleanRe_solid (x : string) :
  endsSolid x = true -> replace cleanRe [Ref 1] x = x.
Proof.
  intros Hx. unfold replace.
  destruct (exec cleanRe x) as [m|] eqn:E; [|reflexivity].
  apply execFrom_sound in E as (u0 & s' & Hs & Hi & D).
  change cleanRe with
    (Cat Bol (Cat (Grp 1 (starLazy dot)) (Cat (star space) Eol))) in D.
  apply derives_Cat in D as (p1 & s1 & c1 & D1 & D).
  apply derives_Bol in D1 as (Hidx & -> & -> & ->).
  apply derives_Cat in D as (p2 & s2 & c2 & D2 & D).
  apply derives_Grp in D2 as (c2' & D2 & ->).
  apply derives_star_chr in D2 as (u & Hu & -> & -> & _).
  apply derives_Cat in D as (p3 & s3 & c3 & D3 & D).
  apply derives_star_chr in D3 as (w & -> & -> & -> & Hw).
  apply derives_Eol in D as (-> & -> & _ & Hgroups).
  rewrite Hidx in Hi. destruct u0; [|cbn in Hi; lia].
  rewrite append_empty_l, append_empty_r in Hs.
  rewrite !append_empty_r in Hu.
  assert (w = "") as ->.
  { apply (endsSolid_before_spaces u); [assumption|]. now rewrite <- Hu, <- Hs. }
  rewrite append_empty_r in Hu.
  unfold expand, group. rewrite Hgroups, Hidx. cbn [capture Nat.eqb default].
  rewrite Hs, Hu. unfold id.
  replace (0 + String.length u - 0)%nat with (String.length u) by lia.
  rewrite take_append. cbn [Js.take Nat.add].
  rewrite <- (append_empty_r u) at 3. rewrite drop_append.
  now rewrite !append_empty_l, !append_empty_r.
Qed.

(** *** The type code *)

Lemma typeLetter_upper (a : ascii) :
  among "PLTFpr" (Js.upperChar a) || among "PLTFpr" (Js.lowerChar a) = true ->
  among "PLTFR" (Js.upperChar a) = true.
Proof.
  destruct a as [[] [] [] [] [] [] [] []]; vm_compute; intros H;
    first [reflexivity|discriminate H].
Qed.

Lemma typeLetters_upper (w : string) :
  allChars (fun a => among "PLTFpr" (Js.upperChar a)
                     || among "PLTFpr" (Js.lowerChar a)) w = true ->
  allChars (among "PLTFR") (Js.toUpperCase w) = true.
Proof.
  induction w as [|a w IH]; [reflexivity|].
  cbn [allChars]. intros [Ha Hw]%andb_true_iff.
  change (Js.toUpperCase (String a w))
    with (String (Js.upperChar a) (Js.toUpperCase w)).
  cbn [allChars]. now rewrite (typeLetter_upper a Ha), (IH Hw).
Qed.

(** Whatever the pattern of the subject captures as the type consists,
    in upper case, of the letters P, L, T, F and R. *)
Lemma subjectRe_type (l : string) (m : MatchResult) :
  exec subjectRe l = Some m ->
  allChars (among "PLTFR") (Js.toUpperCase (default "" (group 2 m))) = true.
Proof.
  intros E. apply execFrom_sound in E as (u0 & s' & Hs & Hi & D).
  change subjectRe with
    (Cat Bol (Cat (Grp 1 (plusLazy dot)) (Cat (star space)
      (Cat (opt (Cat (lit "(") (Cat (Grp 2 (plus (oneOfi "PLTFpr"))) (lit ")"))))
        (Cat (star space) (Cat (opt (lit ":")) Eol)))))) in D.
  apply derives_Cat in D as (p1 & s1 & c1 & D1 & D).
  apply derives_Bol in D1 as (Hidx & -> & -> & ->).
  apply derives_Cat in D as (p2 & s2 & c2 & D2 & D).
  apply derives_Grp in D2 as (c2' & D2 & ->).
  apply derives_plus_chr in D2 as (u & Hu & -> & -> & _ & _).
  apply derives_Cat in D as (p3 & s3 & c3 & D3 & D).
  apply derives_star_chr in D3 as (w1 & -> & -> & -> & Hw1).
  apply derives_Cat in D as (p4 & s4 & c4 & D4 & D).
  apply derives_Cat in D as (p5 & s5 & c5 & D5 & D).
  apply derives_star_chr in D5 as (w2 & -> & -> & -> & Hw2).
  apply derives_Cat in D as (p6 & s6 & c6 & D6 & D).
  apply derives_Eol in D as (_ & _ & _ & Hgroups).
  assert (Hc6 : c6 = c4).
  { apply derives_opt in D6 as [(_ & _ & ->)|D6]; [reflexivity|].
    now apply derives_lit in D6 as (_ & _ & ->). }
  unfold group. rewrite Hgroups, Hc6.
  apply derives_opt in D4 as [(_ & _ & ->)|D4]; [reflexivity|].
  apply derives_Cat in D4 as (q1 & t1 & d1 & L1 & D4).
  apply derives_lit in L1 as (_ & _ & ->).
  apply derives_Cat in D4 as (q2 & t2 & d2 & G2 & L2).
  apply derives_lit in L2 as (_ & _ & ->).
  apply derives_Grp in G2 as (d2' & G2 & ->).
  apply derives_plus_chr in G2 as (w & -> & -> & _ & Hw & _).
  cbn [capture Nat.eqb].
  replace (q1 + String.length w - q1)%nat with (String.length w) by lia.
  rewrite take_append. change (default "" (Some w)) with w.
  now apply typeLetters_upper.
Qed.

(** *** Texts cut out of a text *)

Section Kept.
Variable P : ascii -> bool.

Lemma allChars_take (n : nat) : forall s,
  allChars P s = true -> allChars P (Js.take n s) = true.
Proof.
  induction n as [|n IH]; intros [|a s]; cbn [Js.take allChars]; try reflexivity.
  intros [Ha Hs]%andb_true_iff. now rewrite Ha, (IH _ Hs).
Qed.

Lemma allChars_drop (n : nat) : forall s,
  allChars P s = true -> allChars P (Js.drop n s) = true.
Proof.
  induction n as [|n IH]; intros [|a s]; cbn [Js.drop]; try (intros H; exact H).
  cbn [allChars]. intros [_ Hs]%andb_true_iff. now apply IH.
Qed.

Lemma allChars_trimStart (s : string) :
  allChars P s = true -> allChars P (Js.trimStart s) = true.
Proof.
  induction s as [|a s IH]; [reflexivity|]. cbn [Js.trimStart].
  destruct (Js.isSpace a); [|intros H; exact H].
  cbn [allChars]. intros [_ Hs]%andb_true_iff. now apply IH.
Qed.

Lemma allChars_trimEnd (s : string) :
  allChars P s = true -> allChars P (Js.trimEnd s) = true.
Proof.
  induction s as [|a s IH]; [reflexivity|]. cbn [Js.trimEnd allChars].
  intros [Ha Hs]%andb_true_iff.
  destruct (Js.isSpace a && Js.isEmpty (Js.trimEnd s)); [reflexivity|].
  cbn [allChars]. now rewrite Ha, (IH Hs).
Qed.

Lemma allChars_trim (s : string) :
  allChars P s = true -> allChars P (Js.trim s) = true.
Proof. intros H. now apply allChars_trimEnd, allChars_trimStart. Qed.

(** Every capture of a match on a text of [P] characters, started with
    captures of [P] characters, consists of [P] characters. *)
Lemma derives_kept (r : regex) (pos : nat) (s : string) (c : caps)
    (pos' : nat) (s' : string) (c' : caps) :
  derives r pos s c pos' s' c' ->
  allChars P s = true ->
  (forall i x, capture i c = Some x -> allChars P x = true) ->
  allChars P s' = true /\
  (forall i x, capture i c' = Some x -> allChars P x = true).
Proof.
  induction 1 as
    [pos s c|cls a pos s c Ha|r1 r2 pos s c pos1 s1 c1 pos2 s2 c2 _ IH1 _ IH2
    |r1 r2 pos s c pos' s' c' _ IH|r1 r2 pos s c pos' s' c' _ IH
    |greedy lo hi r pos s c Hstop
    |greedy lo hi r pos s c pos1 s1 c1 pos2 s2 c2 Hhi _ IH1 _ IH2
    |i r pos s c pos' s' c' _ IH|s c|pos c];
    intros Hs Hc; auto.
  - cbn [allChars] in Hs. apply andb_true_iff in Hs as [_ Hs]. auto.
  - destruct (IH1 Hs Hc) as [Hs1 Hc1]. auto.
  - destruct (IH1 Hs Hc) as [Hs1 Hc1]. auto.
  - destruct (IH Hs Hc) as [Hs' Hc']. split; [assumption|].
    intros j x. cbn [capture]. destruct (j =? i)%nat; [|apply Hc'].
    intros [= <-]. now apply allChars_take.
Qed.

(** Replacing a match by a text of [P] characters in a text of [P]
    characters. *)
Lemma replace_kept (r : regex) (t : list piece) (s : string) :
  allChars P s = true ->
  (forall m, exec r s = Some m -> allChars P (expand t m) = true) ->
  allChars P (replace r t s) = true.
Proof.
  intros Hs Ht. unfold replace. destruct (exec r s) as [m|]; [|assumption].
  rewrite !allChars_append, (Ht m eq_refl), allChars_take, allChars_drop;
    auto.
Qed.

Lemma replaceAll_kept (r : regex) (filler : string) (fuel : nat) : forall pos s,
  allChars P filler = true ->
  allChars P s = true ->
  allChars P (replaceAllFrom fuel r [Lit filler] pos s) = true.
Proof.
  induction fuel as [|fuel IH]; intros pos s Hf Hs; cbn [replaceAllFrom];
    [assumption|].
  destruct (execFrom r pos s) as [m|]; [|assumption].
  cbn [expand]. rewrite !allChars_append, allChars_take, Hf by assumption.
  cbn [allChars andb].
  pose proof (allChars_drop
    (index m - pos + String.length (matched m)) s Hs) as Hrest.
  destruct (String.length (matched m) =? 0)%nat.
  - destruct (Js.drop _ s) as [|a rest]; [reflexivity|].
    cbn [allChars] in Hrest |- *. apply andb_true_iff in Hrest as [Ha Hrest].
    now rewrite Ha, IH.
  - now apply IH.
Qed.

Lemma splitFrom_kept (r : regex) (s : string) (fuel : nat) : forall p q g,
  allChars P s = true -> In g (splitFrom fuel r p q s) -> allChars P g = true.
Proof.
  induction fuel as [|fuel IH]; intros p q g Hs; cbn [splitFrom]; [intros []|].
  destruct (String.length s <=? q)%nat.
  - intros [<-|[]]. now apply allChars_drop.
  - destruct (matchAt r q (Js.drop q s)) as [[e c]|]; [|now apply IH].
    destruct (Nat.min e (String.length s) =? p)%nat; [now apply IH|].
    intros [<-|Hg]; [now apply allChars_take, allChars_drop|now apply (IH _ _ _ Hs Hg)].
Qed.

Lemma split_kept (r : regex) (s g : string) :
  allChars P s = true -> In g (split r s) -> allChars P g = true.
Proof.
  intros Hs. unfold split. destruct s as [|a s].
  - destruct (matchAt r 0 ""); [intros []|intros [<-|[]]; reflexivity].
  - now apply splitFrom_kept.
Qed.

End Kept.

(** *** What the patterns of a line capture *)

Lemma groupsRe_capture (l : string) (m : MatchResult) :
  exec groupsRe l = Some m ->
  allChars (fun a => negb (among ")" a)) (default "" (group 1 m)) = true.
Proof.
  intros E. apply execFrom_sound in E as (u0 & s' & Hs & Hi & D).
  change groupsRe with
    (Cat (lit "(") (Cat (Grp 1 (plus (noneOf ")")))
       (Cat (lit ")") (Cat (star space) Eol)))) in D.
  apply derives_Cat in D as (p1 & s1 & c1 & D1 & D).
  apply derives_lit in D1 as (_ & _ & ->).
  apply derives_Cat in D as (p2 & s2 & c2 & D2 & D).
  apply derives_Grp in D2 as (c2' & D2 & ->).
  apply derives_plus_chr in D2 as (w & -> & -> & -> & Hw & _).
  apply derives_Cat in D as (p3 & s3 & c3 & D3 & D).
  apply derives_lit in D3 as (_ & _ & ->).
  apply derives_Cat in D as (p4 & s4 & c4 & D4 & D).
  apply derives_star_chr in D4 as (w4 & _ & _ & -> & _).
  apply derives_Eol in D as (_ & _ & _ & Hgroups).
  unfold group. rewrite Hgroups. cbn [capture Nat.eqb].
  replace (p1 + String.length w - p1)%nat with (String.length w) by lia.
  now rewrite take_append.
Qed.

Lemma lecturerRe_capture (l : string) (m : MatchResult) :
  exec lecturerRe l = Some m ->
  allChars (fun a => negb (among ":()" a)) (default "" (group 1 m)) = true.
Proof.
  intros E. apply execFrom_sound in E as (u0 & s' & Hs & Hi & D).
  change lecturerRe with
    (Cat (lit ":") (Cat (star space) (Cat (Grp 1 (plusLazy (noneOf ":()")))
       (Cat (opt (Cat (star space) (Cat (lit ":") (star space)))) Eol)))) in D.
  apply derives_Cat in D as (p1 & s1 & c1 & D1 & D).
  apply derives_lit in D1 as (_ & _ & ->).
  apply derives_Cat in D as (p2 & s2 & c2 & D2 & D).
  apply derives_star_chr in D2 as (w2 & _ & _ & -> & _).
  apply derives_Cat in D as (p3 & s3 & c3 & D3 & D).
  apply derives_Grp in D3 as (c3' & D3 & ->).
  apply derives_plus_chr in D3 as (w & -> & -> & -> & Hw & _).
  apply derives_Cat in D as (p4 & s4 & c4 & D4 & D).
  apply derives_Eol in D as (_ & _ & _ & Hgroups).
  assert (Hc4 : c4 = [(1, Js.take (p2 + String.length w - p2) (w +:+ s3))]).
  { apply derives_opt in D4 as [(_ & _ & ->)|D4]; [reflexivity|].
    apply derives_Cat in D4 as (q1 & t1 & d1 & E1 & D4).
    apply derives_star_chr in E1 as (? & _ & _ & -> & _).
    apply derives_Cat in D4 as (q2 & t2 & d2 & E2 & E3).
    apply derives_lit in E2 as (_ & _ & ->).
    now apply derives_star_chr in E3 as (? & _ & _ & -> & _). }
  unfold group. rewrite Hgroups, Hc4. cbn [capture Nat.eqb].
  replace (p2 + String.length w - p2)%nat with (String.length w) by lia.
  now rewrite take_append.
Qed.

Lemma roomRe_capture (l : string) (m : MatchResult) :
  exec roomRe l = Some m ->
  allChars (fun a => negb (among ")" a)) (default "" (group 1 m)) = true.
Proof.
  intros E. apply execFrom_sound in E as (u0 & s' & Hs & Hi & D).
  change roomRe with
    (Cat (lit ":") (Cat (star space) (Cat (lit "(")
       (Cat (Grp 1 (plus (noneOf ")"))) (lit ")"))))) in D.
  apply derives_Cat in D as (p1 & s1 & c1 & D1 & D).
  apply derives_lit in D1 as (_ & _ & ->).
  apply derives_Cat in D as (p2 & s2 & c2 & D2 & D).
  apply derives_star_chr in D2 as (w2 & _ & _ & -> & _).
  apply derives_Cat in D as (p3 & s3 & c3 & D3 & D).
  apply derives_lit in D3 as (_ & _ & ->).
  apply derives_Cat in D as (p4 & s4 & c4 & D4 & D).
  apply derives_Grp in D4 as (c4' & D4 & ->).
  apply derives_plus_chr in D4 as (w & -> & -> & -> & Hw & _).
  apply derives_lit in D as (_ & _ & Hgroups).
  unfold group. rewrite Hgroups. cbn [capture Nat.eqb].
  replace (p3 + String.length w - p3)%nat with (String.length w) by lia.
  now rewrite take_append.
Qed.

(** The captures of a match in a text of [P] characters. *)
Lemma exec_kept (P : ascii -> bool) (r : regex) (s : string) (m : MatchResult)
    (i : nat) :
  allChars P s = true -> exec r s = Some m ->
  allChars P (default "" (group i m)) = true.
Proof.
  intros Hs E. apply execFrom_sound in E as (u & s' & Hsplit & _ & D).
  rewrite Hsplit, allChars_append in Hs. apply andb_true_iff in Hs as [_ Hs].
  destruct (derives_kept P _ _ _ _ _ _ _ D Hs) as [_ Hc]; [discriminate|].
  unfold group. destruct (capture i (groups m)) as [x|] eqn:Ei; [|reflexivity].
  exact (Hc i x Ei).
Qed.

Lemma groups_field (l : string) (m : MatchResult) (g : string) :
  exec groupsRe l = Some m ->
  In g (List.filter (fun g => Js.truthy g && (0 <? String.length g)%nat)
          (map Js.trim (split groupSepRe (default "" (group 1 m))))) ->
  g <> "" /\ allChars (fun a => negb (among ")" a)) g = true.
Proof.
  intros E [Hin Hg]%List.filter_In. split.
  - intros ->. discriminate.
  - apply List.in_map_iff in Hin as (g0 & <- & Hin).
    apply allChars_trim. eapply split_kept; [|exact Hin].
    now apply (groupsRe_capture l).
Qed.

Lemma lecturer_field (l : string) (m : MatchResult) :
  exec lecturerRe l = Some m ->
  allChars (fun a => negb (among ":()" a))
    (replaceAll spacesRe [Lit " "]
       (replace titleRe [Ref 1; Lit " "]
          (Js.trim (default "" (group 1 m))))) = true.
Proof.
  intros E. apply replaceAll_kept; [reflexivity|].
  pose proof (allChars_trim _ _ (lecturerRe_capture l m E)) as Htrim.
  apply replace_kept; [assumption|].
  intros m' E'. cbn [expand]. rewrite allChars_append.
  now rewrite (exec_kept _ _ _ _ 1 Htrim E').
Qed.

Lemma room_field (l : string) (m : MatchResult) :
  exec roomRe l = Some m ->
  allChars (fun a => negb (among ")" a))
    (replaceAll spacesRe [Lit " "]
       (replace roomPrefixRe []
          (Js.trim (default "" (group 1 m))))) = true.
Proof.
  intros E. apply replaceAll_kept; [reflexivity|].
  apply replace_kept; [|reflexivity].
  exact (allChars_trim _ _ (roomRe_capture l m E)).
Qed.

End RegexFacts.

(** ** A line without brackets and colons *)

Section PlainLineParsed.
Import Regex RegexSpec RegexFacts ExcelParser.

(** X26: a line in which neither an opening bracket nor a colon occurs is
    parsed to null when it is blank, and otherwise to a record that holds
    only a subject: the trimmed line with every run of white space
    replaced by one space; the type, the room and the lecturer are empty,
    there are no groups, the raw text is the line as given and the
    confidence is low. *)
Theorem parseSessionLine_plain (line : string) :
  among line "(" = false ->
  among line ":" = false ->
  parseSessionLine line =
    if Js.isEmpty (Js.trim line) then None
    else Some (ParsedCell.mk (replaceAll spacesRe [Lit " "] (Js.trim line))
                 "" "" "" [] line low).
Proof.
  intros Hb Hc. unfold parseSessionLine.
  rewrite (groupsRe_plain line Hb), (lecturerRe_plain line Hc),
    (roomRe_plain line Hc).
  set (x := replaceAll spacesRe [Lit " "] (Js.trim line)).
  assert (Hblank : Js.isEmpty (Js.trim line) = true -> x = "").
  { subst x. now destruct (Js.trim line). }
  assert (Hsolid : Js.isEmpty (Js.trim line) = false -> endsSolid x = true).
  { intros He. apply replaceAll_spaces_solid, trimEnd_solid.
    unfold Js.trim in He. intros Hnil. rewrite Hnil in He. discriminate. }
  assert (Hsubject :
    (match exec subjectRe line with
     | Some subjectMatch =>
         (replace cleanRe [Ref 1]
            (replaceAll spacesRe [Lit " "]
               (Js.trim (default "" (group 1 subjectMatch)))),
          Js.toUpperCase (default "" (group 2 subjectMatch)))
     | None =>
         (replaceAll spacesRe [Lit " "]
            (Js.trim (replace trailingColonRe [] line)), "")
     end) = (x, "")).
  { destruct (exec subjectRe line) as [m|] eqn:E.
    - destruct (subjectRe_plain line Hb Hc m E) as (u & w & Hline & Hw & -> & ->).
      assert (Htrim : Js.trim u = Js.trim line)
        by now rewrite Hline, (trim_append_spaces u w Hw).
      change (default "" (Some u)) with u. rewrite Htrim. fold x.
      change (Js.toUpperCase (default "" None)) with "". f_equal.
      destruct (Js.isEmpty (Js.trim line)) eqn:Ee.
      + now rewrite (Hblank eq_refl).
      + now apply cleanRe_solid, Hsolid.
    - unfold replace at 1. now rewrite (trailingColonRe_plain line Hc). }
  rewrite Hsubject.
  destruct (Js.isEmpty (Js.trim line)) eqn:Ee.
  - now rewrite (Hblank eq_refl).
  - specialize (Hsolid eq_refl).
    destruct x as [|b x'] eqn:Ex; [discriminate|]. cbn [Js.isEmpty].
    do 2 f_equal. unfold calculateLineConfidence.
    cbn [Js.truthy Js.isEmpty negb length andb].
    now destruct (3 <? String.length (String b x'))%nat.
Qed.

End PlainLineParsed.

Lemma parseSessionLine_plain_witness :
  parseSessionLine "  Linear   Algebra " =
    Some (ParsedCell.mk "Linear Algebra" "" "" "" [] "  Linear   Algebra " low).
Proof.
  exact (parseSessionLine_plain "  Linear   Algebra " eq_refl eq_refl).
Defined.

(** ** The type code of a parsed line *)

Section TypeCode.
Import Regex RegexSpec RegexFacts ExcelParser.

(** X27: whatever the line, the session type of a parsed line is empty or
    made of the upper-case letters P, L, T, F and R only. *)
Theorem parseSessionLine_type (line : string) (p : ParsedCell.t) :
  parseSessionLine line = Some p ->
  allChars (among "PLTFR") (ParsedCell.session_type p) = true.
Proof.
  unfold parseSessionLine.
  destruct (exec groupsRe line) as [gm|]; cbv beta iota zeta;
    (destruct (exec lecturerRe _) as [lm|]; cbv beta iota zeta;
     (destruct (exec roomRe _) as [rm|]; cbv beta iota zeta;
      (destruct (exec subjectRe _) as [sm|] eqn:E; cbv beta iota zeta;
       [apply subjectRe_type in E|];
       match goal with |- (if ?b then _ else _) = _ -> _ => destruct b end;
       intros [= <-]; cbn [ParsedCell.session_type];
       first [exact E|reflexivity]))).
Qed.

End TypeCode.

Lemma parseSessionLine_type_witness :
  RegexSpec.allChars (among "PLTFR") "L" = true.
Proof.
  exact (parseSessionLine_type "Math (l):"
           (ParsedCell.mk "Math" "L" "" "" [] "Math (l):" medium) eq_refl).
Defined.

(** ** The fields of a parsed line *)

Section Fields.
Import Regex RegexSpec RegexFacts ExcelParser.

(** X28: whatever the line, in a parsed line the lecturer holds no colon
    and no bracket, the room holds no closing bracket, and every group is
    a non-empty text without a closing bracket. *)
Theorem parseSessionLine_fields (line : string) (p : ParsedCell.t) :
  parseSessionLine line = Some p ->
  allChars (fun a => negb (among ":()" a)) (ParsedCell.lecturer p) = true /\
  allChars (fun a => negb (among ")" a)) (ParsedCell.room_or_code p) = true /\
  (forall g, In g (ParsedCell.groups p) ->
     g <> "" /\ allChars (fun a => negb (among ")" a)) g = true).
Proof.
  unfold parseSessionLine.
  destruct (exec groupsRe line) as [gm|] eqn:Eg; cbv beta iota zeta;
    (destruct (exec lecturerRe _) as [lm|] eqn:El; cbv beta iota zeta;
     (destruct (exec roomRe _) as [rm|] eqn:Er; cbv beta iota zeta;
      (destruct (exec subjectRe _) as [sm|]; cbv beta iota zeta;
       match goal with |- (if ?b then _ else _) = _ -> _ => destruct b end;
       intros [= <-];
       cbn [ParsedCell.lecturer ParsedCell.room_or_code ParsedCell.groups];
       (split; [first [exact (lecturer_field _ _ El)|reflexivity]|]);
       (split; [first [exact (room_field _ _ Er)|reflexivity]|]);
       first [intros g Hg; exact (groups_field _ _ g Eg Hg)|intros g []]))).
Qed.

End Fields.

Lemma parseSessionLine_fields_witness :
  RegexSpec.allChars (fun a => negb (among ":()" a)) "dr. Smith" = true /\
  RegexSpec.allChars (fun a => negb (among ")" a)) "3" = true /\
  (forall g, In g ["G1"; "G2"] ->
     g <> "" /\ RegexSpec.allChars (fun a => negb (among ")" a)) g = true).
Proof.
  exact (parseSessionLine_fields "Math (L): (Room 3): dr.Smith (G1 G2)"
           (ParsedCell.mk "Math" "L" "3" "dr. Smith" ["G1"; "G2"] "Math (L)" high)
           eq_refl).
Defined.
